(** * MoleditPy installer: shortcut and file-association state machine

    A shallow embedding of [moleditpy_installer/main.py].  The program is a
    sequence of calls into the operating system (registry, filesystem,
    environment variables) and into the [pyshortcuts] package.  Those
    collaborators are modelled here:

    - the Windows registry hive [HKEY_CURRENT_USER] is a finite tree of keys
      (module [winreg]);
    - the filesystem is a finite map from path strings to entry kinds;
    - [os.environ] is a finite map from names to values;
    - [pathlib], [shutil.which], [importlib.resources] and
      [pyshortcuts.make_shortcut] are oracles collected in the record [Env];
    - Python exceptions are values of type [exn]; a computation returns
      [Ok v] or [Raise e] together with the world it leaves behind.

    Calls that can raise do so in the model wherever the source makes them,
    inside a [try] or not: the registry calls, the resource lookup,
    [make_shortcut], [os.remove] and [shutil.rmtree], and the probes
    [Path.home()], [Path.exists()], [Path.is_dir()] and [Path.is_file()].
    Writing a line to standard output is taken to succeed: [print] appends
    the line and returns.

    The functions of [main.py] keep their names. *)

From Stdlib Require Import Ascii String ZArith.
From stdpp Require Import base gmap strings list.

Set Warnings "-register-all".
Open Scope string_scope.
Open Scope list_scope.
Open Scope stdpp_scope.

(** ** Strings *)

(** The double-quote character, used by the f-strings that quote paths. *)
Definition dq : string := String "034"%char EmptyString.

(** [f'"{s}"'] *)
Definition quoted (s : string) : string := dq +:+ s +:+ dq.

(** Python truthiness of an [Optional[str]]: [None] and the empty string are
    falsy. *)
Definition truthy (o : option string) : bool :=
  match o with
  | None => false
  | Some s => negb (bool_decide (s = EmptyString))
  end.

(** [f"{o}"] for an [Optional[str]]. *)
Definition fmt_opt (o : option string) : string :=
  match o with
  | None => "None"
  | Some s => s
  end.

(** ** Exceptions *)

Inductive ExnClass :=
| FileNotFoundError
| PermissionError
| OSError
| RuntimeError
| OtherException.

Global Instance ExnClass_eq_dec : EqDecision ExnClass.
Proof. solve_decision. Defined.

Record exn := Exn { exn_class : ExnClass; exn_msg : string }.

Global Instance exn_eq_dec : EqDecision exn.
Proof. solve_decision. Defined.

Inductive Result (A : Type) :=
| Ok (a : A)
| Raise (e : exn).
Arguments Ok {A} a.
Arguments Raise {A} e.

(** ** The registry ([winreg]) *)

(** The calls of the [winreg] module that the installer makes, over a hive
    that is a finite tree.  A call raises [FileNotFoundError] on a key that
    does not exist, [PermissionError] when [DeleteKey] meets a key that still
    has subkeys, and [OSError] when [EnumKey] runs past the last subkey;
    access rights are not part of the model (every key is below
    [HKEY_CURRENT_USER]).  Key names are compared as written. *)

Module winreg.

(** A key holds its default value and its subkeys in enumeration order. *)
Inductive RegKey :=
| MkKey (default_value : option string) (subkeys : list (string * RegKey)).

Definition default_value (k : RegKey) : option string :=
  match k with MkKey v _ => v end.

Definition subkeys (k : RegKey) : list (string * RegKey) :=
  match k with MkKey _ cs => cs end.

Definition empty_key : RegKey := MkKey None [].

Definition set_subkeys (cs : list (string * RegKey)) (k : RegKey) : RegKey :=
  MkKey (default_value k) cs.

Definition set_default (v : string) (k : RegKey) : RegKey :=
  MkKey (Some v) (subkeys k).

(** An open handle is the absolute path of the key below the hive root. *)
Definition HKEY := list string.

Definition HKEY_CURRENT_USER : HKEY := [].

(** The hive together with the record of the keys removed by [DeleteKey],
    oldest first. *)
Record Registry := MkRegistry {
  hkcu : RegKey;
  deleted : list HKEY
}.

(** *** Key paths *)

Definition backslash : ascii := "092"%char.

Fixpoint split_on (sep : ascii) (s : string) : list string :=
  match s with
  | EmptyString => [EmptyString]
  | String c s' =>
      if Ascii.eqb c sep then EmptyString :: split_on sep s'
      else match split_on sep s' with
           | [] => [String c EmptyString]
           | w :: ws => String c w :: ws
           end
  end.

(** The components of a sub-key string such as [Software\Classes\.pmeprj]. *)
Definition split_path (sub_key : string) : list string :=
  List.filter (fun w => negb (bool_decide (w = EmptyString)))
              (split_on backslash sub_key).

Fixpoint has_char (c : ascii) (s : string) : bool :=
  match s with
  | EmptyString => false
  | String d s' => Ascii.eqb d c || has_char c s'
  end.

(** A key name is not empty and holds no backslash. *)
Definition valid_name (n : string) : bool :=
  negb (bool_decide (n = EmptyString)) && negb (has_char backslash n).

(** *** Trees *)

Fixpoint find_child (n : string) (cs : list (string * RegKey)) : option RegKey :=
  match cs with
  | [] => None
  | (m, k) :: cs' => if decide (n = m) then Some k else find_child n cs'
  end.

Fixpoint alter_child (n : string) (f : RegKey -> RegKey)
    (cs : list (string * RegKey)) : list (string * RegKey) :=
  match cs with
  | [] => []
  | (m, k) :: cs' =>
      if decide (n = m) then (m, f k) :: cs' else (m, k) :: alter_child n f cs'
  end.

Fixpoint remove_child (n : string) (cs : list (string * RegKey))
    : list (string * RegKey) :=
  match cs with
  | [] => []
  | (m, k) :: cs' =>
      if decide (n = m) then cs' else (m, k) :: remove_child n cs'
  end.

Definition drop_child (n : string) (k : RegKey) : RegKey :=
  set_subkeys (remove_child n (subkeys k)) k.

Fixpoint lookup_key (k : RegKey) (p : HKEY) : option RegKey :=
  match p with
  | [] => Some k
  | n :: p' =>
      match find_child n (subkeys k) with
      | Some c => lookup_key c p'
      | None => None
      end
  end.

Fixpoint alter_key (f : RegKey -> RegKey) (p : HKEY) (k : RegKey) : RegKey :=
  match p with
  | [] => f k
  | n :: p' => set_subkeys (alter_child n (alter_key f p') (subkeys k)) k
  end.

(** Creates every missing key along [p]; new keys go last. *)
Fixpoint create_path (p : HKEY) (k : RegKey) : RegKey :=
  match p with
  | [] => k
  | n :: p' =>
      match find_child n (subkeys k) with
      | Some _ => set_subkeys (alter_child n (create_path p') (subkeys k)) k
      | None => set_subkeys (subkeys k ++ [(n, create_path p' empty_key)]) k
      end
  end.

Fixpoint unsnoc {A} (l : list A) : option (list A * A) :=
  match l with
  | [] => None
  | x :: l' =>
      match unsnoc l' with
      | None => Some ([], x)
      | Some (q, y) => Some (x :: q, y)
      end
  end.

Fixpoint key_depth (k : RegKey) : nat :=
  match k with
  | MkKey _ cs => S (list_max (map (fun nc => key_depth (snd nc)) cs))
  end.

(** Sibling names are distinct and valid, at every level. *)
Fixpoint wf_key (k : RegKey) : bool :=
  match k with
  | MkKey _ cs =>
      bool_decide (NoDup (map fst cs))
      && forallb valid_name (map fst cs)
      && forallb (fun nc => wf_key (snd nc)) cs
  end.

(** The keys of the subtree [k] rooted at path [p], children before their
    parent, siblings in enumeration order. *)
Fixpoint postorder (p : HKEY) (k : RegKey) : list HKEY :=
  match k with
  | MkKey _ cs =>
      List.concat (map (fun nc => postorder (p ++ [fst nc]) (snd nc)) cs) ++ [p]
  end.

(** *** The API used by the installer *)

Definition not_found (sub_key : string) : exn :=
  Exn FileNotFoundError
      "[WinError 2] The system cannot find the file specified".

Definition access_denied : exn :=
  Exn PermissionError "[WinError 5] Access is denied".

Definition no_more_data : exn :=
  Exn OSError "[WinError 259] No more data is available".

(** [winreg.OpenKey(key, sub_key, 0, KEY_ALL_ACCESS)] *)
Definition OpenKey (r : Registry) (key : HKEY) (sub_key : string) : Result HKEY :=
  let p := key ++ split_path sub_key in
  match lookup_key (hkcu r) p with
  | Some _ => Ok p
  | None => Raise (not_found sub_key)
  end.

(** [winreg.QueryInfoKey(key)[0]]: the number of subkeys. *)
Definition QueryInfoKey (r : Registry) (key : HKEY) : Result nat :=
  match lookup_key (hkcu r) key with
  | Some k => Ok (List.length (subkeys k))
  | None => Raise (not_found EmptyString)
  end.

(** [winreg.EnumKey(key, index)] *)
Definition EnumKey (r : Registry) (key : HKEY) (index : nat) : Result string :=
  match lookup_key (hkcu r) key with
  | Some k =>
      match subkeys k !! index with
      | Some nc => Ok (fst nc)
      | None => Raise no_more_data
      end
  | None => Raise (not_found EmptyString)
  end.

(** [winreg.DeleteKey(key, sub_key)]: the key must exist and have no
    subkeys. *)
Definition DeleteKey (r : Registry) (key : HKEY) (sub_key : string)
    : Result Registry :=
  let p := key ++ split_path sub_key in
  match lookup_key (hkcu r) p with
  | None => Raise (not_found sub_key)
  | Some k =>
      match subkeys k, unsnoc p with
      | [], Some (q, n) =>
          Ok (MkRegistry (alter_key (drop_child n) q (hkcu r))
                         (deleted r ++ [p]))
      | _, _ => Raise access_denied
      end
  end.

(** [winreg.CreateKey(key, sub_key)]: opens the key, creating it and its
    missing ancestors. *)
Definition CreateKey (r : Registry) (key : HKEY) (sub_key : string)
    : Result (HKEY * Registry) :=
  match lookup_key (hkcu r) key with
  | None => Raise (not_found sub_key)
  | Some _ =>
      let p := key ++ split_path sub_key in
      Ok (p, MkRegistry (create_path p (hkcu r)) (deleted r))
  end.

(** [winreg.SetValue(key, sub_key, REG_SZ, value)]: sets the default value
    of the sub-key, creating it when missing. *)
Definition SetValue (r : Registry) (key : HKEY) (sub_key : string)
    (value : string) : Result Registry :=
  match lookup_key (hkcu r) key with
  | None => Raise (not_found sub_key)
  | Some _ =>
      let p := key ++ split_path sub_key in
      Ok (MkRegistry (alter_key (set_default value) p (create_path p (hkcu r)))
                     (deleted r))
  end.

End winreg.

Import winreg.

(** ** The world outside the program *)

(** What [stat] finds at a path that is in the filesystem map: a regular
    file, a directory, or an error other than "no such file" (for instance
    [PermissionError], when a directory on the way may not be searched).
    A path that is not in the map does not exist. *)
Inductive FsKind :=
| RegularFile (executable : bool)
| Directory
| Unreadable (error : exn).

Global Instance FsKind_eq_dec : EqDecision FsKind.
Proof. solve_decision. Defined.

(** The keyword arguments of one [make_shortcut] call; [None] stands for an
    argument the caller leaves at its default. *)
Record ShortcutCall := MkShortcutCall {
  sc_script : string;
  sc_name : string;
  sc_icon : option string;
  sc_desktop : option bool;
  sc_startmenu : option bool;
  sc_terminal : option bool;
  sc_noexe : option bool
}.

(** What the program reads but never changes.  Paths are represented by their
    [str()]. *)
Record Env := MkEnv {
  (** [platform.system()] *)
  platform_system : string;
  (** [os.environ] *)
  environ : gmap string string;
  (** [Path(sys.argv[0]).resolve().parent] *)
  script_dir : string;
  (** [Path.home()]: the home directory, or the [RuntimeError] raised when
      it cannot be determined *)
  home_dir : Result string;
  (** [Path(s)] *)
  Path : string -> string;
  (** [p / name] *)
  joinpath : string -> string -> string;
  (** [p.suffix] *)
  path_suffix : string -> string;
  (** [p.with_suffix(s)] *)
  with_suffix : string -> string -> string;
  (** [shutil.which(name)] *)
  which : string -> option string;
  (** [importlib.resources.as_file(files("moleditpy_installer") / "data" / n)] *)
  icon_resource : string -> Result string;
  (** the exception, if any, that [make_shortcut] raises on a call *)
  make_shortcut_error : ShortcutCall -> option exn;
  (** the exception, if any, that [os.remove] or [shutil.rmtree] raises *)
  remove_error : string -> option exn
}.

(** What the program changes. *)
Record World := MkWorld {
  registry : Registry;
  fs : gmap string FsKind;
  (** lines printed, oldest first *)
  stdout : list string;
  (** the [make_shortcut] calls made, oldest first *)
  shortcut_calls : list ShortcutCall
}.

(** ** Computations: state and exceptions *)

Definition M (A : Type) : Type := World -> Result A * World.

Global Instance M_ret : MRet M := fun A a w => (Ok a, w).

Global Instance M_bind : MBind M := fun A B f m w =>
  match m w with
  | (Ok a, w') => f a w'
  | (Raise e, w') => (Raise e, w')
  end.

Definition pure {A} (a : A) : M A := mret a.

(** A call that touches nothing and returns or raises. *)
Definition lift_result {A} (r : Result A) : M A := fun w => (r, w).

(** [try: body except Exception as e: handler(e)] *)
Definition try_except {A} (body : M A) (handler : exn -> M A) : M A :=
  fun w =>
    match body w with
    | (Ok a, w') => (Ok a, w')
    | (Raise e, w') => handler e w'
    end.

Definition print (line : string) : M unit :=
  fun w => (Ok tt, MkWorld (registry w) (fs w) (stdout w ++ [line])
                           (shortcut_calls w)).

Definition set_registry (r : Registry) (w : World) : World :=
  MkWorld r (fs w) (stdout w) (shortcut_calls w).

(** A registry call that returns a value and a new registry. *)
Definition reg_call {A} (op : Registry -> Result (A * Registry)) : M A :=
  fun w =>
    match op (registry w) with
    | Ok (a, r) => (Ok a, set_registry r w)
    | Raise e => (Raise e, w)
    end.

(** A registry call that only changes the registry. *)
Definition reg_update (op : Registry -> Result Registry) : M unit :=
  fun w =>
    match op (registry w) with
    | Ok r => (Ok tt, set_registry r w)
    | Raise e => (Raise e, w)
    end.

(** [for x in xs: body(x)] *)
Fixpoint for_each {A} (xs : list A) (body : A -> M unit) : M unit :=
  match xs with
  | [] => mret tt
  | x :: xs' => body x;; for_each xs' body
  end.

(** [p.exists()] of [pathlib]: an error of [stat] other than "no such file"
    is raised again. *)
Definition path_exists (p : string) : M bool :=
  fun w =>
    match fs w !! p with
    | Some (Unreadable e) => (Raise e, w)
    | Some _ => (Ok true, w)
    | None => (Ok false, w)
    end.

(** [os.path.exists(p)]: every error of [stat] gives [False]. *)
Definition os_path_exists (p : string) : M bool :=
  fun w =>
    match fs w !! p with
    | Some (Unreadable _) => (Ok false, w)
    | Some _ => (Ok true, w)
    | None => (Ok false, w)
    end.

(** [p.is_dir()] *)
Definition path_is_dir (p : string) : M bool :=
  fun w =>
    match fs w !! p with
    | Some (Unreadable e) => (Raise e, w)
    | Some Directory => (Ok true, w)
    | _ => (Ok false, w)
    end.

(** [p.is_file() and os.access(p, os.X_OK)]: [is_file] raises as [exists]
    does; [os.access] only returns. *)
Definition is_executable_file (p : string) : M bool :=
  fun w =>
    match fs w !! p with
    | Some (Unreadable e) => (Raise e, w)
    | Some (RegularFile true) => (Ok true, w)
    | _ => (Ok false, w)
    end.

(** Removal of the entry at [p]: it goes away, or the call raises and leaves
    the filesystem as it was.  Entries below a directory are not part of the
    model. *)
Definition remove_path (env : Env) (p : string) : M unit :=
  fun w =>
    match remove_error env p with
    | Some e => (Raise e, w)
    | None => (Ok tt, MkWorld (registry w) (delete p (fs w)) (stdout w)
                              (shortcut_calls w))
    end.

(** [os.remove(p)] *)
Definition os_remove (env : Env) (p : string) : M unit := remove_path env p.

(** [shutil.rmtree(p)] *)
Definition shutil_rmtree (env : Env) (p : string) : M unit := remove_path env p.

(** [pyshortcuts.make_shortcut(...)]: the call is recorded; the artifact it
    writes is outside the model. *)
Definition make_shortcut (env : Env) (c : ShortcutCall) : M unit :=
  fun w =>
    let w' := MkWorld (registry w) (fs w) (stdout w) (shortcut_calls w ++ [c]) in
    match make_shortcut_error env c with
    | Some e => (Raise e, w')
    | None => (Ok tt, w')
    end.

(** Registry computations that may recurse: [None] stands for a recursion cut
    off by its depth bound. *)
Definition F (A : Type) : Type := Registry -> option (Result A * Registry).

Global Instance F_ret : MRet F := fun A a r => Some (Ok a, r).

Global Instance F_bind : MBind F := fun A B f m r =>
  match m r with
  | Some (Ok a, r') => f a r'
  | Some (Raise e, r') => Some (Raise e, r')
  | None => None
  end.

Definition F_pure {A} (a : A) : F A := mret a.

Definition F_try {A} (body : F A) (handler : exn -> F A) : F A :=
  fun r =>
    match body r with
    | Some (Ok a, r') => Some (Ok a, r')
    | Some (Raise e, r') => handler e r'
    | None => None
    end.

Definition F_read {A} (op : Registry -> Result A) : F A :=
  fun r => Some (op r, r).

Definition F_update (op : Registry -> Result Registry) : F unit :=
  fun r =>
    match op r with
    | Ok r' => Some (Ok tt, r')
    | Raise e => Some (Raise e, r)
    end.

Fixpoint F_for {A} (xs : list A) (body : A -> F unit) : F unit :=
  match xs with
  | [] => mret tt
  | x :: xs' => body x;; F_for xs' body
  end.

(** ** String helpers of the locator *)

(** [s.endswith(suffix)] *)
Definition endswith (s suffix : string) : bool :=
  (String.length suffix <=? String.length s)%nat
  && bool_decide (substring (String.length s - String.length suffix)
                            (String.length suffix) s = suffix).

(** [s[:-n]] *)
Definition drop_last (n : nat) (s : string) : string :=
  substring 0 (String.length s - n) s.

(** The newline that starts the closing hint of [install]. *)
Definition nl : string := String "010"%char EmptyString.

(** * The program *)

(** [get_icon_path] (lines 24-58) *)
Definition get_icon_path (env : Env) : M (option string) :=
  let system := platform_system env in
  let from_resources (icon_name : string) : M (option string) :=
    try_except
      (path ← lift_result (icon_resource env icon_name);
       found ← path_exists path;
       if (found : bool) then pure (Some path)
       else
         print ("Error: Icon file not found in package resources: " +:+ path);;
         pure None)
      (fun e =>
         print ("Error finding icon file " +:+ icon_name +:+ ": " +:+ exn_msg e);;
         pure None) in
  if decide (system = "Windows") then from_resources "icon.ico"
  else if decide (system = "Darwin") then from_resources "icon.icns"
  else if decide (system = "Linux") then from_resources "icon.png"
  else
    print ("Warning: Unsupported operating system for icon selection: "
           +:+ system);;
    pure None.

(** The candidate of step 1 of [find_executable] (lines 78-84): the sibling
    of the running script, with [.exe] appended on Windows when the name has
    no suffix. *)
Definition local_candidate (env : Env) (name : string) : string :=
  let current_script_dir := script_dir env in
  let candidate_path := joinpath env current_script_dir name in
  if decide (platform_system env = "Windows") then
    if decide (path_suffix env candidate_path = EmptyString)
    then with_suffix env candidate_path ".exe"
    else candidate_path
  else candidate_path.

(** [find_executable] (lines 60-104) *)
Definition find_executable (env : Env) (name : string) : M (option string) :=
  let candidate_path := local_candidate env name in
  found ← is_executable_file candidate_path;
  if (found : bool) then
    let candidate_path :=
      if bool_decide (platform_system env = "Windows")
         && bool_decide (path_suffix env candidate_path = ".EXE")
      then with_suffix env candidate_path ".exe"
      else candidate_path in
    print ("Found executable in local directory: " +:+ candidate_path);;
    pure (Some candidate_path)
  else
    let path_from_shutil := which env name in
    match path_from_shutil with
    | Some p =>
        if truthy path_from_shutil then
          let p :=
            if bool_decide (platform_system env = "Windows") && endswith p ".EXE"
            then drop_last 4 p +:+ ".exe"
            else p in
          print ("Found executable in system PATH: " +:+ p);;
          pure (Some p)
        else pure None
    | None => pure None
    end.

(** The open command of line 138: [f'"{exe_path}" "%1"']. *)
Definition open_command (exe_path : string) : string :=
  quoted exe_path +:+ " " +:+ quoted "%1".

(** [register_file_associations_windows] (lines 106-153) *)
Definition register_file_associations_windows (env : Env) (exe_path : string)
    (icon_path : option string) : M bool :=
  if decide (platform_system env ≠ "Windows") then pure false
  else
    try_except
      (let extensions := [".pmeprj"; ".pmeraw"] in
       let prog_id := "MoleditPy.File" in
       let app_name := "MoleditPy" in
       print "Registering file associations...";;
       key ← reg_call (fun r =>
                CreateKey r HKEY_CURRENT_USER ("Software\Classes\" +:+ prog_id));
       reg_update (fun r => SetValue r key EmptyString (app_name +:+ " File"));;
       icon_found ←
         (if truthy icon_path then os_path_exists (default EmptyString icon_path)
          else pure false);
       (if (icon_found : bool) then
          key ← reg_call (fun r =>
                   CreateKey r HKEY_CURRENT_USER
                     ("Software\Classes\" +:+ prog_id +:+ "\DefaultIcon"));
          reg_update (fun r =>
            SetValue r key EmptyString (default EmptyString icon_path))
        else pure tt);;
       let command := open_command exe_path in
       key ← reg_call (fun r =>
                CreateKey r HKEY_CURRENT_USER
                  ("Software\Classes\" +:+ prog_id +:+ "\shell\open\command"));
       reg_update (fun r => SetValue r key EmptyString command);;
       for_each extensions (fun ext =>
         key ← reg_call (fun r =>
                  CreateKey r HKEY_CURRENT_USER ("Software\Classes\" +:+ ext));
         reg_update (fun r => SetValue r key EmptyString prog_id);;
         print ("  Associated " +:+ ext +:+ " with " +:+ app_name));;
       print "File associations registered successfully.";;
       pure true)
      (fun e =>
         print ("Failed to register file associations: " +:+ exn_msg e);;
         pure false).

(** [delete_registry_tree] (lines 157-177), with the depth of the recursion
    bounded by [fuel]. *)
Fixpoint delete_registry_tree_fuel (fuel : nat) (key : HKEY) (sub_key : string)
    : F bool :=
  match fuel with
  | 0 => fun _ => None
  | S fuel' =>
      F_try
        (current_key ← F_read (fun r => OpenKey r key sub_key);
         info0 ← F_read (fun r => QueryInfoKey r current_key);
         F_for (seq 0 info0) (fun i =>
           subkey_name ← F_read (fun r => EnumKey r current_key 0);
           delete_registry_tree_fuel fuel' current_key subkey_name;;
           F_pure tt);;
         F_update (fun r => DeleteKey r key sub_key);;
         F_pure true)
        (fun _ => F_pure false)
  end.

(** [delete_registry_tree] as the program calls it.  On a well-formed hive
    the recursion descends one level per call, so the depth of the hive
    bounds it ([delete_registry_tree_fuel_enough] below); a recursion that is
    cut off, which Python turns into a [RecursionError] that line 175
    catches, gives [False]. *)
Definition delete_registry_tree (key : HKEY) (sub_key : string) : M bool :=
  fun w =>
    match delete_registry_tree_fuel (S (key_depth (hkcu (registry w))))
                                    key sub_key (registry w) with
    | Some (Ok b, r') => (Ok b, set_registry r' w)
    | Some (Raise e, r') => (Raise e, set_registry r' w)
    | None => (Ok false, w)
    end.

(** The body of the loop of lines 197-204: one extension key. *)
Definition remove_extension_key (root : HKEY) (key_path : string) : M unit :=
  try_except
    (reg_update (fun r => DeleteKey r root key_path);;
     print ("  Removed registry key: " +:+ key_path))
    (fun e =>
       if decide (exn_class e = FileNotFoundError) then pure tt
       else print ("  Failed to remove " +:+ key_path +:+ ": " +:+ exn_msg e)).

(** [unregister_file_associations_windows] (lines 179-215) *)
Definition unregister_file_associations_windows (env : Env) : M unit :=
  if decide (platform_system env ≠ "Windows") then pure tt
  else
    print "Unregistering file associations...";;
    let keys_to_remove :=
      [(HKEY_CURRENT_USER, "Software\Classes\.pmeprj");
       (HKEY_CURRENT_USER, "Software\Classes\.pmeraw")] in
    let prog_id_key := "Software\Classes\MoleditPy.File" in
    try_except
      (for_each keys_to_remove (fun '(root, key_path) =>
         remove_extension_key root key_path);;
       removed ← delete_registry_tree HKEY_CURRENT_USER prog_id_key;
       (if (removed : bool) then print ("  Removed registry tree: " +:+ prog_id_key)
        else pure tt);;
       print "File associations unregistered.")
      (fun e =>
         print ("Error during file association removal: " +:+ exn_msg e)).

(** [remove_shortcut] (lines 218-260).  The first stage yields [None] when
    the function returns early, and the expected shortcut path otherwise.
    [Path.home()] (lines 236 and 243) and [shortcut_path.exists()] (line 250)
    are outside the [try] of line 251: what they raise leaves the
    function. *)
Definition remove_shortcut (env : Env) : M unit :=
  let system := platform_system env in
  let shortcut_name := "MoleditPy" in
  located ←
    (if decide (system = "Windows") then
       let appdata := environ env !! "APPDATA" in
       let shortcut_path :=
         if truthy appdata then
           Some (joinpath env (joinpath env (joinpath env (joinpath env
                   (joinpath env (Path env (default EmptyString appdata))
                      "Microsoft") "Windows") "Start Menu") "Programs")
                   (shortcut_name +:+ ".lnk"))
         else None in
       unregister_file_associations_windows env;;
       pure (Some shortcut_path)
     else if decide (system = "Linux") then
       home ← lift_result (home_dir env);
       pure (Some (Some (joinpath env (joinpath env (joinpath env
                           (joinpath env home ".local") "share") "applications")
                           (shortcut_name +:+ ".desktop"))))
     else if decide (system = "Darwin") then
       home ← lift_result (home_dir env);
       pure (Some (Some (joinpath env (joinpath env home "Desktop")
                           (shortcut_name +:+ ".app"))))
     else
       print ("Removal not fully supported/automated for OS: " +:+ system);;
       pure None);
  match located with
  | None => pure tt
  | Some shortcut_path =>
      present ←
        match shortcut_path with
        | Some p => path_exists p
        | None => pure false
        end;
      if (present : bool) then
        let p := default EmptyString shortcut_path in
        try_except
          (is_dir ← path_is_dir p;
           (if (is_dir : bool) then shutil_rmtree env p else os_remove env p);;
           print ("Removed shortcut: " +:+ p))
          (fun e =>
             print ("Failed to remove shortcut " +:+ p +:+ ": " +:+ exn_msg e))
      else
        print ("Shortcut not found at expected location: "
               +:+ fmt_opt shortcut_path)
  end.

(** How the [try] block of [install] ends: by its [return], or by falling
    through to the statements after it. *)
Inductive Flow :=
| Returned
| FellThrough.

(** The test of line 296:
    [conda_env and conda_exe and conda_env != "base"]. *)
Definition conda_wrapping (conda_env conda_exe : option string) : bool :=
  truthy conda_env && truthy conda_exe
  && negb (bool_decide (conda_env = Some "base")).

(** The shortcut target of lines 296-308: the script and its arguments. *)
Definition shortcut_target (conda_env conda_exe : option string)
    (original_exe_path : string) : string * string :=
  if conda_wrapping conda_env conda_exe
  then (default EmptyString conda_exe,
        "run -n " +:+ default EmptyString conda_env +:+ " "
        +:+ quoted original_exe_path)
  else (original_exe_path, EmptyString).

(** The command line of lines 318-323, handed to [make_shortcut] as
    [script]. *)
Definition full_command (target_script target_args : string) : string :=
  if negb (bool_decide (target_args = EmptyString))
  then quoted target_script +:+ " " +:+ target_args
  else target_script.

(** The [try] block of [install] (lines 310-352). *)
Definition create_shortcut (env : Env) (icon_path : option string)
    (target_script target_args : string) : M Flow :=
  try_except
    (let shortcut_name := "MoleditPy" in
     let system := platform_system env in
     print ("Creating '" +:+ shortcut_name +:+ "' shortcut...");;
     print ("Targeting: " +:+ target_script +:+ " " +:+ target_args);;
     let full_command := full_command target_script target_args in
     if bool_decide (system = "Windows") || bool_decide (system = "Linux") then
       make_shortcut env
         (MkShortcutCall full_command shortcut_name icon_path
            (Some false) (Some true) None (Some true));;
       print ("Successfully created '" +:+ shortcut_name
              +:+ "' in the application menu.");;
       pure FellThrough
     else if bool_decide (system = "Darwin") then
       print "macOS detected. Creating application in /Applications folder...";;
       make_shortcut env
         (MkShortcutCall full_command shortcut_name icon_path
            (Some true) None (Some true) (Some true));;
       print ("Successfully created '" +:+ shortcut_name
              +:+ "' in /Applications.");;
       pure FellThrough
     else
       print ("Shortcut creation is not supported on this OS: " +:+ system);;
       pure Returned)
    (fun e =>
       print ("Failed to create shortcut: " +:+ exn_msg e);;
       pure FellThrough).

(** [install] from line 291 on, once the executable is located. *)
Definition install_located (env : Env) (icon_path original_exe_path : option string)
    : M unit :=
  let conda_env := environ env !! "CONDA_DEFAULT_ENV" in
  let conda_exe := environ env !! "CONDA_EXE" in
  let exe := default EmptyString original_exe_path in
  let target_script := fst (shortcut_target conda_env conda_exe exe) in
  let target_args := snd (shortcut_target conda_env conda_exe exe) in
  (if conda_wrapping conda_env conda_exe
   then print ("Conda environment detected: " +:+ default EmptyString conda_env)
   else pure tt);;
  let system := platform_system env in
  flow ← create_shortcut env icon_path target_script target_args;
  match flow with
  | Returned => pure tt
  | FellThrough =>
      if bool_decide (system = "Windows") && truthy original_exe_path then
        register_file_associations_windows env exe icon_path;;
        print (nl +:+ "You can remove the shortcut and file associations by running:");;
        print "  moleditpy-installer --remove"
      else pure tt
  end.

(** [install] (lines 263-359).  The call of [find_executable] (line 283) is
    outside any [try]. *)
Definition install (env : Env) : M unit :=
  let command_name := "moleditpy" in
  icon_path ← get_icon_path env;
  (if negb (truthy icon_path) then
     print "Warning: Could not find a suitable icon file. A default icon will be used."
   else pure tt);;
  print ("Searching for the executable '" +:+ command_name +:+ "'...");;
  original_exe_path ← find_executable env command_name;
  if negb (truthy original_exe_path) then
    print ("Error: Command '" +:+ command_name +:+ "' not found.");;
    print "Please ensure 'moleditpy' (or 'moleditpy-linux') is installed correctly";;
    print "and that its location is available."
  else install_located env icon_path original_exe_path.

(** [main] (lines 361-372); [remove] is the parsed [--remove] flag. *)
Definition main (env : Env) (remove : bool) : M Z :=
  (if remove then remove_shortcut env else install env);;
  pure 0%Z.

(** The exit status of [sys.exit(main())] (line 375): the returned code, or
    1 when an exception escapes [main]. *)
Definition exit_status (outcome : Result Z) : Z :=
  match outcome with
  | Ok code => code
  | Raise _ => 1%Z
  end.

(** * Specification vocabulary *)

(** ** Registry locations *)

Definition classes_path : HKEY := ["Software"; "Classes"].

(** [Software\Classes\MoleditPy.File], the program identifier. *)
Definition prog_id_path : HKEY := classes_path ++ ["MoleditPy.File"].

(** The two extension keys. *)
Definition extension_paths : list HKEY :=
  [classes_path ++ [".pmeprj"]; classes_path ++ [".pmeraw"]].

(** [Software\Classes\MoleditPy.File\shell\open\command] *)
Definition command_path : HKEY := prog_id_path ++ ["shell"; "open"; "command"].

(** The default value stored at a key: [None] when the key is absent,
    [Some None] when it has no default value. *)
Definition default_at (k : RegKey) (p : HKEY) : option (option string) :=
  default_value <$> lookup_key k p.

(** The hive after [CreateKey] on the path [p] and [SetValue] of the default
    value [v] through the handle it returns. *)
Definition write_default (p : HKEY) (v : string) (k : RegKey) : RegKey :=
  alter_key (set_default v) p (create_path p (create_path p k)).

(** The hive that a successful [register_file_associations_windows] leaves:
    [icon] is the icon path when one is given and exists. *)
Definition registered_hive (exe_path : string) (icon : option string)
    (k : RegKey) : RegKey :=
  let k1 := write_default prog_id_path "MoleditPy File" k in
  let k2 := match icon with
            | Some i => write_default (prog_id_path ++ ["DefaultIcon"]) i k1
            | None => k1
            end in
  let k3 := write_default command_path (open_command exe_path) k2 in
  let k4 := write_default (classes_path ++ [".pmeprj"]) "MoleditPy.File" k3 in
  write_default (classes_path ++ [".pmeraw"]) "MoleditPy.File" k4.

(** [stat] finds an entry at [p]. *)
Definition found_at (w : World) (p : string) : bool :=
  match fs w !! p with
  | Some (Unreadable _) => false
  | Some _ => true
  | None => false
  end.

(** The icon that the association writer stores (line 132): the one given,
    when it is given and exists. *)
Definition icon_written (icon_path : option string) (w : World) : option string :=
  if truthy icon_path && found_at w (default EmptyString icon_path)
  then Some (default EmptyString icon_path) else None.

(** What the extension loop may do to the world: the program-identifier
    subtree is out of its reach. *)
Record spares_prog_id (w w1 : World) : Prop := {
  spares_wf : wf_key (hkcu (registry w)) = true ->
              wf_key (hkcu (registry w1)) = true;
  spares_lookup : forall rest,
      lookup_key (hkcu (registry w1)) (prog_id_path ++ rest)
      = lookup_key (hkcu (registry w)) (prog_id_path ++ rest);
  spares_deleted : exists ds,
      deleted (registry w1) = deleted (registry w) ++ ds
      /\ ds ⊆ extension_paths
}.

(** ** Worlds *)

(** [w] after printing [lines]. *)
Definition add_lines (w : World) (lines : list string) : World :=
  MkWorld (registry w) (fs w) (stdout w ++ lines) (shortcut_calls w).

(** The path at which [remove_shortcut] expects the shortcut (lines 226-244):
    [Ok None] when the platform has none or [APPDATA] is not set, and the
    exception of [Path.home()] when the home directory cannot be
    determined. *)
Definition expected_shortcut_path (env : Env) : Result (option string) :=
  let system := platform_system env in
  if decide (system = "Windows") then
    let appdata := environ env !! "APPDATA" in
    if truthy appdata then
      Ok (Some (joinpath env (joinpath env (joinpath env (joinpath env
                  (joinpath env (Path env (default EmptyString appdata))
                     "Microsoft") "Windows") "Start Menu") "Programs")
                  "MoleditPy.lnk"))
    else Ok None
  else if decide (system = "Linux") then
    match home_dir env with
    | Ok home =>
        Ok (Some (joinpath env (joinpath env (joinpath env
                    (joinpath env home ".local") "share") "applications")
                    "MoleditPy.desktop"))
    | Raise e => Raise e
    end
  else if decide (system = "Darwin") then
    match home_dir env with
    | Ok home =>
        Ok (Some (joinpath env (joinpath env home "Desktop") "MoleditPy.app"))
    | Raise e => Raise e
    end
  else Ok None.

(** The line that closes [remove_shortcut] (lines 250-260) when the shortcut
    is expected at [shortcut_path]. *)
Definition removal_report (env : Env) (shortcut_path : option string)
    (w : World) : string :=
  match shortcut_path with
  | Some p =>
      if found_at w p then
        match remove_error env p with
        | Some e => "Failed to remove shortcut " +:+ p +:+ ": " +:+ exn_msg e
        | None => "Removed shortcut: " +:+ p
        end
      else "Shortcut not found at expected location: " +:+ p
  | None => "Shortcut not found at expected location: None"
  end.

(** The filesystem that it leaves. *)
Definition removal_fs (env : Env) (shortcut_path : option string)
    (w : World) : gmap string FsKind :=
  match shortcut_path with
  | Some p =>
      if found_at w p then
        match remove_error env p with
        | Some _ => fs w
        | None => delete p (fs w)
        end
      else fs w
  | None => fs w
  end.


(** The call that [install] makes on Windows and Linux (lines 326-333). *)
Definition menu_shortcut (command : string) (icon_path : option string)
    : ShortcutCall :=
  MkShortcutCall command "MoleditPy" icon_path
                 (Some false) (Some true) None (Some true).

(** The call that [install] makes on macOS (lines 338-345). *)
Definition desktop_shortcut (command : string) (icon_path : option string)
    : ShortcutCall :=
  MkShortcutCall command "MoleditPy" icon_path
                 (Some true) None (Some true) (Some true).

(** The line that closes the shortcut step: success, or the failure caught
    at line 351. *)
Definition shortcut_report (env : Env) (c : ShortcutCall) (success : string)
    : string :=
  match make_shortcut_error env c with
  | Some e => "Failed to create shortcut: " +:+ exn_msg e
  | None => success
  end.

(** The platforms on which a shortcut is created and removed. *)
Definition supported (system : string) : Prop :=
  system = "Windows" \/ system = "Linux" \/ system = "Darwin".


(** The local candidate as [find_executable] returns it (lines 88-92): on
    Windows an upper-case [.EXE] suffix becomes [.exe]. *)
Definition local_result (env : Env) (name : string) : string :=
  let candidate_path := local_candidate env name in
  if bool_decide (platform_system env = "Windows")
     && bool_decide (path_suffix env candidate_path = ".EXE")
  then with_suffix env candidate_path ".exe"
  else candidate_path.

(** What [find_executable] returns from the system search path
    (lines 95-104). *)
Definition path_result (env : Env) (name : string) : option string :=
  match which env name with
  | Some p =>
      if truthy (Some p) then
        Some (if bool_decide (platform_system env = "Windows") && endswith p ".EXE"
              then drop_last 4 p +:+ ".exe" else p)
      else None
  | None => None
  end.

(** The line of line 297, when environment wrapping applies. *)
Definition conda_lines (env : Env) : list string :=
  if conda_wrapping (environ env !! "CONDA_DEFAULT_ENV") (environ env !! "CONDA_EXE")
  then ["Conda environment detected: "
        +:+ default EmptyString (environ env !! "CONDA_DEFAULT_ENV")]
  else [].

(** The command line that [install] hands to [make_shortcut] for the
    executable [exe]. *)
Definition shortcut_command (env : Env) (exe : string) : string :=
  let target := shortcut_target (environ env !! "CONDA_DEFAULT_ENV")
                                (environ env !! "CONDA_EXE") exe in
  full_command (fst target) (snd target).

(** The second line of the shortcut step (line 315). *)
Definition targeting_line (env : Env) (exe : string) : string :=
  let target := shortcut_target (environ env !! "CONDA_DEFAULT_ENV")
                                (environ env !! "CONDA_EXE") exe in
  "Targeting: " +:+ fst target +:+ " " +:+ snd target.

(** The resource that [get_icon_path] looks up (lines 34-39). *)
Definition icon_name (system : string) : option string :=
  if decide (system = "Windows") then Some "icon.ico"
  else if decide (system = "Darwin") then Some "icon.icns"
  else if decide (system = "Linux") then Some "icon.png"
  else None.

(** Every error of the icon lookup is among [lines]: a lookup that raises,
    a resource that is not on disk, a resource that cannot be probed. *)
Definition icon_errors_logged (env : Env) (w : World) (lines : list string)
    : Prop :=
  forall name,
    icon_name (platform_system env) = Some name ->
    match icon_resource env name with
    | Raise e =>
        "Error finding icon file " +:+ name +:+ ": " +:+ exn_msg e ∈ lines
    | Ok path =>
        match fs w !! path with
        | None =>
            "Error: Icon file not found in package resources: " +:+ path ∈ lines
        | Some (Unreadable e) =>
            "Error finding icon file " +:+ name +:+ ": " +:+ exn_msg e ∈ lines
        | Some _ => True
        end
    end.

(** The lines that a successful association writer prints. *)
Definition registration_lines : list string :=
  ["Registering file associations...";
   "  Associated .pmeprj with MoleditPy";
   "  Associated .pmeraw with MoleditPy";
   "File associations registered successfully."].

(** The hint that closes [install] on Windows. *)
Definition removal_hint : list string :=
  [nl +:+ "You can remove the shortcut and file associations by running:";
   "  moleditpy-installer --remove"].

(** The message of the fatal path of [install] (lines 286-288). *)
Definition not_found_lines : list string :=
  ["Error: Command 'moleditpy' not found.";
   "Please ensure 'moleditpy' (or 'moleditpy-linux') is installed correctly";
   "and that its location is available."].



(** ** Weakest preconditions *)

(** [Q] holds of a normal return, [E] of an exception that escapes. *)
Definition wp {A} (m : M A) (w : World) (Q : A -> World -> Prop)
    (E : exn -> World -> Prop) : Prop :=
  match m w with
  | (Ok a, w') => Q a w'
  | (Raise e, w') => E e w'
  end.

Definition never : exn -> World -> Prop := fun _ _ => False.

(** ** The loop of [delete_registry_tree] *)

(** What one call achieves on an existing, well-formed subtree. *)
Definition deletes_subtree (fuel : nat) : Prop :=
  forall r key sub_key q n k,
    key ++ split_path sub_key = q ++ [n] ->
    lookup_key (hkcu r) (q ++ [n]) = Some k ->
    wf_key k = true ->
    key_depth k <= fuel ->
    delete_registry_tree_fuel fuel key sub_key r
    = Some (Ok true,
            MkRegistry (alter_key (drop_child n) q (hkcu r))
                       (deleted r ++ postorder (q ++ [n]) k)).

Definition child_postorders (cur : HKEY) (cs : list (string * RegKey))
    : list HKEY :=
  List.concat (map (fun nc => postorder (cur ++ [fst nc]) (snd nc)) cs).

(** The body of the loop of lines 164-170. *)
Definition loop_body (fuel : nat) (cur : HKEY) (i : nat) : F unit :=
  subkey_name ← F_read (fun r => EnumKey r cur 0);
  delete_registry_tree_fuel fuel cur subkey_name;;
  F_pure tt.

(** * Example machines *)

(** A small [pathlib]: paths are joined with the separator of the platform,
    and the suffix of a path is the part of its last component from the last
    dot on, when that dot is neither its first nor its last character. *)

(** The part of [s] after its last [c], or [s] when it has none. *)
Fixpoint after_last (c : ascii) (s : string) : string :=
  match s with
  | EmptyString => EmptyString
  | String d s' =>
      if has_char c s' then after_last c s'
      else if Ascii.eqb d c then s' else s
  end.

Definition name_suffix (name : string) : string :=
  match name with
  | EmptyString => EmptyString
  | String _ rest =>
      if has_char "."%char rest then
        let ext := after_last "."%char rest in
        if bool_decide (ext = EmptyString) then EmptyString else "." +:+ ext
      else EmptyString
  end.

Definition simple_suffix (sep : ascii) (p : string) : string :=
  name_suffix (after_last sep p).

Definition simple_with_suffix (sep : ascii) (p suffix : string) : string :=
  drop_last (String.length (simple_suffix sep p)) p +:+ suffix.

Definition simple_join (sep : ascii) (p name : string) : string :=
  p +:+ String sep EmptyString +:+ name.

Definition slash : ascii := "/"%char.

(** A Windows machine: the installer runs from [C:\envs\envA\Scripts]. *)
Definition windows_machine (vars : gmap string string)
    (shortcut_error : option exn) : Env :=
  MkEnv "Windows" vars "C:\envs\envA\Scripts" (Ok "C:\Users\me") id
        (simple_join backslash) (simple_suffix backslash)
        (simple_with_suffix backslash)
        (fun _ => None)
        (fun n => Ok (simple_join backslash "C:\envs\envA\Lib\data" n))
        (fun _ => shortcut_error)
        (fun _ => None).

(** A Linux machine: the installer runs from [/x]. *)
Definition linux_machine (vars : gmap string string)
    (on_path : option string) : Env :=
  MkEnv "Linux" vars "/x" (Ok "/home/me") id
        (simple_join slash) (simple_suffix slash) (simple_with_suffix slash)
        (fun _ => on_path)
        (fun n => Ok (simple_join slash "/x/lib/data" n))
        (fun _ => None)
        (fun _ => None).

Definition conda_vars_windows : gmap string string :=
  list_to_map [("APPDATA", "C:\Users\me\AppData\Roaming");
               ("CONDA_DEFAULT_ENV", "envA");
               ("CONDA_EXE", "C:\conda\Scripts\conda.exe")].

Definition conda_vars_linux : gmap string string :=
  list_to_map [("CONDA_DEFAULT_ENV", "envA");
               ("CONDA_EXE", "/opt/conda/bin/conda")].

(** The environment name is set, the runner is not. *)
Definition env_name_only : gmap string string :=
  list_to_map [("CONDA_DEFAULT_ENV", "envA")].

Definition empty_registry : Registry := MkRegistry empty_key [].

(** The program-identifier subtree as [install] leaves it, three levels
    deep. *)
Definition prog_id_subtree : RegKey :=
  MkKey (Some "MoleditPy File")
    [("DefaultIcon", MkKey (Some "C:\envs\envA\Lib\data\icon.ico") []);
     ("shell",
      MkKey None
        [("open",
          MkKey None
            [("command",
              MkKey (Some (open_command "C:\envs\envA\Scripts\moleditpy.exe"))
                    [])])])].

(** A hive with the associations in place, among other keys. *)
Definition associated_registry : Registry :=
  MkRegistry
    (MkKey None
       [("Software",
         MkKey None
           [("Classes",
             MkKey None
               [(".txt", MkKey (Some "txtfile") []);
                (".pmeprj", MkKey (Some "MoleditPy.File") []);
                ("MoleditPy.File", prog_id_subtree);
                (".pmeraw", MkKey (Some "MoleditPy.File") [])]);
            ("Microsoft", MkKey None [])])])
    [].

Definition windows_files : gmap string FsKind :=
  list_to_map [("C:\envs\envA\Scripts\moleditpy.exe", RegularFile true);
               ("C:\envs\envA\Lib\data\icon.ico", RegularFile false)].

Definition linux_files : gmap string FsKind :=
  list_to_map [("/x/moleditpy", RegularFile true);
               ("/x/lib/data/icon.png", RegularFile false)].

(** Windows before any install. *)
Definition fresh_windows : World := MkWorld empty_registry windows_files [] [].

(** Windows with the associations registered. *)
Definition associated_windows : World :=
  MkWorld associated_registry windows_files [] [].

(** Linux before any install. *)
Definition fresh_linux : World := MkWorld empty_registry linux_files [] [].

(** A Linux machine on which the application is not installed. *)
Definition bare_linux : World := MkWorld empty_registry ∅ [] [].

Definition disk_full : exn := Exn OSError "[Errno 28] No space left on device".

(** Windows inside the conda environment [envA]. *)
Definition windows_conda : Env := windows_machine conda_vars_windows None.

(** The same, with a shortcut maker that fails. *)
Definition windows_disk_full : Env :=
  windows_machine conda_vars_windows (Some disk_full).

(** Linux inside the conda environment [envA]. *)
Definition linux_conda : Env := linux_machine conda_vars_linux None.

(** Linux with an environment name and no runner. *)
Definition linux_name_only : Env := linux_machine env_name_only None.

(** Linux with no environment and another [moleditpy] on the search path. *)
Definition linux_plain : Env := linux_machine ∅ (Some "/usr/bin/moleditpy").

(** Linux with no environment and nothing on the search path. *)
Definition linux_empty_path : Env := linux_machine ∅ None.



Definition permission_denied (p : string) : exn :=
  Exn PermissionError ("[Errno 13] Permission denied: '" +:+ p +:+ "'").

(** A Linux machine on which the directory of the script may not be
    searched: [stat] on the local candidate fails. *)
Definition locked_linux : World :=
  MkWorld empty_registry
          {["/x/moleditpy" := Unreadable (permission_denied "/x/moleditpy")]}
          [] [].

(** The Linux machine with a shortcut in the application menu. *)
Definition installed_linux : World :=
  MkWorld empty_registry
          (<["/home/me/.local/share/applications/MoleditPy.desktop" :=
               RegularFile true]> linux_files)
          [] [].

(** A Linux machine on which files cannot be removed. *)
Definition linux_read_only : Env :=
  MkEnv "Linux" ∅ "/x" (Ok "/home/me") id
        (simple_join slash) (simple_suffix slash) (simple_with_suffix slash)
        (fun _ => None)
        (fun n => Ok (simple_join slash "/x/lib/data" n))
        (fun _ => None)
        (fun p => Some (Exn OSError
                          ("[Errno 30] Read-only file system: '" +:+ p +:+ "'"))).

(** ** Vocabulary for the further properties *)

(** The hive without the key at [p] and what is below it. *)
Definition delete_at (p : HKEY) (k : RegKey) : RegKey :=
  match unsnoc p with
  | Some (q, n) => alter_key (drop_child n) q k
  | None => k
  end.

(** What one round of the loop of lines 197-204 leaves of the hive: the key
    at [p] goes when it is there and has no subkeys. *)
Definition remove_leaf (p : HKEY) (k : RegKey) : RegKey :=
  match lookup_key k p with
  | Some c =>
      match subkeys c with
      | [] => delete_at p k
      | _ :: _ => k
      end
  | None => k
  end.

(** What line 207 leaves of a well-formed hive: the key at [p] goes, with
    what is below it, when it is there. *)
Definition remove_tree (p : HKEY) (k : RegKey) : RegKey :=
  match lookup_key k p with
  | Some _ => delete_at p k
  | None => k
  end.

(** The hive that [unregister_file_associations_windows] leaves. *)
Definition unregistered_hive (k : RegKey) : RegKey :=
  remove_tree prog_id_path
    (remove_leaf (classes_path ++ [".pmeraw"])
       (remove_leaf (classes_path ++ [".pmeprj"]) k)).

(** The line that one round of the loop of lines 197-204 prints for the key
    [key_path], found at [p]. *)
Definition extension_report (key_path : string) (p : HKEY) (k : RegKey)
    : list string :=
  match lookup_key k p with
  | Some c =>
      match subkeys c with
      | [] => ["  Removed registry key: " +:+ key_path]
      | _ :: _ => ["  Failed to remove " +:+ key_path +:+ ": "
                   +:+ exn_msg access_denied]
      end
  | None => []
  end.

(** The line of line 208. *)
Definition tree_report (k : RegKey) : list string :=
  match lookup_key k prog_id_path with
  | Some _ => ["  Removed registry tree: Software\Classes\MoleditPy.File"]
  | None => []
  end.

(** What [unregister_file_associations_windows] prints on Windows. *)
Definition unregister_lines (k : RegKey) : list string :=
  let k1 := remove_leaf (classes_path ++ [".pmeprj"]) k in
  let k2 := remove_leaf (classes_path ++ [".pmeraw"]) k1 in
  ["Unregistering file associations..."]
  ++ extension_report "Software\Classes\.pmeprj" (classes_path ++ [".pmeprj"]) k
  ++ extension_report "Software\Classes\.pmeraw" (classes_path ++ [".pmeraw"]) k1
  ++ tree_report k2
  ++ ["File associations unregistered."].

(** The three keys that the installer owns. *)
Definition owned_paths : list HKEY :=
  [classes_path ++ [".pmeprj"]; classes_path ++ [".pmeraw"]; prog_id_path].

(** The keys whose default value the association writer sets, given the icon
    it stores. *)
Definition written_paths (icon : option string) : list HKEY :=
  [prog_id_path]
  ++ match icon with
     | Some _ => [prog_id_path ++ ["DefaultIcon"]]
     | None => []
     end
  ++ [command_path; classes_path ++ [".pmeprj"]; classes_path ++ [".pmeraw"]].

(** [p] and [q] name keys of which neither is the other or above it. *)
Definition apart (p q : HKEY) : Prop :=
  ~ p `prefix_of` q /\ ~ q `prefix_of` p.

(** A hive in which another program has put a subkey below [.pmeprj]. *)
Definition shared_extension_registry : Registry :=
  MkRegistry
    (MkKey None
       [("Software",
         MkKey None
           [("Classes",
             MkKey None
               [(".pmeprj",
                 MkKey (Some "MoleditPy.File")
                   [("OpenWithProgids", MkKey None [])]);
                ("MoleditPy.File", prog_id_subtree);
                (".pmeraw", MkKey (Some "MoleditPy.File") [])])])])
    [].

(** Windows with that hive. *)
Definition shared_extension_windows : World :=
  MkWorld shared_extension_registry windows_files [] [].

(** A machine of a platform for which the installer makes no shortcut. *)
Definition freebsd_machine : Env :=
  MkEnv "FreeBSD" ∅ "/x" (Ok "/home/me") id
        (simple_join slash) (simple_suffix slash) (simple_with_suffix slash)
        (fun _ => None)
        (fun n => Ok (simple_join slash "/x/lib/data" n))
        (fun _ => None)
        (fun _ => None).

(** Linux with the application installed and the icon missing from the
    package. *)
Definition iconless_linux : World :=
  MkWorld empty_registry {["/x/moleditpy" := RegularFile true]} [] [].

(** * Proofs *)

(** ** Key paths and trees *)

Section RegistryLemmas.
Implicit Types (k c : RegKey) (p q : HKEY) (n m : string)
               (cs : list (string * RegKey)) (f g : RegKey -> RegKey).

Lemma split_on_no_sep sep s : has_char sep s = false -> split_on sep s = [s].
Proof.
  induction s as [|c s IH]; simpl; [done|].
  intros H. apply orb_false_iff in H as [Hc Hs].
  rewrite Hc, (IH Hs). done.
Qed.

(** A valid name is a path of one component. *)
Lemma split_path_valid n : valid_name n = true -> split_path n = [n].
Proof.
  unfold valid_name, split_path. intros H.
  apply andb_true_iff in H as [Hne Hbs].
  apply negb_true_iff in Hbs. rewrite (split_on_no_sep _ _ Hbs).
  simpl. rewrite Hne. done.
Qed.

Lemma unsnoc_snoc {A} (l : list A) x : unsnoc (l ++ [x]) = Some (l, x).
Proof. induction l as [|y l IH]; simpl; [done|]. rewrite IH. done. Qed.

Lemma lookup_key_app k p q :
  lookup_key k (p ++ q) = lookup_key k p ≫= fun k' => lookup_key k' q.
Proof.
  revert k. induction p as [|n p IH]; intros k; simpl; [done|].
  destruct (find_child n (subkeys k)); [apply IH|done].
Qed.

Lemma find_child_alter n m f cs :
  find_child n (alter_child m f cs)
  = if decide (n = m) then f <$> find_child n cs else find_child n cs.
Proof.
  induction cs as [|[m' c] cs IH]; simpl; [by case_decide|].
  repeat (case_decide; simpl; simplify_eq); try done.
  all: rewrite IH; by repeat (case_decide; simplify_eq).
Qed.

(** [alter_key] changes the key at [p] by [f] and nothing above it. *)
Lemma lookup_alter_key f p k :
  lookup_key (alter_key f p k) p = f <$> lookup_key k p.
Proof.
  revert k. induction p as [|n p IH]; intros k; simpl; [done|].
  rewrite find_child_alter, decide_True by done.
  destruct (find_child n (subkeys k)) as [c|]; simpl; [apply IH|done].
Qed.

Lemma alter_child_ext n f g cs :
  (forall k, f k = g k) -> alter_child n f cs = alter_child n g cs.
Proof.
  intros H. induction cs as [|[m c] cs IH]; simpl; [done|].
  case_decide; [by rewrite H|by rewrite IH].
Qed.

Lemma alter_key_ext f g p k :
  (forall k', f k' = g k') -> alter_key f p k = alter_key g p k.
Proof.
  intros H. revert k. induction p as [|n p IH]; intros k; simpl; [done|].
  f_equal. by apply alter_child_ext.
Qed.

Lemma alter_child_compose n f g cs :
  alter_child n f (alter_child n g cs) = alter_child n (f ∘ g) cs.
Proof.
  induction cs as [|[m c] cs IH]; simpl; [done|].
  case_decide; simpl.
  - by rewrite decide_True.
  - rewrite decide_False by done. by rewrite IH.
Qed.

Lemma alter_key_compose f g p k :
  alter_key f p (alter_key g p k) = alter_key (f ∘ g) p k.
Proof.
  revert k. induction p as [|n p IH]; intros k; simpl; [done|].
  unfold set_subkeys; simpl. f_equal.
  rewrite alter_child_compose. apply alter_child_ext. intros k'. apply IH.
Qed.

Lemma alter_key_app f p q k :
  alter_key f (p ++ q) k = alter_key (alter_key f q) p k.
Proof.
  revert k. induction p as [|n p IH]; intros k; simpl; [done|].
  f_equal. apply alter_child_ext. intros k'. apply IH.
Qed.

Lemma remove_alter_child n f cs :
  remove_child n (alter_child n f cs) = remove_child n cs.
Proof.
  induction cs as [|[m c] cs IH]; simpl; [done|].
  case_decide; simpl.
  - by rewrite decide_True.
  - rewrite decide_False by done. by rewrite IH.
Qed.

Lemma drop_child_alter n f k :
  drop_child n (alter_key f [n] k) = drop_child n k.
Proof.
  destruct k as [v cs]. unfold drop_child, set_subkeys; simpl.
  by rewrite remove_alter_child.
Qed.

Lemma alter_child_fix n f cs c :
  find_child n cs = Some c -> f c = c -> alter_child n f cs = cs.
Proof.
  induction cs as [|[m c'] cs IH]; simpl; [done|].
  case_decide; intros Hc Hf; simplify_eq; [by rewrite Hf|].
  by rewrite IH.
Qed.

Lemma alter_key_fix f p k k0 :
  lookup_key k p = Some k0 -> f k0 = k0 -> alter_key f p k = k.
Proof.
  revert k. induction p as [|n p IH]; intros k; simpl.
  - by intros [= ->].
  - destruct (find_child n (subkeys k)) as [c|] eqn:Hc; [|done].
    intros Hk Hf. rewrite (alter_child_fix _ _ _ c Hc); [by destruct k|].
    by apply IH.
Qed.
End RegistryLemmas.

(** ** The recursion of [delete_registry_tree] *)

Section DeleteTree.
Implicit Types (k c : RegKey) (p q : HKEY) (n m : string)
               (cs : list (string * RegKey)) (r : Registry).

Lemma wf_key_unfold v cs :
  wf_key (MkKey v cs) = true ->
  NoDup (map fst cs)
  /\ Forall (fun nc => valid_name (fst nc) = true /\ wf_key (snd nc) = true) cs.
Proof.
  simpl. intros H. apply andb_true_iff in H as [H Hwf].
  apply andb_true_iff in H as [Hnd Hval].
  split; [by apply bool_decide_eq_true in Hnd|].
  rewrite forallb_forall in Hval, Hwf.
  apply Forall_forall. intros [n c] Hin. apply list_elem_of_In in Hin. split.
  - apply Hval. simpl. apply in_map_iff. by exists (n, c).
  - by apply (Hwf (n, c)).
Qed.

Lemma key_depth_children v cs fuel :
  key_depth (MkKey v cs) <= S fuel ->
  Forall (fun nc => key_depth (snd nc) <= fuel) cs.
Proof.
  simpl. intros H. apply Forall_forall. intros nc Hin.
  assert (Hle : key_depth (snd nc) <= list_max (map (fun nc => key_depth (snd nc)) cs)).
  { clear H. induction Hin; simpl; lia. }
  lia.
Qed.

(** The loop of lines 164-170 on a key with children [cs]: each round
    removes the child that is first at that time, so [length cs] rounds empty
    the key.  Induction on [cs]; the recursive calls are covered by the
    hypothesis on [fuel]. *)
Lemma loop_deletes_children fuel cur :
  deletes_subtree fuel ->
  forall cs i v root log,
    lookup_key root cur = Some (MkKey v cs) ->
    Forall (fun nc => valid_name (fst nc) = true /\ wf_key (snd nc) = true) cs ->
    Forall (fun nc => key_depth (snd nc) <= fuel) cs ->
    F_for (seq i (List.length cs)) (loop_body fuel cur) (MkRegistry root log)
    = Some (Ok tt, MkRegistry (alter_key (set_subkeys []) cur root)
                              (log ++ child_postorders cur cs)).
Proof.
  intros IH cs. induction cs as [|[n1 k1] cs IHcs]; intros i v root log Hcur Hwf Hd.
  - simpl. unfold mret, F_ret. do 2 f_equal. unfold child_postorders; simpl.
    rewrite app_nil_r. f_equal. symmetry. by eapply alter_key_fix.
  - apply Forall_cons in Hwf as [[Hn1 Hk1] Hwf].
    apply Forall_cons in Hd as [Hd1 Hd].
    cbn [List.length seq F_for]. unfold mbind at 1, F_bind at 1.
    unfold loop_body at 1. unfold mbind at 1, F_bind at 1, F_read at 1.
    unfold EnumKey; cbn [hkcu]. rewrite Hcur. cbn [subkeys lookup list_lookup fst].
    simpl (_ !! _).
    unfold mbind at 1, F_bind at 1.
    rewrite (IH (MkRegistry root log) cur n1 cur n1 k1); cycle 1.
    { by rewrite split_path_valid. }
    { cbn [hkcu]. rewrite lookup_key_app, Hcur. simpl. by rewrite decide_True. }
    { done. }
    { done. }
    unfold F_pure, mret, F_ret. cbn [hkcu deleted].
    rewrite (IHcs (S i) v); cycle 1.
    { rewrite lookup_alter_key, Hcur. simpl. unfold drop_child, set_subkeys. simpl.
      by rewrite decide_True. }
    { done. }
    { done. }
    do 3 f_equal.
    + rewrite alter_key_compose. apply alter_key_ext. by intros [??].
    + unfold child_postorders. simpl. by rewrite app_assoc.
Qed.

(** One call removes the subtree, in post-order.  Induction on [fuel]. *)
Lemma delete_registry_tree_fuel_spec fuel : deletes_subtree fuel.
Proof.
  induction fuel as [|fuel IH]; intros r key sub_key q n k Hp Hk Hwf Hd.
  { destruct k; simpl in Hd; lia. }
  destruct r as [root log]. cbn [hkcu deleted] in *.
  cbn [delete_registry_tree_fuel].
  unfold F_try.
  unfold mbind at 1, F_bind at 1, F_read at 1, OpenKey. cbn [hkcu].
  rewrite Hp, Hk.
  unfold mbind at 1, F_bind at 1, F_read at 1, QueryInfoKey. cbn [hkcu].
  rewrite Hk.
  unfold mbind at 1, F_bind at 1.
  destruct k as [v cs]. cbn [subkeys].
  apply wf_key_unfold in Hwf as [_ Hwf].
  pose proof (loop_deletes_children fuel (q ++ [n]) IH cs 0 v root log Hk Hwf
                (key_depth_children _ _ _ Hd)) as Hloop.
  unfold loop_body in Hloop. rewrite Hloop. clear Hloop.
  unfold mbind at 1, F_bind at 1, F_update, DeleteKey. cbn [hkcu deleted].
  rewrite Hp, lookup_alter_key, Hk. cbn [fmap option_fmap option_map set_subkeys subkeys].
  rewrite unsnoc_snoc. unfold F_pure, mret, F_ret.
  do 3 f_equal.
  - rewrite alter_key_app, alter_key_compose. apply alter_key_ext.
    intros k'. apply drop_child_alter.
  - simpl. fold (child_postorders (q ++ [n]) cs). by rewrite app_assoc.
Qed.
End DeleteTree.

(** ** Well-formed hives *)

Section WellFormed.
Implicit Types (k c : RegKey) (p q : HKEY) (n m : string)
               (cs : list (string * RegKey)) (r : Registry).

Lemma find_child_elem n cs c : find_child n cs = Some c -> (n, c) ∈ cs.
Proof.
  induction cs as [|[m c'] cs IH]; simpl; [done|].
  case_decide; intros Hc; simplify_eq; [left|right; auto].
Qed.

Lemma find_child_None n cs : n ∉ map fst cs -> find_child n cs = None.
Proof.
  induction cs as [|[m c'] cs IH]; simpl; [done|].
  intros H. apply not_elem_of_cons in H as [H1 H2].
  rewrite decide_False by done. auto.
Qed.

(** Every key of a well-formed hive is well formed, and no deeper than the
    hive. *)
Lemma wf_key_lookup k p k' :
  wf_key k = true -> lookup_key k p = Some k' -> wf_key k' = true.
Proof.
  revert k. induction p as [|n p IH]; intros k Hwf; simpl.
  - by intros [= <-].
  - destruct (find_child n (subkeys k)) as [c|] eqn:Hc; [|done].
    apply IH. destruct k as [v cs]. apply wf_key_unfold in Hwf as [_ Hwf].
    rewrite Forall_forall in Hwf. apply find_child_elem in Hc.
    by destruct (Hwf _ Hc).
Qed.

Lemma key_depth_lookup k p k' :
  lookup_key k p = Some k' -> key_depth k' <= key_depth k.
Proof.
  revert k. induction p as [|n p IH]; intros k; simpl.
  - by intros [= <-].
  - destruct (find_child n (subkeys k)) as [c|] eqn:Hc; [|done].
    intros Hk. apply IH in Hk. apply find_child_elem in Hc.
    destruct k as [v cs].
    assert (Hd : key_depth (MkKey v cs) <= S (Nat.pred (key_depth (MkKey v cs))))
      by (simpl; lia).
    apply key_depth_children in Hd. rewrite Forall_forall in Hd.
    specialize (Hd _ Hc). cbn [snd] in Hd. lia.
Qed.

Lemma remove_child_names n cs :
  NoDup (map fst cs) ->
  NoDup (map fst (remove_child n cs))
  /\ (n ∉ map fst (remove_child n cs))
  /\ (forall x, x ∈ remove_child n cs -> x ∈ cs).
Proof.
  induction cs as [|[m c] cs IH]; simpl; intros Hnd.
  - split; [done|]. split; [apply not_elem_of_nil|done].
  - apply NoDup_cons in Hnd as [Hm Hnd]. case_decide; simplify_eq.
    + split; [done|]. split; [done|]. intros x Hx. by right.
    + destruct (IH Hnd) as (IH1 & IH2 & IH3). simpl. split; [|split].
      * apply NoDup_cons. split; [|done]. intros Hin. apply Hm.
        apply list_elem_of_fmap in Hin as [x [-> Hx]].
        apply list_elem_of_fmap. exists x. split; [done|]. by apply IH3.
      * apply not_elem_of_cons. done.
      * intros x Hx. apply elem_of_cons in Hx as [->|Hx]; [left|right; auto].
Qed.

Lemma wf_key_fold v cs :
  NoDup (map fst cs) ->
  Forall (fun nc => valid_name (fst nc) = true /\ wf_key (snd nc) = true) cs ->
  wf_key (MkKey v cs) = true.
Proof.
  intros Hnd Hall. simpl. rewrite Forall_forall in Hall.
  apply andb_true_iff. split; [apply andb_true_iff; split|].
  - by apply bool_decide_eq_true.
  - apply forallb_forall. intros n Hin. apply in_map_iff in Hin as [[n' c] [<- Hin]].
    apply list_elem_of_In in Hin. by destruct (Hall _ Hin).
  - apply forallb_forall. intros nc Hin. apply list_elem_of_In in Hin.
    by destruct (Hall _ Hin).
Qed.

Lemma wf_drop_child n k : wf_key k = true -> wf_key (drop_child n k) = true.
Proof.
  destruct k as [v cs]. intros Hwf. apply wf_key_unfold in Hwf as [Hnd Hall].
  unfold drop_child, set_subkeys; simpl subkeys; simpl default_value.
  destruct (remove_child_names n cs Hnd) as (H1 & _ & H3).
  apply wf_key_fold; [done|].
  rewrite Forall_forall in *. auto.
Qed.

Lemma alter_child_names n f cs : map fst (alter_child n f cs) = map fst cs.
Proof.
  induction cs as [|[m c] cs IH]; simpl; [done|].
  case_decide; simpl; [done|by rewrite IH].
Qed.

(** Well-formedness survives a change that preserves it at the key
    changed. *)
Lemma wf_alter_key f p k :
  (forall k', wf_key k' = true -> wf_key (f k') = true) ->
  wf_key k = true -> wf_key (alter_key f p k) = true.
Proof.
  intros Hf. revert k. induction p as [|n p IH]; intros k Hwf; cbn [alter_key]; [auto|].
  destruct k as [v cs]. apply wf_key_unfold in Hwf as [Hnd Hall].
  unfold set_subkeys; simpl subkeys; simpl default_value.
  apply wf_key_fold; [by rewrite alter_child_names|].
  clear Hnd. induction Hall as [|[m c] cs [Hm Hc] Hall IHall]; simpl; [done|].
  case_decide; constructor; simpl; auto.
Qed.

(** After its removal, a key and everything below it are absent. *)
Lemma lookup_key_dropped n q k rest :
  wf_key k = true ->
  lookup_key (alter_key (drop_child n) q k) (q ++ n :: rest) = None.
Proof.
  revert k. induction q as [|m q IH]; intros k Hwf; simpl.
  - destruct k as [v cs]. apply wf_key_unfold in Hwf as [Hnd _]. simpl.
    destruct (remove_child_names n cs Hnd) as (_ & H2 & _).
    by rewrite find_child_None.
  - rewrite find_child_alter, decide_True by done.
    destruct (find_child m (subkeys k)) as [c|] eqn:Hc; simpl; [|done].
    apply IH. apply (wf_key_lookup k [m]); [done|]. simpl. by rewrite Hc.
Qed.

Lemma find_child_remove_ne n m cs :
  n ≠ m -> find_child n (remove_child m cs) = find_child n cs.
Proof.
  intros Hne. induction cs as [|[m' c] cs IH]; simpl; [done|].
  destruct (decide (m = m')) as [->|Hm]; simpl.
  - by rewrite decide_False.
  - case_decide; [done|apply IH].
Qed.

(** Removing a key leaves its siblings and what is below them alone. *)
Lemma lookup_key_sibling n m q k rest :
  n ≠ m ->
  lookup_key (alter_key (drop_child m) q k) (q ++ n :: rest)
  = lookup_key k (q ++ n :: rest).
Proof.
  intros Hne. revert k. induction q as [|m' q IH]; intros k; simpl.
  - by rewrite find_child_remove_ne.
  - rewrite find_child_alter, decide_True by done.
    destruct (find_child m' (subkeys k)) as [c|]; simpl; [apply IH|done].
Qed.

Lemma key_depth_pos k : 1 <= key_depth k.
Proof. destruct k; simpl; lia. Qed.

(** The depth of the hive is enough fuel, whatever the key asked for. *)
Lemma delete_registry_tree_fuel_enough r key sub_key :
  wf_key (hkcu r) = true ->
  exists b r', forall fuel,
    key_depth (hkcu r) <= fuel ->
    delete_registry_tree_fuel fuel key sub_key r = Some (Ok b, r').
Proof.
  intros Hwf.
  destruct (lookup_key (hkcu r) (key ++ split_path sub_key)) as [k|] eqn:Hk.
  - destruct (key ++ split_path sub_key) as [|x p] eqn:Hp using rev_ind.
    + (* the hive root itself: its children go, the root cannot *)
      simpl in Hk. injection Hk as <-. destruct r as [[v cs] log].
      exists false. eexists. intros [|fuel] Hd; [simpl in Hd; lia|].
      cbn [hkcu] in *. cbn [delete_registry_tree_fuel]. unfold F_try.
      unfold mbind at 1, F_bind at 1, F_read at 1, OpenKey. cbn [hkcu].
      rewrite Hp. cbn [lookup_key].
      unfold mbind at 1, F_bind at 1, F_read at 1, QueryInfoKey.
      cbn [hkcu lookup_key subkeys].
      unfold mbind at 1, F_bind at 1.
      apply wf_key_unfold in Hwf as [_ Hwf].
      pose proof (loop_deletes_children fuel [] (delete_registry_tree_fuel_spec fuel)
                    cs 0 v (MkKey v cs) log eq_refl Hwf
                    (key_depth_children _ _ _ Hd)) as Hloop.
      unfold loop_body in Hloop. rewrite Hloop. clear Hloop.
      unfold mbind at 1, F_bind at 1, F_update, DeleteKey. cbn [hkcu deleted].
      rewrite Hp. simpl. reflexivity.
    + clear IHp. exists true. eexists. intros fuel Hd.
      apply delete_registry_tree_fuel_spec with (k := k); try done.
      * by eapply wf_key_lookup.
      * apply key_depth_lookup in Hk. lia.
  - exists false, r. intros [|fuel] Hd.
    { pose proof (key_depth_pos (hkcu r)). lia. }
    cbn [delete_registry_tree_fuel]. unfold F_try.
    unfold mbind at 1, F_bind at 1, F_read at 1, OpenKey. by rewrite Hk.
Qed.
End WellFormed.

(** ** Rules of the weakest precondition *)

Section WpRules.
Context {A B : Type}.
Implicit Types (w : World) (E : exn -> World -> Prop).

Lemma wp_bind (m : M A) (f : A -> M B) w (Q : B -> World -> Prop) E :
  wp (m ≫= f) w Q E = wp m w (fun a w' => wp (f a) w' Q E) E.
Proof. unfold wp, mbind, M_bind. by destruct (m w) as [[a|e] w']. Qed.

Lemma wp_try (m : M A) (h : exn -> M A) w (Q : A -> World -> Prop) E :
  wp (try_except m h) w Q E = wp m w Q (fun e w' => wp (h e) w' Q E).
Proof. unfold wp, try_except. by destruct (m w) as [[a|e] w']. Qed.

Lemma wp_pure (a : A) w (Q : A -> World -> Prop) E : wp (pure a) w Q E = Q a w.
Proof. done. Qed.

Lemma wp_mono (m : M A) w (Q Q' : A -> World -> Prop) E E' :
  wp m w Q E ->
  (forall a w', Q a w' -> Q' a w') ->
  (forall e w', E e w' -> E' e w') ->
  wp m w Q' E'.
Proof. unfold wp. destruct (m w) as [[a|e] w']; auto. Qed.

Lemma wp_returns (m : M A) w (Q : A -> World -> Prop) :
  wp m w Q never <-> exists a w', m w = (Ok a, w') /\ Q a w'.
Proof.
  unfold wp, never. destruct (m w) as [[a|e] w']; split; try done.
  - eauto.
  - by intros (? & ? & [= <- <-] & ?).
  - by intros (? & ? & [=] & ?).
Qed.

Lemma wp_run (m : M A) w a w' (Q : A -> World -> Prop) E :
  m w = (Ok a, w') -> Q a w' -> wp m w Q E.
Proof. unfold wp. by intros ->. Qed.

Lemma wp_raises (m : M A) w (E : exn -> World -> Prop) :
  wp m w (fun _ _ => False) E -> exists e w', m w = (Raise e, w') /\ E e w'.
Proof. unfold wp. destruct (m w) as [[a|e] w']; [done|]. eauto. Qed.
End WpRules.

Lemma wp_print line w (Q : unit -> World -> Prop) E :
  wp (print line) w Q E = Q tt (add_lines w [line]).
Proof. done. Qed.

Lemma wp_reg_update op w (Q : unit -> World -> Prop) E :
  wp (reg_update op) w Q E
  = match op (registry w) with
    | Ok r => Q tt (set_registry r w)
    | Raise e => E e w
    end.
Proof. unfold wp, reg_update. by destruct (op (registry w)). Qed.

Lemma wp_reg_call {A} (op : Registry -> Result (A * Registry)) w
    (Q : A -> World -> Prop) E :
  wp (reg_call op) w Q E
  = match op (registry w) with
    | Ok (a, r) => Q a (set_registry r w)
    | Raise e => E e w
    end.
Proof. unfold wp, reg_call. by destruct (op (registry w)) as [[a r]|e]. Qed.

Lemma add_lines_nil w : add_lines w [] = w.
Proof. destruct w. unfold add_lines; simpl. by rewrite app_nil_r. Qed.

Lemma add_lines_app w a b : add_lines (add_lines w a) b = add_lines w (a ++ b).
Proof. unfold add_lines; simpl. by rewrite app_assoc. Qed.

Lemma set_registry_same w : set_registry (registry w) w = w.
Proof. by destruct w. Qed.

(** ** [delete_registry_tree] on a world *)

Lemma delete_registry_tree_removes key sub_key q n k w :
  wf_key (hkcu (registry w)) = true ->
  key ++ split_path sub_key = q ++ [n] ->
  lookup_key (hkcu (registry w)) (q ++ [n]) = Some k ->
  delete_registry_tree key sub_key w
  = (Ok true,
     set_registry
       (MkRegistry (alter_key (drop_child n) q (hkcu (registry w)))
                   (deleted (registry w) ++ postorder (q ++ [n]) k)) w).
Proof.
  intros Hwf Hp Hk. unfold delete_registry_tree.
  rewrite (delete_registry_tree_fuel_spec _ (registry w) key sub_key q n k); try done.
  - by eapply wf_key_lookup.
  - apply key_depth_lookup in Hk. lia.
Qed.

Lemma delete_registry_tree_absent key sub_key w :
  lookup_key (hkcu (registry w)) (key ++ split_path sub_key) = None ->
  delete_registry_tree key sub_key w = (Ok false, w).
Proof.
  intros Hk. unfold delete_registry_tree. cbn [delete_registry_tree_fuel].
  unfold F_try. unfold mbind at 1, F_bind at 1, F_read at 1, OpenKey.
  rewrite Hk. unfold F_pure, mret, F_ret. by rewrite set_registry_same.
Qed.

(** The [except] clause of [delete_registry_tree] catches everything. *)
Lemma delete_registry_tree_returns key sub_key w :
  exists b r, delete_registry_tree key sub_key w = (Ok b, set_registry r w).
Proof.
  unfold delete_registry_tree. cbn [delete_registry_tree_fuel]. unfold F_try.
  destruct (mbind (M := F) _ _ (registry w)) as [[[b|e] r']|].
  - by exists b, r'.
  - by exists false, r'.
  - exists false, (registry w). by rewrite set_registry_same.
Qed.

(** ** The association remover *)

(** What a successful [DeleteKey] did. *)
Lemma DeleteKey_inv r key sub_key r' :
  DeleteKey r key sub_key = Ok r' ->
  exists q n,
    key ++ split_path sub_key = q ++ [n]
    /\ r' = MkRegistry (alter_key (drop_child n) q (hkcu r))
                       (deleted r ++ [q ++ [n]]).
Proof.
  unfold DeleteKey. destruct (lookup_key _ _) as [k|]; [|done].
  destruct (subkeys k); [|done].
  destruct (key ++ split_path sub_key) as [|x p _] using rev_ind; [done|].
  rewrite unsnoc_snoc. intros [= <-]. by exists p, x.
Qed.

Lemma spares_prog_id_refl w : spares_prog_id w w.
Proof.
  split; [done|done|]. exists []. split; [by rewrite app_nil_r|].
  apply list_subseteq_nil.
Qed.

Lemma spares_prog_id_trans w1 w2 w3 :
  spares_prog_id w1 w2 -> spares_prog_id w2 w3 -> spares_prog_id w1 w3.
Proof.
  intros [Hwf1 Hl1 (d1 & Hd1 & Hs1)] [Hwf2 Hl2 (d2 & Hd2 & Hs2)]. split.
  - auto.
  - intros rest. by rewrite Hl2, Hl1.
  - exists (d1 ++ d2). split; [by rewrite Hd2, Hd1, app_assoc|].
    intros x Hx. apply elem_of_app in Hx as [Hx|Hx]; auto.
Qed.

Lemma spares_prog_id_add_lines w w1 lines :
  spares_prog_id w w1 -> spares_prog_id w (add_lines w1 lines).
Proof. by intros [? ? ?]. Qed.

(** One round of the extension loop never raises and spares the
    program identifier. *)
Lemma remove_extension_key_spec key_path m w :
  split_path key_path = classes_path ++ [m] ->
  classes_path ++ [m] ∈ extension_paths ->
  wp (remove_extension_key HKEY_CURRENT_USER key_path) w
     (fun _ w1 => spares_prog_id w w1) never.
Proof.
  intros Hsplit Hm. unfold remove_extension_key.
  rewrite wp_try, wp_bind, wp_reg_update.
  destruct (DeleteKey (registry w) HKEY_CURRENT_USER key_path) as [r|e] eqn:Hdel.
  - rewrite wp_print. apply spares_prog_id_add_lines.
    apply DeleteKey_inv in Hdel as (q & n & Hp & ->).
    simpl in Hp. rewrite Hsplit in Hp. apply app_inj_tail in Hp as [<- <-].
    assert (Hne : "MoleditPy.File" ≠ m).
    { intros <-. revert Hm. unfold extension_paths, classes_path.
      rewrite !elem_of_cons, elem_of_nil. by intros [|[|]]. }
    split; cbn [set_registry registry hkcu deleted].
    + intros Hwf. apply wf_alter_key; [|done]. intros k'. apply wf_drop_child.
    + intros rest. unfold prog_id_path. rewrite <- app_assoc. simpl ([_] ++ _).
      by apply lookup_key_sibling.
    + eexists. split; [done|].
      intros x Hx. by apply list_elem_of_singleton in Hx as ->.
  - cbv beta. case_decide.
    + rewrite wp_pure. apply spares_prog_id_refl.
    + rewrite wp_print. apply spares_prog_id_add_lines, spares_prog_id_refl.
Qed.

(** The extension loop as a whole. *)
Lemma extension_loop_spec w :
  wp (for_each [(HKEY_CURRENT_USER, "Software\Classes\.pmeprj");
                (HKEY_CURRENT_USER, "Software\Classes\.pmeraw")]
               (fun '(root, key_path) => remove_extension_key root key_path)) w
     (fun _ w1 => spares_prog_id w w1) never.
Proof.
  cbn [for_each]. rewrite wp_bind.
  eapply wp_mono; [apply (remove_extension_key_spec _ ".pmeprj")| |done].
  { reflexivity. }
  { unfold extension_paths. set_solver. }
  intros [] w1 H1. cbv beta. rewrite wp_bind.
  eapply wp_mono; [apply (remove_extension_key_spec _ ".pmeraw")| |done].
  { reflexivity. }
  { unfold extension_paths. set_solver. }
  intros [] w2 H2. cbv beta in *. change (mret tt) with (pure tt). rewrite wp_pure.
  by eapply spares_prog_id_trans.
Qed.

(** C1. One call of the unregister operation removes the program-identifier
    key together with every key below it, whatever the shape and depth of
    that subtree.  The keys go in post-order: within each key the current
    first child is removed, subtree first, until no child is left, and then
    the emptied key itself. *)
Theorem unregister_removes_prog_id_subtree env w subtree :
  platform_system env = "Windows" ->
  wf_key (hkcu (registry w)) = true ->
  lookup_key (hkcu (registry w)) prog_id_path = Some subtree ->
  exists w' exts,
    unregister_file_associations_windows env w = (Ok tt, w')
    /\ (forall rest, lookup_key (hkcu (registry w')) (prog_id_path ++ rest) = None)
    /\ exts ⊆ extension_paths
    /\ deleted (registry w')
       = deleted (registry w) ++ exts ++ postorder prog_id_path subtree.
Proof.
  intros Hsys Hwf Hsub.
  cut (wp (unregister_file_associations_windows env) w
          (fun _ w' =>
             (forall rest, lookup_key (hkcu (registry w')) (prog_id_path ++ rest) = None)
             /\ exists exts, exts ⊆ extension_paths
                /\ deleted (registry w')
                   = deleted (registry w) ++ exts ++ postorder prog_id_path subtree)
          never).
  { intros H. apply wp_returns in H as ([] & w' & Hrun & Hgone & exts & Hexts & Hdel).
    by exists w', exts. }
  unfold unregister_file_associations_windows. rewrite decide_False by (by intros []).
  rewrite wp_bind, wp_print. cbv beta. rewrite wp_try, wp_bind.
  eapply wp_mono; [apply extension_loop_spec| |done].
  intros [] w1 [Hwf1 Hl1 (ds & Hd1 & Hs1)]. cbv beta.
  cbn [add_lines registry] in *. specialize (Hwf1 Hwf).
  pose proof (Hl1 []) as Hsub1. rewrite app_nil_r, Hsub in Hsub1.
  rewrite wp_bind.
  eapply wp_run.
  { apply (delete_registry_tree_removes _ _ classes_path "MoleditPy.File" subtree);
      [done|reflexivity|done]. }
  cbv iota beta. rewrite wp_bind, wp_print. cbv beta. rewrite wp_print.
  cbn [add_lines set_registry registry hkcu deleted]. split.
  - intros rest. unfold prog_id_path. rewrite <- app_assoc.
    by apply lookup_key_dropped.
  - exists ds. split; [done|]. by rewrite Hd1, app_assoc.
Qed.

(** ** The association writer *)

Section RegistryWrites.
Implicit Types (k c : RegKey) (p q : HKEY) (n m : string)
               (cs : list (string * RegKey)) (r : Registry).

Lemma find_child_app n cs cs' c :
  find_child n cs = Some c -> find_child n (cs ++ cs') = Some c.
Proof.
  induction cs as [|[m c'] cs IH]; simpl; [done|]. case_decide; auto.
Qed.

Lemma find_child_snoc_new n cs c :
  find_child n cs = None -> find_child n (cs ++ [(n, c)]) = Some c.
Proof.
  induction cs as [|[m c'] cs IH]; simpl.
  - by rewrite decide_True.
  - case_decide; [done|auto].
Qed.

Lemma lookup_create_path p k : is_Some (lookup_key (create_path p k) p).
Proof.
  revert k. induction p as [|n p IH]; intros k; simpl; [done|].
  destruct (find_child n (subkeys k)) as [c|] eqn:Hc; simpl.
  - rewrite find_child_alter, decide_True, Hc by done. simpl. apply IH.
  - rewrite find_child_snoc_new by done. apply IH.
Qed.

(** Creating keys leaves the default values of existing keys alone. *)
Lemma default_at_create_path p q k v :
  default_at k q = Some v -> default_at (create_path p k) q = Some v.
Proof.
  unfold default_at. revert q k.
  induction p as [|n p IH]; intros q k; simpl; [done|].
  destruct q as [|m q]; simpl.
  - by destruct (find_child n (subkeys k)).
  - destruct (find_child m (subkeys k)) as [c|] eqn:Hm; [|done]. intros Hq.
    destruct (find_child n (subkeys k)) as [c'|] eqn:Hn; simpl.
    + rewrite find_child_alter. destruct (decide (m = n)) as [->|Hne].
      * rewrite Hn. rewrite Hn in Hm. injection Hm as ->. simpl. by apply IH.
      * by rewrite Hm.
    + by rewrite (find_child_app _ _ _ c).
Qed.

Lemma default_at_set_self p k v :
  is_Some (lookup_key k p) ->
  default_at (alter_key (set_default v) p k) p = Some (Some v).
Proof.
  intros [c Hc]. unfold default_at. by rewrite lookup_alter_key, Hc.
Qed.

(** Setting a default value leaves those of the other keys alone. *)
Lemma default_at_set_other p q k v :
  q ≠ p ->
  default_at (alter_key (set_default v) p k) q = default_at k q.
Proof.
  unfold default_at. revert q k.
  induction p as [|n p IH]; intros q k Hne; destruct q as [|m q]; simpl; try done.
  rewrite find_child_alter. case_decide; [|done]. simplify_eq.
  destruct (find_child n (subkeys k)) as [c|]; simpl; [|done].
  apply IH. congruence.
Qed.

Lemma write_default_self p k v :
  default_at (write_default p v k) p = Some (Some v).
Proof. apply default_at_set_self, lookup_create_path. Qed.

Lemma write_default_other p q k v u :
  q ≠ p -> default_at k q = Some u -> default_at (write_default p v k) q = Some u.
Proof.
  intros Hne Hq. unfold write_default. rewrite default_at_set_other by done.
  by do 2 apply default_at_create_path.
Qed.

Lemma CreateKey_root r sub_key :
  CreateKey r HKEY_CURRENT_USER sub_key
  = Ok (split_path sub_key,
        MkRegistry (create_path (split_path sub_key) (hkcu r)) (deleted r)).
Proof. done. Qed.

Lemma SetValue_created p k log v :
  SetValue (MkRegistry (create_path p k) log) p EmptyString v
  = Ok (MkRegistry (write_default p v k) log).
Proof.
  unfold SetValue. cbn [hkcu deleted].
  destruct (lookup_create_path p k) as [c ->].
  change (split_path EmptyString) with (@nil string). by rewrite app_nil_r.
Qed.

(** The open command that registration leaves in the hive. *)
Lemma registered_hive_command exe_path icon k :
  default_at (registered_hive exe_path icon k) command_path
  = Some (Some (open_command exe_path)).
Proof.
  unfold registered_hive. cbv zeta.
  apply write_default_other; [done|].
  apply write_default_other; [done|].
  apply write_default_self.
Qed.
End RegistryWrites.

Lemma wp_os_path_exists p w (Q : bool -> World -> Prop) E :
  wp (os_path_exists p) w Q E = Q (found_at w p) w.
Proof.
  unfold wp, os_path_exists, found_at. by destruct (fs w !! p) as [[]|].
Qed.

Lemma wp_path_exists p w (Q : bool -> World -> Prop) E :
  wp (path_exists p) w Q E
  = match fs w !! p with
    | Some (Unreadable e) => E e w
    | Some _ => Q true w
    | None => Q false w
    end.
Proof. unfold wp, path_exists. by destruct (fs w !! p) as [[]|]. Qed.

Lemma wp_lift_result {A} (r : Result A) w (Q : A -> World -> Prop) E :
  wp (lift_result r) w Q E
  = match r with
    | Ok a => Q a w
    | Raise e => E e w
    end.
Proof. unfold wp, lift_result. by destruct r. Qed.

(** [CreateKey] followed by [SetValue] through the handle, as the [with]
    blocks of the association writer do. *)
Lemma wp_write_default {A} sub_key v (rest : M A) w Q E :
  wp rest (set_registry (MkRegistry (write_default (split_path sub_key) v
                                       (hkcu (registry w)))
                                    (deleted (registry w))) w) Q E ->
  wp (key ← reg_call (fun r => CreateKey r HKEY_CURRENT_USER sub_key);
      reg_update (fun r => SetValue r key EmptyString v);; rest) w Q E.
Proof.
  intros H. rewrite wp_bind, wp_reg_call, CreateKey_root.
  rewrite wp_bind, wp_reg_update. cbn [set_registry registry].
  by rewrite SetValue_created.
Qed.

Lemma wp_write_default_last sub_key v w (Q : unit -> World -> Prop) E :
  Q tt (set_registry (MkRegistry (write_default (split_path sub_key) v
                                    (hkcu (registry w)))
                                 (deleted (registry w))) w) ->
  wp (key ← reg_call (fun r => CreateKey r HKEY_CURRENT_USER sub_key);
      reg_update (fun r => SetValue r key EmptyString v)) w Q E.
Proof.
  intros H. rewrite wp_bind, wp_reg_call, CreateKey_root.
  rewrite wp_reg_update. cbn [set_registry registry].
  by rewrite SetValue_created.
Qed.

Ltac world_norm :=
  unfold add_lines, set_registry;
  cbn [registry fs stdout shortcut_calls hkcu deleted].

Ltac wp_writes :=
  repeat (first
    [ apply wp_write_default | apply wp_write_default_last
    | rewrite wp_bind | rewrite wp_print | rewrite wp_pure
    | progress change (@mret M _ _ ?x) with (pure x)
    | progress cbv beta ]; world_norm).

Ltac world_eq := world_norm; rewrite <- ?app_assoc; reflexivity.

Lemma register_file_associations_windows_spec env exe_path icon_path w :
  platform_system env = "Windows" ->
  register_file_associations_windows env exe_path icon_path w
  = (Ok true,
     add_lines
       (set_registry
          (MkRegistry (registered_hive exe_path (icon_written icon_path w)
                         (hkcu (registry w)))
                      (deleted (registry w))) w)
       registration_lines).
Proof.
  intros Hsys.
  cut (wp (register_file_associations_windows env exe_path icon_path) w
          (fun b w' => (Ok b, w') = (Ok true,
     add_lines
       (set_registry
          (MkRegistry (registered_hive exe_path (icon_written icon_path w)
                         (hkcu (registry w)))
                      (deleted (registry w))) w)
       registration_lines)) never).
  { intros H. apply wp_returns in H as (b & w' & -> & H). done. }
  unfold register_file_associations_windows, icon_written.
  rewrite decide_False by (by intros []). cbv zeta.
  rewrite wp_try, wp_bind, wp_print. cbv beta.
  apply wp_write_default. world_norm. rewrite wp_bind.
  destruct (truthy icon_path).
  - rewrite wp_os_path_exists.
    change (found_at _ (default EmptyString icon_path))
      with (found_at w (default EmptyString icon_path)).
    cbn [andb].
    destruct (found_at w (default EmptyString icon_path));
      cbn [for_each]; wp_writes; world_eq.
  - cbn [for_each andb]. wp_writes. world_eq.
Qed.

Lemma register_file_associations_elsewhere env exe_path icon_path w :
  platform_system env ≠ "Windows" ->
  register_file_associations_windows env exe_path icon_path w = (Ok false, w).
Proof.
  intros Hsys. unfold register_file_associations_windows.
  by rewrite decide_True.
Qed.

(** ** The icon resolver and the locator only print *)

(** The icon resolver returns, and each error it meets is among the lines it
    prints. *)
Lemma get_icon_path_logs env w :
  exists icon lines,
    get_icon_path env w = (Ok icon, add_lines w lines)
    /\ icon_errors_logged env w lines.
Proof.
  assert (Hres : forall name,
    exists icon lines,
      try_except
        (path ← lift_result (icon_resource env name);
         found ← path_exists path;
         if (found : bool) then pure (Some path)
         else
           print ("Error: Icon file not found in package resources: " +:+ path);;
           pure None)
        (fun e =>
           print ("Error finding icon file " +:+ name +:+ ": " +:+ exn_msg e);;
           pure None) w
      = (Ok icon, add_lines w lines)
      /\ match icon_resource env name with
         | Raise e =>
             "Error finding icon file " +:+ name +:+ ": " +:+ exn_msg e ∈ lines
         | Ok path =>
             match fs w !! path with
             | None =>
                 "Error: Icon file not found in package resources: " +:+ path
                 ∈ lines
             | Some (Unreadable e) =>
                 "Error finding icon file " +:+ name +:+ ": " +:+ exn_msg e
                 ∈ lines
             | Some _ => True
             end
         end).
  { intros name. unfold try_except, mbind, M_bind, lift_result.
    destruct (icon_resource env name) as [path|e].
    - unfold path_exists. destruct (fs w !! path) as [[x| |e]|].
      + exists (Some path), []. by rewrite add_lines_nil.
      + exists (Some path), []. by rewrite add_lines_nil.
      + eexists None, [_]. split; [done|]. apply list_elem_of_singleton. done.
      + eexists None, [_]. split; [done|]. apply list_elem_of_singleton. done.
    - eexists None, [_]. split; [done|]. apply list_elem_of_singleton. done. }
  unfold get_icon_path, icon_errors_logged, icon_name. cbv zeta.
  repeat case_decide.
  - destruct (Hres "icon.ico") as (icon & lines & Hrun & Hlog).
    exists icon, lines. split; [done|]. by intros name [= <-].
  - destruct (Hres "icon.icns") as (icon & lines & Hrun & Hlog).
    exists icon, lines. split; [done|]. by intros name [= <-].
  - destruct (Hres "icon.png") as (icon & lines & Hrun & Hlog).
    exists icon, lines. split; [done|]. by intros name [= <-].
  - eexists None, [_]. split; [done|]. intros name Hname. discriminate Hname.
Qed.

Lemma get_icon_path_prints env w :
  exists icon lines, get_icon_path env w = (Ok icon, add_lines w lines).
Proof.
  destruct (get_icon_path_logs env w) as (icon & lines & Hrun & _).
  by exists icon, lines.
Qed.

(** The locator, case by case: the probe of the local candidate raises, the
    candidate is an executable file, or the search path decides. *)
Lemma find_executable_eq env name w :
  find_executable env name w
  = match fs w !! local_candidate env name with
    | Some (Unreadable e) => (Raise e, w)
    | Some (RegularFile true) =>
        (Ok (Some (local_result env name)),
         add_lines w ["Found executable in local directory: "
                      +:+ local_result env name])
    | _ =>
        match path_result env name with
        | Some p =>
            (Ok (Some p),
             add_lines w ["Found executable in system PATH: " +:+ p])
        | None => (Ok None, w)
        end
    end.
Proof.
  assert (Hpath :
    match which env name with
    | Some p =>
        if truthy (which env name) then
          let p :=
            if bool_decide (platform_system env = "Windows") && endswith p ".EXE"
            then drop_last 4 p +:+ ".exe"
            else p in
          print ("Found executable in system PATH: " +:+ p);;
          pure (Some p)
        else pure None
    | None => pure None
    end w
    = match path_result env name with
      | Some p =>
          (Ok (Some p),
           add_lines w ["Found executable in system PATH: " +:+ p])
      | None => (Ok None, w)
      end).
  { unfold path_result. destruct (which env name) as [p|]; [|done].
    by destruct (truthy (Some p)). }
  unfold find_executable, mbind, M_bind, is_executable_file. cbv zeta.
  destruct (fs w !! local_candidate env name) as [[[]| |e]|];
    try exact Hpath; done.
Qed.

Lemma find_executable_prints env name w :
  exists lines,
    find_executable env name w
    = (fst (find_executable env name w), add_lines w lines).
Proof.
  rewrite find_executable_eq.
  destruct (fs w !! local_candidate env name) as [[[]| |e]|];
    try (destruct (path_result env name));
    first [by eexists [_] | exists []; by rewrite add_lines_nil].
Qed.


(** What the probe raises leaves the locator. *)
Lemma find_executable_raises env name w e :
  fs w !! local_candidate env name = Some (Unreadable e) ->
  find_executable env name w = (Raise e, w).
Proof. intros Hprobe. by rewrite find_executable_eq, Hprobe. Qed.

(** What the locator returns depends on the filesystem alone. *)
Lemma find_executable_fs env name w1 w2 :
  fs w1 = fs w2 ->
  fst (find_executable env name w1) = fst (find_executable env name w2).
Proof.
  intros Hfs. rewrite !find_executable_eq, Hfs.
  destruct (fs w2 !! local_candidate env name) as [[[]| |e]|];
    try (destruct (path_result env name)); done.
Qed.

Lemma find_executable_after_lines env name w lines res :
  fst (find_executable env name w) = Ok res ->
  exists lines', find_executable env name (add_lines w lines)
                 = (Ok res, add_lines w (lines ++ lines')).
Proof.
  intros Hres.
  destruct (find_executable_prints env name (add_lines w lines)) as [lines' Hrun].
  exists lines'. rewrite Hrun, add_lines_app. f_equal.
  rewrite <- Hres. by apply find_executable_fs.
Qed.

(** ** The shortcut step *)

Lemma create_shortcut_menu env icon_path target_script target_args w :
  platform_system env = "Windows" \/ platform_system env = "Linux" ->
  let c := menu_shortcut (full_command target_script target_args) icon_path in
  create_shortcut env icon_path target_script target_args w
  = (Ok FellThrough,
     MkWorld (registry w) (fs w)
       (stdout w
        ++ ["Creating 'MoleditPy' shortcut...";
            "Targeting: " +:+ target_script +:+ " " +:+ target_args;
            shortcut_report env c
              "Successfully created 'MoleditPy' in the application menu."])
       (shortcut_calls w ++ [c])).
Proof.
  intros Hsys c. unfold create_shortcut, try_except. cbv zeta.
  assert (Hif : bool_decide (platform_system env = "Windows")
                || bool_decide (platform_system env = "Linux") = true).
  { destruct Hsys as [-> | ->]; done. }
  rewrite Hif. unfold mbind, M_bind, print, make_shortcut, shortcut_report.
  subst c. unfold menu_shortcut.
  destruct (make_shortcut_error env _); unfold pure, print, mret, M_ret;
    cbn [registry fs stdout shortcut_calls]; by rewrite <- ?app_assoc.
Qed.

Lemma create_shortcut_desktop env icon_path target_script target_args w :
  platform_system env = "Darwin" ->
  let c := desktop_shortcut (full_command target_script target_args) icon_path in
  create_shortcut env icon_path target_script target_args w
  = (Ok FellThrough,
     MkWorld (registry w) (fs w)
       (stdout w
        ++ ["Creating 'MoleditPy' shortcut...";
            "Targeting: " +:+ target_script +:+ " " +:+ target_args;
            "macOS detected. Creating application in /Applications folder...";
            shortcut_report env c "Successfully created 'MoleditPy' in /Applications."])
       (shortcut_calls w ++ [c])).
Proof.
  intros Hsys c. unfold create_shortcut, try_except. cbv zeta.
  rewrite Hsys. cbn [bool_decide decide_rel orb].
  change (bool_decide ("Darwin" = "Windows") || bool_decide ("Darwin" = "Linux"))
    with false.
  change (bool_decide ("Darwin" = "Darwin")) with true. cbv iota.
  unfold mbind, M_bind, print, make_shortcut, shortcut_report.
  subst c. unfold desktop_shortcut.
  destruct (make_shortcut_error env _); unfold pure, print, mret, M_ret;
    cbn [registry fs stdout shortcut_calls]; by rewrite <- ?app_assoc.
Qed.

Lemma create_shortcut_unsupported env icon_path target_script target_args w :
  ~ supported (platform_system env) ->
  create_shortcut env icon_path target_script target_args w
  = (Ok Returned,
     add_lines w
       ["Creating 'MoleditPy' shortcut...";
        "Targeting: " +:+ target_script +:+ " " +:+ target_args;
        "Shortcut creation is not supported on this OS: " +:+ platform_system env]).
Proof.
  intros Hsys. unfold supported in Hsys.
  unfold create_shortcut, try_except. cbv zeta.
  rewrite !bool_decide_eq_false_2 by tauto. cbn [orb].
  unfold mbind, M_bind, print, pure, mret, M_ret, add_lines.
  cbn [registry fs stdout shortcut_calls]. by rewrite <- ?app_assoc.
Qed.

Lemma wp_eq {A} (m : M A) w a0 w0 :
  wp m w (fun a w' => (Ok a, w') = (Ok a0, w0)) never -> m w = (Ok a0, w0).
Proof. intros H. by apply wp_returns in H as (a & w' & -> & ->). Qed.

Lemma truthy_Some s : s ≠ EmptyString -> truthy (Some s) = true.
Proof. intros Hs. unfold truthy. by rewrite bool_decide_eq_false_2. Qed.

(** ** [install] once the executable is located *)

Lemma wp_conda_print env rest w (Q : unit -> World -> Prop) E :
  wp rest (add_lines w (conda_lines env)) Q E ->
  wp ((if conda_wrapping (environ env !! "CONDA_DEFAULT_ENV")
                         (environ env !! "CONDA_EXE")
       then print ("Conda environment detected: "
                   +:+ default EmptyString (environ env !! "CONDA_DEFAULT_ENV"))
       else pure tt);; rest) w Q E.
Proof.
  unfold conda_lines. rewrite wp_bind.
  destruct (conda_wrapping _ _).
  - by rewrite wp_print.
  - by rewrite wp_pure, add_lines_nil.
Qed.

Lemma install_located_windows env icon_path exe w :
  platform_system env = "Windows" ->
  exe ≠ EmptyString ->
  let c := menu_shortcut (shortcut_command env exe) icon_path in
  install_located env icon_path (Some exe) w
  = (Ok tt,
     MkWorld
       (MkRegistry (registered_hive exe (icon_written icon_path w)
                      (hkcu (registry w)))
                   (deleted (registry w)))
       (fs w)
       (stdout w ++ conda_lines env
        ++ ["Creating 'MoleditPy' shortcut..."; targeting_line env exe;
            shortcut_report env c
              "Successfully created 'MoleditPy' in the application menu."]
        ++ registration_lines ++ removal_hint)
       (shortcut_calls w ++ [c])).
Proof.
  intros Hsys Hexe c. apply wp_eq. unfold install_located. cbv zeta.
  apply wp_conda_print. rewrite wp_bind.
  eapply wp_run; [apply create_shortcut_menu; by left|]. cbv iota zeta.
  rewrite Hsys, truthy_Some by done.
  change (bool_decide ("Windows" = "Windows") && true) with true. cbv iota.
  rewrite wp_bind.
  eapply wp_run; [by apply register_file_associations_windows_spec|].
  rewrite wp_bind, !wp_print. unfold icon_written.
  unfold add_lines, set_registry. cbn [registry fs stdout shortcut_calls hkcu deleted default].
  rewrite <- !app_assoc. reflexivity.
Qed.

Lemma install_located_menu env icon_path exe w :
  platform_system env = "Linux" ->
  let c := menu_shortcut (shortcut_command env exe) icon_path in
  install_located env icon_path (Some exe) w
  = (Ok tt,
     MkWorld (registry w) (fs w)
       (stdout w ++ conda_lines env
        ++ ["Creating 'MoleditPy' shortcut..."; targeting_line env exe;
            shortcut_report env c
              "Successfully created 'MoleditPy' in the application menu."])
       (shortcut_calls w ++ [c])).
Proof.
  intros Hsys c. apply wp_eq. unfold install_located. cbv zeta.
  apply wp_conda_print. rewrite wp_bind.
  eapply wp_run; [apply create_shortcut_menu; by right|]. cbv iota zeta.
  rewrite Hsys.
  change (bool_decide ("Linux" = "Windows")) with false. cbn [andb].
  rewrite wp_pure.
  unfold add_lines. cbn [registry fs stdout shortcut_calls].
  rewrite <- !app_assoc. reflexivity.
Qed.

Lemma install_located_desktop env icon_path exe w :
  platform_system env = "Darwin" ->
  let c := desktop_shortcut (shortcut_command env exe) icon_path in
  install_located env icon_path (Some exe) w
  = (Ok tt,
     MkWorld (registry w) (fs w)
       (stdout w ++ conda_lines env
        ++ ["Creating 'MoleditPy' shortcut..."; targeting_line env exe;
            "macOS detected. Creating application in /Applications folder...";
            shortcut_report env c "Successfully created 'MoleditPy' in /Applications."])
       (shortcut_calls w ++ [c])).
Proof.
  intros Hsys c. apply wp_eq. unfold install_located. cbv zeta.
  apply wp_conda_print. rewrite wp_bind.
  eapply wp_run; [by apply create_shortcut_desktop|]. cbv iota zeta.
  rewrite Hsys.
  change (bool_decide ("Darwin" = "Windows")) with false. cbn [andb].
  rewrite wp_pure.
  unfold add_lines. cbn [registry fs stdout shortcut_calls].
  rewrite <- !app_assoc. reflexivity.
Qed.

Lemma install_located_unsupported env icon_path exe w :
  ~ supported (platform_system env) ->
  install_located env icon_path (Some exe) w
  = (Ok tt,
     add_lines w
       (conda_lines env
        ++ ["Creating 'MoleditPy' shortcut..."; targeting_line env exe;
            "Shortcut creation is not supported on this OS: "
            +:+ platform_system env])).
Proof.
  intros Hsys. apply wp_eq. unfold install_located. cbv zeta.
  apply wp_conda_print. rewrite wp_bind.
  eapply wp_run; [by apply create_shortcut_unsupported|]. cbv iota zeta.
  rewrite wp_pure. by rewrite add_lines_app.
Qed.

Lemma supported_dec system : {supported system} + {~ supported system}.
Proof.
  unfold supported.
  destruct (decide (system = "Windows")); [left; tauto|].
  destruct (decide (system = "Linux")); [left; tauto|].
  destruct (decide (system = "Darwin")); [left; tauto|].
  right. tauto.
Qed.

(** On every platform on which a shortcut is made, [install] makes one call
    to [make_shortcut], with the command line of lines 318-323. *)
Lemma install_located_shortcut env icon_path exe w :
  supported (platform_system env) ->
  exe ≠ EmptyString ->
  exists w' c,
    install_located env icon_path (Some exe) w = (Ok tt, w')
    /\ shortcut_calls w' = shortcut_calls w ++ [c]
    /\ sc_script c = shortcut_command env exe.
Proof.
  intros [Hsys|[Hsys|Hsys]] Hexe.
  - rewrite install_located_windows by done. by eexists _, _.
  - rewrite install_located_menu by done. by eexists _, _.
  - rewrite install_located_desktop by done. by eexists _, _.
Qed.

(** ** [install] up to the locator *)

Lemma find_executable_none env name w :
  fst (find_executable env name w) = Ok None ->
  find_executable env name w = (Ok None, w).
Proof.
  rewrite find_executable_eq.
  destruct (fs w !! local_candidate env name) as [[[]| |e]|];
    try (destruct (path_result env name)); done.
Qed.

Lemma icon_errors_logged_app env w lines more :
  icon_errors_logged env w lines -> icon_errors_logged env w (lines ++ more).
Proof.
  unfold icon_errors_logged. intros H name Hname. specialize (H name Hname).
  destruct (icon_resource env name) as [path|e].
  - destruct (fs w !! path) as [[x| |e]|];
      try done; apply elem_of_app; by left.
  - apply elem_of_app. by left.
Qed.

Lemma wp_icon_stage_logs env rest w (Q : unit -> World -> Prop) E :
  (forall icon lines,
      icon_errors_logged env w lines ->
      wp (rest icon) (add_lines w lines) Q E) ->
  wp (icon_path ← get_icon_path env;
      (if negb (truthy icon_path) then
         print "Warning: Could not find a suitable icon file. A default icon will be used."
       else pure tt);;
      rest icon_path) w Q E.
Proof.
  intros H. rewrite wp_bind.
  destruct (get_icon_path_logs env w) as (icon & lines & Hrun & Hlog).
  eapply wp_run; [exact Hrun|]. rewrite wp_bind.
  destruct (negb (truthy icon)).
  - rewrite wp_print, add_lines_app. apply H.
    by apply icon_errors_logged_app.
  - rewrite wp_pure. by apply H.
Qed.

Lemma wp_icon_stage env rest w (Q : unit -> World -> Prop) E :
  (forall icon lines, wp (rest icon) (add_lines w lines) Q E) ->
  wp (icon_path ← get_icon_path env;
      (if negb (truthy icon_path) then
         print "Warning: Could not find a suitable icon file. A default icon will be used."
       else pure tt);;
      rest icon_path) w Q E.
Proof. intros H. apply wp_icon_stage_logs. intros icon lines _. apply H. Qed.

Lemma truthy_inv res : truthy res = true -> exists s, res = Some s /\ s ≠ EmptyString.
Proof.
  destruct res as [s|]; [|done]. simpl. intros H. exists s. split; [done|].
  apply negb_true_iff in H. by apply bool_decide_eq_false in H.
Qed.

Lemma install_located_returns env icon_path exe w :
  exe ≠ EmptyString ->
  exists w', install_located env icon_path (Some exe) w = (Ok tt, w').
Proof.
  intros Hexe. destruct (supported_dec (platform_system env)) as [Hsys|Hsys].
  - destruct (install_located_shortcut env icon_path exe w Hsys Hexe)
      as (w' & c & Hrun & _). by exists w'.
  - rewrite install_located_unsupported by done. by eexists.
Qed.

(** The executable is located: [install] goes on to the shortcut step, with
    only lines printed so far. *)
Lemma install_found env w exe :
  fst (find_executable env "moleditpy" w) = Ok (Some exe) ->
  exe ≠ EmptyString ->
  exists icon lines,
    install env w = install_located env icon (Some exe) (add_lines w lines).
Proof.
  intros Hfind Hexe.
  cut (wp (install env) w
          (fun a w' => exists icon lines,
             (Ok a, w') = install_located env icon (Some exe) (add_lines w lines))
          never).
  { intros H. apply wp_returns in H as (a & w' & -> & H). done. }
  unfold install. cbv zeta. apply wp_icon_stage. intros icon lines.
  rewrite wp_bind, wp_print, add_lines_app, wp_bind.
  destruct (find_executable_after_lines env "moleditpy" w
              (lines ++ ["Searching for the executable 'moleditpy'..."])
              _ Hfind) as [lines' Hrun].
  eapply wp_run; [exact Hrun|]. cbv beta. rewrite truthy_Some by done.
  cbn [negb].
  destruct (install_located_returns env icon exe (add_lines w
              ((lines ++ ["Searching for the executable 'moleditpy'..."]) ++ lines'))
              Hexe) as [w' Hw'].
  unfold wp. rewrite Hw'. exists icon. eexists. by rewrite Hw'.
Qed.

(** The executable is not located: [install] prints its message and stops. *)
Lemma install_not_found env w :
  fst (find_executable env "moleditpy" w) = Ok None ->
  exists lines,
    install env w
    = (Ok tt, add_lines w (lines
                ++ ["Searching for the executable 'moleditpy'..."]
                ++ not_found_lines)).
Proof.
  intros Hfind.
  cut (wp (install env) w
          (fun a w' => exists lines,
             (Ok a, w') = (Ok tt, add_lines w (lines
                ++ ["Searching for the executable 'moleditpy'..."]
                ++ not_found_lines)))
          never).
  { intros H. apply wp_returns in H as (a & w' & -> & H). done. }
  unfold install. cbv zeta. apply wp_icon_stage. intros icon lines.
  rewrite wp_bind, wp_print, add_lines_app, wp_bind.
  eapply wp_run.
  { apply find_executable_none. rewrite <- Hfind. by apply find_executable_fs. }
  cbn [truthy negb]. rewrite wp_bind, wp_print, wp_bind, !wp_print.
  exists lines. rewrite !add_lines_app, <- !app_assoc. reflexivity.
Qed.

(** ** What [install] logs *)



(** What the probe of the local candidate raises leaves [install], after the
    lines of the icon lookup and the search line. *)
Lemma install_raises env w e :
  fs w !! local_candidate env "moleditpy" = Some (Unreadable e) ->
  exists lines, install env w = (Raise e, add_lines w lines).
Proof.
  intros Hprobe.
  cut (wp (install env) w (fun _ _ => False)
          (fun e' w' => e' = e /\ exists lines, w' = add_lines w lines)).
  { intros H. apply wp_raises in H as (e' & w' & Hrun & -> & lines & ->).
    by exists lines. }
  unfold install. cbv zeta. apply wp_icon_stage. intros icon lines.
  rewrite wp_bind, wp_print, add_lines_app, wp_bind. unfold wp at 1.
  rewrite (find_executable_raises _ _ _ e) by exact Hprobe. eauto.
Qed.

(** ** The command line of the shortcut *)

Lemma string_app_assoc (s1 s2 s3 : string) :
  (s1 +:+ s2) +:+ s3 = s1 +:+ s2 +:+ s3.
Proof.
  induction s1 as [|c s1 IH]; [done|].
  change (String c ((s1 +:+ s2) +:+ s3) = String c (s1 +:+ s2 +:+ s3)).
  by rewrite IH.
Qed.

Lemma open_command_shape exe_path :
  open_command exe_path
  = dq +:+ exe_path +:+ dq +:+ " " +:+ dq +:+ "%1" +:+ dq.
Proof.
  unfold open_command, quoted. by rewrite !string_app_assoc.
Qed.

Lemma conda_wrapping_inv conda_env conda_exe :
  conda_wrapping conda_env conda_exe = true <->
  exists name runner,
    conda_env = Some name /\ name ≠ EmptyString /\ name ≠ "base"
    /\ conda_exe = Some runner /\ runner ≠ EmptyString.
Proof.
  unfold conda_wrapping. split.
  - intros H. apply andb_true_iff in H as [H Hbase].
    apply andb_true_iff in H as [Hname Hrunner].
    apply truthy_inv in Hname as (name & -> & Hname).
    apply truthy_inv in Hrunner as (runner & -> & Hrunner).
    exists name, runner. repeat split; try done.
    apply negb_true_iff, bool_decide_eq_false in Hbase. congruence.
  - intros (name & runner & -> & Hname & Hbase & -> & Hrunner).
    rewrite !truthy_Some by done. simpl.
    apply negb_true_iff, bool_decide_eq_false. congruence.
Qed.

Lemma shortcut_command_wrapped env exe name runner :
  environ env !! "CONDA_DEFAULT_ENV" = Some name ->
  name ≠ EmptyString -> name ≠ "base" ->
  environ env !! "CONDA_EXE" = Some runner ->
  runner ≠ EmptyString ->
  shortcut_command env exe
  = dq +:+ runner +:+ dq +:+ " run -n " +:+ name +:+ " " +:+ dq +:+ exe +:+ dq.
Proof.
  intros Hname Hne Hbase Hrunner Hre.
  unfold shortcut_command, shortcut_target. cbv zeta.
  rewrite (proj2 (conda_wrapping_inv _ _)) by (by exists name, runner).
  rewrite Hname, Hrunner. cbn [fst snd default]. unfold full_command, quoted.
  rewrite bool_decide_eq_false_2 by (intros H; discriminate H).
  cbn [negb]. by rewrite !string_app_assoc.
Qed.

Lemma shortcut_command_bare env exe :
  exe ≠ EmptyString ->
  conda_wrapping (environ env !! "CONDA_DEFAULT_ENV") (environ env !! "CONDA_EXE")
  = false ->
  shortcut_command env exe = exe.
Proof.
  intros Hexe Hwrap. unfold shortcut_command, shortcut_target. cbv zeta.
  rewrite Hwrap. cbn [fst snd]. unfold full_command.
  by rewrite bool_decide_eq_true_2.
Qed.

(** * Properties of [install], the writer and the locator *)

(** [install] on a platform with shortcuts: one call, whose script is the
    command line built for the located executable. *)
Lemma install_makes_shortcut env w exe :
  fst (find_executable env "moleditpy" w) = Ok (Some exe) ->
  exe ≠ EmptyString ->
  supported (platform_system env) ->
  exists w' c,
    install env w = (Ok tt, w')
    /\ shortcut_calls w' = shortcut_calls w ++ [c]
    /\ sc_script c = shortcut_command env exe.
Proof.
  intros Hfind Hexe Hsys.
  destruct (install_found env w exe Hfind Hexe) as (icon & lines & ->).
  destruct (install_located_shortcut env icon exe (add_lines w lines) Hsys Hexe)
    as (w' & c & Hrun & Hcalls & Hscript).
  by exists w', c.
Qed.

(** C2, as amended.  Once the executable is located, the command line handed
    to the shortcut maker is: the runner path in double quotes, then
    [run -n], the environment name and the executable path in double
    quotes, when the environment name is present, not empty and not [base]
    and the runner path is present and not empty; and the bare executable
    path when the environment name is absent, empty or [base]. *)
Theorem shortcut_command_line env w exe :
  fst (find_executable env "moleditpy" w) = Ok (Some exe) ->
  exe ≠ EmptyString ->
  (forall name runner,
      environ env !! "CONDA_DEFAULT_ENV" = Some name ->
      name ≠ EmptyString -> name ≠ "base" ->
      environ env !! "CONDA_EXE" = Some runner ->
      runner ≠ EmptyString ->
      shortcut_command env exe
      = dq +:+ runner +:+ dq +:+ " run -n " +:+ name +:+ " "
        +:+ dq +:+ exe +:+ dq)
  /\ (environ env !! "CONDA_DEFAULT_ENV" = None
      \/ environ env !! "CONDA_DEFAULT_ENV" = Some EmptyString
      \/ environ env !! "CONDA_DEFAULT_ENV" = Some "base" ->
      shortcut_command env exe = exe)
  /\ (supported (platform_system env) ->
      exists w' c,
        install env w = (Ok tt, w')
        /\ shortcut_calls w' = shortcut_calls w ++ [c]
        /\ sc_script c = shortcut_command env exe).
Proof.
  intros Hfind Hexe. split; [|split].
  - intros name runner. by apply shortcut_command_wrapped.
  - intros Hname. apply shortcut_command_bare; [done|].
    unfold conda_wrapping. destruct Hname as [-> | [-> | ->]]; [done|done|].
    rewrite (bool_decide_eq_true_2 (Some "base" = Some "base")) by done.
    apply andb_false_r.
  - by apply install_makes_shortcut.
Qed.

(** C10.  With an environment name that would call for wrapping but no
    runner path, or an empty one, nothing is wrapped: the command line is the
    bare executable path, as when there is no environment. *)
Theorem no_runner_no_wrapping env w exe name :
  fst (find_executable env "moleditpy" w) = Ok (Some exe) ->
  exe ≠ EmptyString ->
  environ env !! "CONDA_DEFAULT_ENV" = Some name ->
  name ≠ EmptyString -> name ≠ "base" ->
  environ env !! "CONDA_EXE" = None
  \/ environ env !! "CONDA_EXE" = Some EmptyString ->
  shortcut_command env exe = exe
  /\ conda_lines env = []
  /\ (supported (platform_system env) ->
      exists w' c,
        install env w = (Ok tt, w')
        /\ shortcut_calls w' = shortcut_calls w ++ [c]
        /\ sc_script c = exe).
Proof.
  intros Hfind Hexe Hname Hne Hbase Hrunner.
  assert (Hwrap : conda_wrapping (environ env !! "CONDA_DEFAULT_ENV")
                                 (environ env !! "CONDA_EXE") = false).
  { unfold conda_wrapping. destruct Hrunner as [-> | ->]; simpl.
    - by rewrite andb_false_r.
    - by rewrite andb_false_r. }
  assert (Hcmd : shortcut_command env exe = exe)
    by by apply shortcut_command_bare.
  split; [done|]. split.
  - unfold conda_lines. by rewrite Hwrap.
  - intros Hsys.
    destruct (install_makes_shortcut env w exe Hfind Hexe Hsys)
      as (w' & c & Hrun & Hcalls & Hscript).
    exists w', c. by rewrite Hscript, Hcmd.
Qed.

(** C3.  The association writer stores, as the default value of the
    [shell\open\command] key of the program identifier, the executable path in
    double quotes followed by a quoted [%1], whatever the path. *)
Theorem open_command_written env exe_path icon_path w :
  platform_system env = "Windows" ->
  exists w',
    register_file_associations_windows env exe_path icon_path w = (Ok true, w')
    /\ default_at (hkcu (registry w')) command_path
       = Some (Some (dq +:+ exe_path +:+ dq +:+ " " +:+ dq +:+ "%1" +:+ dq)).
Proof.
  intros Hsys. rewrite register_file_associations_windows_spec by done.
  eexists. split; [done|]. cbn [add_lines set_registry registry hkcu].
  rewrite registered_hive_command. by rewrite open_command_shape.
Qed.

(** The path of the specification's example, with a space in it. *)
Example open_command_program_files :
  open_command "C:\Program Files\moleditpy.exe"
  = dq +:+ "C:\Program Files\moleditpy.exe" +:+ dq +:+ " " +:+ dq +:+ "%1" +:+ dq.
Proof. reflexivity. Qed.

(** C6.  When the shortcut is wrapped in the environment runner, the open
    command registered on Windows still names the located executable
    itself. *)
Theorem associations_use_unwrapped_path env w exe :
  platform_system env = "Windows" ->
  fst (find_executable env "moleditpy" w) = Ok (Some exe) ->
  exe ≠ EmptyString ->
  conda_wrapping (environ env !! "CONDA_DEFAULT_ENV") (environ env !! "CONDA_EXE")
  = true ->
  exists w' c,
    install env w = (Ok tt, w')
    /\ shortcut_calls w' = shortcut_calls w ++ [c]
    /\ sc_script c
       = dq +:+ default EmptyString (environ env !! "CONDA_EXE") +:+ dq
         +:+ " run -n " +:+ default EmptyString (environ env !! "CONDA_DEFAULT_ENV")
         +:+ " " +:+ dq +:+ exe +:+ dq
    /\ default_at (hkcu (registry w')) command_path
       = Some (Some (dq +:+ exe +:+ dq +:+ " " +:+ dq +:+ "%1" +:+ dq)).
Proof.
  intros Hsys Hfind Hexe Hwrap.
  destruct (install_found env w exe Hfind Hexe) as (icon & lines & ->).
  rewrite install_located_windows by done.
  eexists _, _. split; [done|]. cbn [shortcut_calls add_lines registry hkcu].
  split; [done|]. split.
  - apply conda_wrapping_inv in Hwrap
      as (name & runner & Hname & Hne & Hbase & Hrunner & Hre).
    rewrite Hname, Hrunner. cbn [menu_shortcut sc_script default].
    by apply shortcut_command_wrapped.
  - rewrite registered_hive_command. by rewrite open_command_shape.
Qed.

(** C7.  On Windows, a shortcut step that raises is reported and the
    associations are registered all the same. *)
Theorem shortcut_failure_is_not_fatal env w exe e :
  platform_system env = "Windows" ->
  fst (find_executable env "moleditpy" w) = Ok (Some exe) ->
  exe ≠ EmptyString ->
  (forall icon,
      make_shortcut_error env (menu_shortcut (shortcut_command env exe) icon)
      = Some e) ->
  exists w' lines,
    install env w = (Ok tt, w')
    /\ stdout w'
       = stdout w ++ lines ++ ["Failed to create shortcut: " +:+ exn_msg e]
         ++ registration_lines ++ removal_hint
    /\ default_at (hkcu (registry w')) command_path
       = Some (Some (open_command exe)).
Proof.
  intros Hsys Hfind Hexe Hfail.
  destruct (install_found env w exe Hfind Hexe) as (icon & lines & ->).
  rewrite install_located_windows by done.
  eexists _, (lines ++ conda_lines env
              ++ ["Creating 'MoleditPy' shortcut..."; targeting_line env exe]).
  split; [done|]. cbn [stdout add_lines registry hkcu]. split.
  - unfold shortcut_report. rewrite Hfail. rewrite <- !app_assoc. reflexivity.
  - apply registered_hive_command.
Qed.

(** C8.  When the locator finds nothing, [install] prints its error message
    and stops: no shortcut call, no registry or filesystem change, and the
    locator is asked once. *)
Theorem missing_executable_aborts_install env w :
  fst (find_executable env "moleditpy" w) = Ok None ->
  exists w' lines,
    install env w = (Ok tt, w')
    /\ stdout w'
       = stdout w ++ lines
         ++ ["Searching for the executable 'moleditpy'..."] ++ not_found_lines
    /\ shortcut_calls w' = shortcut_calls w
    /\ registry w' = registry w
    /\ fs w' = fs w.
Proof.
  intros Hfind. destruct (install_not_found env w Hfind) as [lines ->].
  by eexists _, lines.
Qed.


(** The system search path is what decides only when the local candidate is
    not an executable file. *)
Lemma find_executable_falls_back env name w :
  fs w !! local_candidate env name ≠ Some (RegularFile true) ->
  (forall e, fs w !! local_candidate env name ≠ Some (Unreadable e)) ->
  fst (find_executable env name w) = Ok (path_result env name).
Proof.
  intros Hlocal Hprobe. rewrite find_executable_eq.
  destruct (fs w !! local_candidate env name) as [[[]| |e]|];
    try (by destruct (path_result env name)); try done.
  by destruct (Hprobe e).
Qed.

(** * The remover and the entry point *)

(** ** The association remover never raises *)

Lemma remove_extension_key_returns root key_path w :
  wp (remove_extension_key root key_path) w (fun _ _ => True) never.
Proof.
  unfold remove_extension_key. rewrite wp_try, wp_bind, wp_reg_update.
  destruct (DeleteKey _ _ _) as [r|e].
  - by rewrite wp_print.
  - cbv beta. case_decide; [by rewrite wp_pure|by rewrite wp_print].
Qed.

Lemma unregister_returns env w :
  wp (unregister_file_associations_windows env) w (fun _ _ => True) never.
Proof.
  unfold unregister_file_associations_windows.
  case_decide; [by rewrite wp_pure|].
  rewrite wp_bind, wp_print. cbv beta. rewrite wp_try, wp_bind. cbn [for_each].
  rewrite wp_bind.
  eapply wp_mono; [apply remove_extension_key_returns| |done].
  intros [] w1 _. cbv beta. rewrite wp_bind.
  eapply wp_mono; [apply remove_extension_key_returns| |done].
  intros [] w2 _. cbv beta. change (mret tt) with (pure tt). rewrite wp_pure.
  rewrite wp_bind.
  destruct (delete_registry_tree_returns HKEY_CURRENT_USER
              "Software\Classes\MoleditPy.File" w2) as (b & r & Hrun).
  eapply wp_run; [exact Hrun|]. cbv beta. rewrite wp_bind.
  destruct b; [rewrite wp_print|rewrite wp_pure]; by rewrite wp_print.
Qed.

Lemma wp_path_is_dir p w (Q : bool -> World -> Prop) E :
  wp (path_is_dir p) w Q E
  = match fs w !! p with
    | Some (Unreadable e) => E e w
    | Some Directory => Q true w
    | _ => Q false w
    end.
Proof. unfold wp, path_is_dir. by destruct (fs w !! p) as [[]|]. Qed.

Lemma wp_remove_path env p w (Q : unit -> World -> Prop) E :
  wp (remove_path env p) w Q E
  = match remove_error env p with
    | Some e => E e w
    | None => Q tt (MkWorld (registry w) (delete p (fs w)) (stdout w)
                            (shortcut_calls w))
    end.
Proof. unfold wp, remove_path. by destruct (remove_error env p). Qed.

(** The second half of [remove_shortcut] (lines 250-260): it prints one
    line and removes the shortcut when it can, or lets through what the
    probe of line 250 raises. *)
Lemma wp_delete_shortcut env shortcut_path w :
  wp (present ←
        match shortcut_path with
        | Some p => path_exists p
        | None => pure false
        end;
      if (present : bool) then
        let p := default EmptyString shortcut_path in
        try_except
          (is_dir ← path_is_dir p;
           (if (is_dir : bool) then shutil_rmtree env p else os_remove env p);;
           print ("Removed shortcut: " +:+ p))
          (fun e =>
             print ("Failed to remove shortcut " +:+ p +:+ ": " +:+ exn_msg e))
      else
        print ("Shortcut not found at expected location: "
               +:+ fmt_opt shortcut_path)) w
     (fun _ w' =>
        w' = MkWorld (registry w) (removal_fs env shortcut_path w)
                     (stdout w ++ [removal_report env shortcut_path w])
                     (shortcut_calls w))
     (fun e w' =>
        w' = w /\ exists p, shortcut_path = Some p
                            /\ fs w !! p = Some (Unreadable e)).
Proof.
  rewrite wp_bind. destruct shortcut_path as [p|].
  - rewrite wp_path_exists. unfold removal_fs, removal_report, found_at.
    destruct (fs w !! p) as [[x| |e]|] eqn:Hp.
    + cbv zeta. change (default EmptyString (Some p)) with p.
      rewrite wp_try, wp_bind, wp_path_is_dir, Hp. cbv beta. rewrite wp_bind.
      unfold os_remove. rewrite wp_remove_path.
      destruct (remove_error env p); cbv beta; by rewrite wp_print.
    + cbv zeta. change (default EmptyString (Some p)) with p.
      rewrite wp_try, wp_bind, wp_path_is_dir, Hp. cbv beta. rewrite wp_bind.
      unfold shutil_rmtree. rewrite wp_remove_path.
      destruct (remove_error env p); cbv beta; by rewrite wp_print.
    + split; [done|]. by exists p.
    + by rewrite wp_print.
  - rewrite wp_pure. by rewrite wp_print.
Qed.

(** [remove_shortcut] on a platform with shortcuts, when the home directory
    is known and the probe of the expected path returns: the unregistration,
    which does nothing off Windows, and then the removal. *)
Lemma remove_shortcut_supported env w shortcut_path w1 :
  supported (platform_system env) ->
  expected_shortcut_path env = Ok shortcut_path ->
  unregister_file_associations_windows env w = (Ok tt, w1) ->
  (forall p e, shortcut_path = Some p -> fs w1 !! p ≠ Some (Unreadable e)) ->
  remove_shortcut env w
  = (Ok tt, MkWorld (registry w1) (removal_fs env shortcut_path w1)
                    (stdout w1 ++ [removal_report env shortcut_path w1])
                    (shortcut_calls w1)).
Proof.
  intros Hsys Hpath Hunreg Hprobe. apply wp_eq.
  assert (Hstage : wp
    (present ←
        match shortcut_path with
        | Some p => path_exists p
        | None => pure false
        end;
      if (present : bool) then
        let p := default EmptyString shortcut_path in
        try_except
          (is_dir ← path_is_dir p;
           (if (is_dir : bool) then shutil_rmtree env p else os_remove env p);;
           print ("Removed shortcut: " +:+ p))
          (fun e =>
             print ("Failed to remove shortcut " +:+ p +:+ ": " +:+ exn_msg e))
      else
        print ("Shortcut not found at expected location: "
               +:+ fmt_opt shortcut_path)) w1
     (fun a w' =>
        (Ok a, w')
        = (Ok tt, MkWorld (registry w1) (removal_fs env shortcut_path w1)
                    (stdout w1 ++ [removal_report env shortcut_path w1])
                    (shortcut_calls w1)))
     never).
  { eapply wp_mono; [apply wp_delete_shortcut| |].
    - by intros [] w' ->.
    - intros e w' (_ & p & -> & Hp). by destruct (Hprobe p e). }
  revert Hpath Hunreg. unfold remove_shortcut, expected_shortcut_path,
    unregister_file_associations_windows at 1.
  cbv zeta. rewrite wp_bind.
  destruct (decide (platform_system env = "Windows")) as [Hw|Hw].
  - rewrite (decide_False (P := platform_system env ≠ "Windows"))
      by (by intros []).
    intros Hpath Hunreg. rewrite wp_bind.
    unfold unregister_file_associations_windows.
    rewrite (decide_False (P := platform_system env ≠ "Windows"))
      by (by intros []).
    eapply wp_run; [exact Hunreg|]. rewrite wp_pure.
    destruct (truthy (environ env !! "APPDATA")); injection Hpath as <-;
      exact Hstage.
  - rewrite (decide_True (P := platform_system env ≠ "Windows")) by done.
    intros Hpath [= <-].
    destruct (decide (platform_system env = "Linux")) as [Hl|Hl].
    + rewrite wp_bind, wp_lift_result.
      destruct (home_dir env) as [home|e]; [|done].
      injection Hpath as <-. rewrite wp_pure. exact Hstage.
    + destruct (decide (platform_system env = "Darwin")) as [Hd|Hd].
      * rewrite wp_bind, wp_lift_result.
        destruct (home_dir env) as [home|e]; [|done].
        injection Hpath as <-. rewrite wp_pure. exact Hstage.
      * destruct Hsys as [?|[?|?]]; done.
Qed.


(** When [Path.home()] raises, on Linux and on macOS, the exception leaves
    [remove_shortcut] before anything is printed or removed. *)
Lemma remove_shortcut_raises env w e :
  expected_shortcut_path env = Raise e ->
  remove_shortcut env w = (Raise e, w).
Proof.
  unfold remove_shortcut, expected_shortcut_path. cbv zeta.
  unfold mbind, M_bind, lift_result.
  repeat case_decide; try done.
  - by destruct (truthy _).
  - destruct (home_dir env); [done|]. by intros [= ->].
  - destruct (home_dir env); [done|]. by intros [= ->].
Qed.

(** ** What the remover logs *)

Lemma DeleteKey_refused r key sub_key k :
  lookup_key (hkcu r) (key ++ split_path sub_key) = Some k ->
  subkeys k ≠ [] ->
  DeleteKey r key sub_key = Raise access_denied.
Proof.
  intros Hk Hsub. unfold DeleteKey. rewrite Hk.
  by destruct (subkeys k).
Qed.

(** One extension key: the other keys below [Software\Classes] are left
    alone, and a key that has subkeys is reported. *)
Lemma remove_extension_key_logs key_path m w :
  split_path key_path = classes_path ++ [m] ->
  wp (remove_extension_key HKEY_CURRENT_USER key_path) w
     (fun _ w1 =>
        fs w1 = fs w
        /\ shortcut_calls w1 = shortcut_calls w
        /\ (forall n, n ≠ m ->
              lookup_key (hkcu (registry w1)) (classes_path ++ [n])
              = lookup_key (hkcu (registry w)) (classes_path ++ [n]))
        /\ exists lines,
             stdout w1 = stdout w ++ lines
             /\ forall k,
                  lookup_key (hkcu (registry w)) (split_path key_path) = Some k ->
                  subkeys k ≠ [] ->
                  "  Failed to remove " +:+ key_path +:+ ": "
                  +:+ exn_msg access_denied ∈ lines)
     never.
Proof.
  intros Hsplit. unfold remove_extension_key.
  rewrite wp_try, wp_bind, wp_reg_update.
  destruct (DeleteKey (registry w) HKEY_CURRENT_USER key_path) as [r|e] eqn:Hdel.
  - rewrite wp_print. cbn [set_registry registry fs stdout shortcut_calls].
    split; [done|]. split; [done|]. split.
    + apply DeleteKey_inv in Hdel as (q & n' & Hp & ->).
      simpl in Hp. rewrite Hsplit in Hp. apply app_inj_tail in Hp as [<- <-].
      intros n Hn. cbn [hkcu]. by apply lookup_key_sibling.
    + eexists. split; [done|]. intros k Hk Hsub.
      by rewrite (DeleteKey_refused _ _ _ k) in Hdel.
  - cbv beta. case_decide as Hclass.
    + rewrite wp_pure. split; [done|]. split; [done|]. split; [done|].
      exists []. split; [by rewrite app_nil_r|]. intros k Hk Hsub.
      rewrite (DeleteKey_refused _ _ _ k) in Hdel by done.
      injection Hdel as <-. discriminate Hclass.
    + rewrite wp_print. cbn [registry fs stdout shortcut_calls].
      split; [done|]. split; [done|]. split; [done|].
      eexists. split; [done|]. intros k Hk Hsub.
      rewrite (DeleteKey_refused _ _ _ k) in Hdel by done.
      injection Hdel as <-. apply list_elem_of_singleton. done.
Qed.

(** The association remover returns, touches neither the filesystem nor the
    shortcut calls, and reports each extension key that it cannot delete. *)
Lemma unregister_logs env w :
  exists w1 lines,
    unregister_file_associations_windows env w = (Ok tt, w1)
    /\ fs w1 = fs w
    /\ shortcut_calls w1 = shortcut_calls w
    /\ stdout w1 = stdout w ++ lines
    /\ (platform_system env = "Windows" ->
        forall key_path k,
          key_path ∈ ["Software\Classes\.pmeprj"; "Software\Classes\.pmeraw"] ->
          lookup_key (hkcu (registry w)) (split_path key_path) = Some k ->
          subkeys k ≠ [] ->
          "  Failed to remove " +:+ key_path +:+ ": " +:+ exn_msg access_denied
          ∈ lines).
Proof.
  cut (wp (unregister_file_associations_windows env) w
          (fun _ w1 => exists lines,
             fs w1 = fs w
             /\ shortcut_calls w1 = shortcut_calls w
             /\ stdout w1 = stdout w ++ lines
             /\ (platform_system env = "Windows" ->
                 forall key_path k,
                   key_path ∈ ["Software\Classes\.pmeprj";
                               "Software\Classes\.pmeraw"] ->
                   lookup_key (hkcu (registry w)) (split_path key_path) = Some k ->
                   subkeys k ≠ [] ->
                   "  Failed to remove " +:+ key_path +:+ ": "
                   +:+ exn_msg access_denied ∈ lines))
          never).
  { intros H. apply wp_returns in H as ([] & w1 & Hrun & lines & H1 & H2 & H3 & H4).
    by exists w1, lines. }
  unfold unregister_file_associations_windows.
  case_decide as Hsys.
  { rewrite wp_pure. exists []. rewrite app_nil_r. by repeat split. }
  rewrite wp_bind, wp_print. cbv beta. rewrite wp_try, wp_bind. cbn [for_each].
  rewrite wp_bind.
  eapply wp_mono; [apply (remove_extension_key_logs _ ".pmeprj"); reflexivity| |done].
  intros [] w1 (Hfs1 & Hcalls1 & Hkeep1 & lines1 & Hout1 & Hlog1). cbv beta.
  rewrite wp_bind.
  eapply wp_mono; [apply (remove_extension_key_logs _ ".pmeraw"); reflexivity| |done].
  intros [] w2 (Hfs2 & Hcalls2 & _ & lines2 & Hout2 & Hlog2). cbv beta.
  change (mret tt) with (pure tt). rewrite wp_pure. rewrite wp_bind.
  destruct (delete_registry_tree_returns HKEY_CURRENT_USER
              "Software\Classes\MoleditPy.File" w2) as (b & r & Hrun).
  eapply wp_run; [exact Hrun|]. cbv beta. rewrite wp_bind.
  assert (Hlogged : forall tail key_path k,
    key_path ∈ ["Software\Classes\.pmeprj"; "Software\Classes\.pmeraw"] ->
    lookup_key (hkcu (registry w)) (split_path key_path) = Some k ->
    subkeys k ≠ [] ->
    "  Failed to remove " +:+ key_path +:+ ": " +:+ exn_msg access_denied
    ∈ ["Unregistering file associations..."] ++ lines1 ++ lines2 ++ tail).
  { intros tail key_path k Hin Hk Hsub.
    rewrite !elem_of_cons, elem_of_nil in Hin.
    rewrite !elem_of_app.
    destruct Hin as [-> | [-> | []]].
    - right. left. by apply (Hlog1 k).
    - right. right. left. apply (Hlog2 k); [|done].
      rewrite <- Hk. apply (Hkeep1 ".pmeraw"). discriminate. }
  destruct b.
  - rewrite wp_print, wp_print.
    exists (["Unregistering file associations..."] ++ lines1 ++ lines2
            ++ ["  Removed registry tree: Software\Classes\MoleditPy.File";
                "File associations unregistered."]).
    cbn [set_registry registry fs stdout shortcut_calls add_lines].
    split; [by rewrite Hfs2, Hfs1|]. split; [by rewrite Hcalls2, Hcalls1|].
    split; [|intros _; apply Hlogged].
    rewrite Hout2, Hout1. cbn [stdout add_lines]. by rewrite <- !app_assoc.
  - rewrite wp_pure, wp_print.
    exists (["Unregistering file associations..."] ++ lines1 ++ lines2
            ++ ["File associations unregistered."]).
    cbn [set_registry registry fs stdout shortcut_calls add_lines].
    split; [by rewrite Hfs2, Hfs1|]. split; [by rewrite Hcalls2, Hcalls1|].
    split; [|intros _; apply Hlogged].
    rewrite Hout2, Hout1. cbn [stdout add_lines]. by rewrite <- !app_assoc.
Qed.




(** What a probe raises outside every [try] leaves [main]: the process ends
    with status 1. *)
Lemma main_propagates env (remove : bool) w e :
  (if remove then expected_shortcut_path env = Raise e
   else fs w !! local_candidate env "moleditpy" = Some (Unreadable e)) ->
  fst (main env remove w) = Raise e
  /\ exit_status (fst (main env remove w)) = 1%Z.
Proof.
  unfold main, mbind, M_bind. destruct remove; intros H.
  - by rewrite (remove_shortcut_raises env w e).
  - destruct (install_raises env w e H) as [lines ->]. done.
Qed.

(** ** Removal when nothing is installed *)





(** * The theorems at work on the example machines *)

(** Unregistering on the Windows machine with the associations in place:
    the keys go in post-order, and the rest of the hive stays. *)
Example unregister_associated_windows :
  registry (snd (unregister_file_associations_windows windows_conda
                   associated_windows))
  = MkRegistry
      (MkKey None
         [("Software",
           MkKey None
             [("Classes", MkKey None [(".txt", MkKey (Some "txtfile") [])]);
              ("Microsoft", MkKey None [])])])
      [classes_path ++ [".pmeprj"];
       classes_path ++ [".pmeraw"];
       prog_id_path ++ ["DefaultIcon"];
       prog_id_path ++ ["shell"; "open"; "command"];
       prog_id_path ++ ["shell"; "open"];
       prog_id_path ++ ["shell"];
       prog_id_path].
Proof. vm_compute. reflexivity. Qed.

Lemma unregister_removes_prog_id_subtree_witness :
  exists w' exts,
    unregister_file_associations_windows windows_conda associated_windows
    = (Ok tt, w')
    /\ (forall rest, lookup_key (hkcu (registry w')) (prog_id_path ++ rest) = None)
    /\ exts ⊆ extension_paths
    /\ deleted (registry w')
       = deleted (registry associated_windows) ++ exts
         ++ postorder prog_id_path prog_id_subtree.
Proof.
  apply (unregister_removes_prog_id_subtree windows_conda associated_windows
           prog_id_subtree).
  - reflexivity.
  - vm_compute. reflexivity.
  - reflexivity.
Defined.

(** C2, as stated, fails on the Linux machine inside [envA]: the command line
    starts with a double quote, the one that opens the quoted runner path.
    It fails also when the environment name is all there is: with no runner
    path the command line is the bare executable path. *)
Lemma wrapped_command_quotes_the_runner :
  map sc_script (shortcut_calls (snd (install linux_conda fresh_linux)))
  = [dq +:+ "/opt/conda/bin/conda" +:+ dq +:+ " run -n envA "
     +:+ dq +:+ "/x/moleditpy" +:+ dq]
  /\ map sc_script (shortcut_calls (snd (install linux_conda fresh_linux)))
     ≠ ["/opt/conda/bin/conda run -n envA " +:+ dq +:+ "/x/moleditpy" +:+ dq]
  /\ environ linux_name_only !! "CONDA_DEFAULT_ENV" = Some "envA"
  /\ map sc_script (shortcut_calls (snd (install linux_name_only fresh_linux)))
     = ["/x/moleditpy"].
Proof.
  split; [|split; [|split]].
  - vm_compute. reflexivity.
  - vm_compute. intros H. discriminate H.
  - reflexivity.
  - vm_compute. reflexivity.
Qed.

Lemma shortcut_command_line_witness :
  (forall name runner,
      environ linux_conda !! "CONDA_DEFAULT_ENV" = Some name ->
      name ≠ EmptyString -> name ≠ "base" ->
      environ linux_conda !! "CONDA_EXE" = Some runner ->
      runner ≠ EmptyString ->
      shortcut_command linux_conda "/x/moleditpy"
      = dq +:+ runner +:+ dq +:+ " run -n " +:+ name +:+ " "
        +:+ dq +:+ "/x/moleditpy" +:+ dq)
  /\ (environ linux_conda !! "CONDA_DEFAULT_ENV" = None
      \/ environ linux_conda !! "CONDA_DEFAULT_ENV" = Some EmptyString
      \/ environ linux_conda !! "CONDA_DEFAULT_ENV" = Some "base" ->
      shortcut_command linux_conda "/x/moleditpy" = "/x/moleditpy")
  /\ (supported (platform_system linux_conda) ->
      exists w' c,
        install linux_conda fresh_linux = (Ok tt, w')
        /\ shortcut_calls w' = shortcut_calls fresh_linux ++ [c]
        /\ sc_script c = shortcut_command linux_conda "/x/moleditpy").
Proof.
  apply (shortcut_command_line linux_conda fresh_linux "/x/moleditpy").
  - vm_compute. reflexivity.
  - discriminate.
Defined.

Lemma no_runner_no_wrapping_witness :
  shortcut_command linux_name_only "/x/moleditpy" = "/x/moleditpy"
  /\ conda_lines linux_name_only = []
  /\ (supported (platform_system linux_name_only) ->
      exists w' c,
        install linux_name_only fresh_linux = (Ok tt, w')
        /\ shortcut_calls w' = shortcut_calls fresh_linux ++ [c]
        /\ sc_script c = "/x/moleditpy").
Proof.
  apply (no_runner_no_wrapping linux_name_only fresh_linux "/x/moleditpy" "envA").
  - vm_compute. reflexivity.
  - discriminate.
  - reflexivity.
  - discriminate.
  - discriminate.
  - left. reflexivity.
Defined.

Lemma open_command_written_witness :
  exists w',
    register_file_associations_windows windows_conda
      "C:\Program Files\moleditpy.exe" None fresh_windows = (Ok true, w')
    /\ default_at (hkcu (registry w')) command_path
       = Some (Some (dq +:+ "C:\Program Files\moleditpy.exe" +:+ dq +:+ " "
                     +:+ dq +:+ "%1" +:+ dq)).
Proof.
  apply (open_command_written windows_conda "C:\Program Files\moleditpy.exe"
           None fresh_windows).
  reflexivity.
Defined.


(** On that machine the local candidate is [/x/moleditpy]; without it the
    locator returns the one on the search path. *)
Example locator_on_linux :
  fst (find_executable linux_plain "moleditpy" fresh_linux)
  = Ok (Some "/x/moleditpy")
  /\ fst (find_executable linux_plain "moleditpy" bare_linux)
     = Ok (Some "/usr/bin/moleditpy").
Proof. split; vm_compute; reflexivity. Qed.



(** On Linux with a home directory and nothing installed, the one line. *)
Example remove_on_bare_linux :
  remove_shortcut linux_empty_path bare_linux
  = (Ok tt,
     add_lines bare_linux
       ["Shortcut not found at expected location: /home/me/.local/share/applications/MoleditPy.desktop"]).
Proof. vm_compute. reflexivity. Qed.



(** Remove mode on a Linux machine on which the shortcut cannot be removed:
    the failure is printed, the shortcut stays, and the exit status is 0. *)
Example remove_on_read_only_linux :
  stdout (snd (main linux_read_only true installed_linux))
  = ["Failed to remove shortcut /home/me/.local/share/applications/MoleditPy.desktop: [Errno 30] Read-only file system: '/home/me/.local/share/applications/MoleditPy.desktop'"]
  /\ fs (snd (main linux_read_only true installed_linux)) = fs installed_linux
  /\ exit_status (fst (main linux_read_only true installed_linux)) = 0%Z.
Proof. repeat split; vm_compute; reflexivity. Qed.

Lemma associations_use_unwrapped_path_witness :
  exists w' c,
    install windows_conda fresh_windows = (Ok tt, w')
    /\ shortcut_calls w' = shortcut_calls fresh_windows ++ [c]
    /\ sc_script c
       = dq +:+ default EmptyString (environ windows_conda !! "CONDA_EXE") +:+ dq
         +:+ " run -n "
         +:+ default EmptyString (environ windows_conda !! "CONDA_DEFAULT_ENV")
         +:+ " " +:+ dq +:+ "C:\envs\envA\Scripts\moleditpy.exe" +:+ dq
    /\ default_at (hkcu (registry w')) command_path
       = Some (Some (dq +:+ "C:\envs\envA\Scripts\moleditpy.exe" +:+ dq +:+ " "
                     +:+ dq +:+ "%1" +:+ dq)).
Proof.
  apply (associations_use_unwrapped_path windows_conda fresh_windows
           "C:\envs\envA\Scripts\moleditpy.exe").
  - reflexivity.
  - vm_compute. reflexivity.
  - discriminate.
  - vm_compute. reflexivity.
Defined.

Lemma shortcut_failure_is_not_fatal_witness :
  exists w' lines,
    install windows_disk_full fresh_windows = (Ok tt, w')
    /\ stdout w'
       = stdout fresh_windows ++ lines
         ++ ["Failed to create shortcut: " +:+ exn_msg disk_full]
         ++ registration_lines ++ removal_hint
    /\ default_at (hkcu (registry w')) command_path
       = Some (Some (open_command "C:\envs\envA\Scripts\moleditpy.exe")).
Proof.
  apply (shortcut_failure_is_not_fatal windows_disk_full fresh_windows
           "C:\envs\envA\Scripts\moleditpy.exe" disk_full).
  - reflexivity.
  - vm_compute. reflexivity.
  - discriminate.
  - intros icon. reflexivity.
Defined.

Lemma missing_executable_aborts_install_witness :
  exists w' lines,
    install linux_empty_path bare_linux = (Ok tt, w')
    /\ stdout w'
       = stdout bare_linux ++ lines
         ++ ["Searching for the executable 'moleditpy'..."] ++ not_found_lines
    /\ shortcut_calls w' = shortcut_calls bare_linux
    /\ registry w' = registry bare_linux
    /\ fs w' = fs bare_linux.
Proof.
  apply (missing_executable_aborts_install linux_empty_path bare_linux).
  vm_compute. reflexivity.
Defined.

(** The fatal path on that machine, line by line; the exit status is 0. *)
Example install_without_executable :
  stdout (snd (main linux_empty_path false bare_linux))
  = ["Error: Icon file not found in package resources: /x/lib/data/icon.png";
     "Warning: Could not find a suitable icon file. A default icon will be used.";
     "Searching for the executable 'moleditpy'...";
     "Error: Command 'moleditpy' not found.";
     "Please ensure 'moleditpy' (or 'moleditpy-linux') is installed correctly";
     "and that its location is available."]
  /\ exit_status (fst (main linux_empty_path false bare_linux)) = 0%Z.
Proof. split; vm_compute; reflexivity. Qed.

(** Install, then remove, on Windows: the hive is left without the three
    keys. *)
Example install_then_remove_windows :
  hkcu (registry (snd (remove_shortcut windows_conda
                         (snd (install windows_conda fresh_windows)))))
  = MkKey None [("Software", MkKey None [("Classes", MkKey None [])])].
Proof. vm_compute. reflexivity. Qed.

(** * Further properties *)

(** ** Keys that a registry call does not reach *)

Section Frames.
Implicit Types (k c : RegKey) (p q t : HKEY) (n m : string)
               (cs : list (string * RegKey)) (f : RegKey -> RegKey).

Lemma unsnoc_inv {A} (l q : list A) x : unsnoc l = Some (q, x) -> l = q ++ [x].
Proof.
  destruct l as [|y l _] using rev_ind; [done|].
  rewrite unsnoc_snoc. by intros [= <- <-].
Qed.

Lemma delete_at_snoc q n k :
  delete_at (q ++ [n]) k = alter_key (drop_child n) q k.
Proof. unfold delete_at. by rewrite unsnoc_snoc. Qed.

Lemma find_child_alter_ne n m f cs :
  n ≠ m -> find_child n (alter_child m f cs) = find_child n cs.
Proof. intros H. rewrite find_child_alter. by rewrite decide_False. Qed.

(** A change at [p] is not seen from a key that is neither [p] nor above or
    below it. *)
Lemma lookup_alter_key_apart f p q k :
  apart p q -> lookup_key (alter_key f p k) q = lookup_key k q.
Proof.
  revert q k. induction p as [|n p IH]; intros q k [Hpq Hqp].
  { destruct Hpq. apply prefix_nil. }
  destruct q as [|m q]; [destruct Hqp; apply prefix_nil|]. simpl.
  destruct (decide (m = n)) as [->|Hne].
  - rewrite find_child_alter, decide_True by done.
    destruct (find_child n (subkeys k)) as [c|]; simpl; [|done].
    apply IH. split; intros H; [apply Hpq|apply Hqp]; by apply prefix_cons.
  - by rewrite find_child_alter_ne.
Qed.

(** Removing the key at [t] is not seen from a key that is neither [t] nor
    above or below it. *)
Lemma lookup_delete_at_apart t q k :
  apart t q -> lookup_key (delete_at t k) q = lookup_key k q.
Proof.
  destruct t as [|n c _] using rev_ind.
  { intros [H _]. destruct H. apply prefix_nil. }
  rewrite delete_at_snoc. revert q k.
  induction c as [|x c IH]; intros q k [Htq Hqt].
  - destruct q as [|m q]; [destruct Hqt; apply prefix_nil|]. simpl in *.
    rewrite find_child_remove_ne; [done|]. intros ->. apply Htq.
    apply prefix_cons, prefix_nil.
  - destruct q as [|m q]; [destruct Hqt; apply prefix_nil|]. simpl.
    destruct (decide (m = x)) as [->|Hne].
    + rewrite find_child_alter, decide_True by done.
      destruct (find_child x (subkeys k)) as [c'|]; simpl; [|done].
      apply IH. split; intros H; [apply Htq|apply Hqt]; by apply prefix_cons.
    + by rewrite find_child_alter_ne.
Qed.

Lemma lookup_empty_key q : q ≠ [] -> lookup_key empty_key q = None.
Proof. by destruct q. Qed.

Lemma find_child_snoc_ne n m cs c :
  n ≠ m -> find_child n (cs ++ [(m, c)]) = find_child n cs.
Proof.
  intros Hne. induction cs as [|[m' c'] cs IH]; simpl.
  - by rewrite decide_False.
  - by case_decide.
Qed.

(** [create_path] adds keys on the way to [p] and nowhere else. *)
Lemma lookup_create_path_other p q k :
  ~ q `prefix_of` p -> lookup_key (create_path p k) q = lookup_key k q.
Proof.
  revert q k. induction p as [|n p IH]; intros q k Hq; [done|].
  destruct q as [|m q]; [destruct Hq; apply prefix_nil|]. simpl.
  assert (Hq' : m = n -> ~ q `prefix_of` p).
  { intros -> H. apply Hq. by apply prefix_cons. }
  destruct (find_child n (subkeys k)) as [c|] eqn:Hn; simpl.
  - destruct (decide (m = n)) as [->|Hne].
    + rewrite find_child_alter, decide_True, Hn by done. simpl. by apply IH, Hq'.
    + by rewrite find_child_alter_ne.
  - destruct (decide (m = n)) as [->|Hne].
    + rewrite find_child_snoc_new, Hn by done.
      rewrite IH by by apply Hq'. apply lookup_empty_key.
      intros ->. apply (Hq' eq_refl), prefix_nil.
    + by rewrite find_child_snoc_ne.
Qed.

Lemma lookup_set_default_other v p q k :
  ~ q `prefix_of` p ->
  lookup_key (alter_key (set_default v) p k) q = lookup_key k q.
Proof.
  revert q k. induction p as [|n p IH]; intros q k Hq.
  - destruct q as [|m q]; [destruct Hq; apply prefix_nil|]. done.
  - destruct q as [|m q]; [destruct Hq; apply prefix_nil|]. simpl.
    destruct (decide (m = n)) as [->|Hne].
    + rewrite find_child_alter, decide_True by done.
      destruct (find_child n (subkeys k)) as [c|]; simpl; [|done].
      apply IH. intros H. apply Hq. by apply prefix_cons.
    + by rewrite find_child_alter_ne.
Qed.

(** A write at [p] shows only at [p] and above it. *)
Lemma lookup_write_default_other p q k v :
  ~ q `prefix_of` p -> lookup_key (write_default p v k) q = lookup_key k q.
Proof.
  intros Hq. unfold write_default.
  rewrite lookup_set_default_other by done.
  by rewrite !lookup_create_path_other.
Qed.

(** Above [p], a write keeps the keys that are there and their default
    values; at [p] it keeps the subkeys. *)
Lemma create_path_existing p k :
  is_Some (lookup_key k p) -> create_path p k = k.
Proof.
  revert k. induction p as [|n p IH]; intros k; [done|]. simpl.
  destruct (find_child n (subkeys k)) as [c|] eqn:Hn; [|by intros [? ?]].
  intros Hc. rewrite (alter_child_fix _ _ _ c Hn); [by destruct k|].
  by apply IH.
Qed.

Lemma lookup_create_path_self p k :
  lookup_key (create_path p k) p
  = Some (default empty_key (lookup_key k p)).
Proof.
  revert k. induction p as [|n p IH]; intros k; [done|]. simpl.
  destruct (find_child n (subkeys k)) as [c|] eqn:Hn; simpl.
  - rewrite find_child_alter, decide_True, Hn by done. simpl. apply IH.
  - rewrite find_child_snoc_new by done. rewrite IH.
    by destruct p.
Qed.

Lemma lookup_write_default_self p k v :
  lookup_key (write_default p v k) p
  = Some (set_default v (default empty_key (lookup_key k p))).
Proof.
  unfold write_default. rewrite lookup_alter_key.
  rewrite create_path_existing by apply lookup_create_path.
  by rewrite lookup_create_path_self.
Qed.

(** Writing the default value that a key has already changes nothing. *)
Lemma write_default_fix p k v :
  default_at k p = Some (Some v) -> write_default p v k = k.
Proof.
  unfold default_at, write_default. intros H.
  destruct (lookup_key k p) as [c|] eqn:Hc; [|done].
  rewrite !create_path_existing by (by rewrite ?create_path_existing, Hc).
  apply (alter_key_fix _ _ _ c Hc).
  destruct c as [v' cs]. simpl in H. by injection H as ->.
Qed.
End Frames.

(** ** Well-formed hives stay well formed *)

Section WellFormedWrites.
Implicit Types (k c : RegKey) (p q t : HKEY) (n m : string)
               (cs : list (string * RegKey)).

Lemma find_child_not_elem n cs : find_child n cs = None -> n ∉ map fst cs.
Proof.
  induction cs as [|[m c] cs IH]; simpl; [intros _; apply not_elem_of_nil|].
  case_decide; [done|]. intros Hn. apply not_elem_of_cons. auto.
Qed.

Lemma wf_empty_key : wf_key empty_key = true.
Proof. done. Qed.

(** New keys with valid names keep the hive well formed. *)
Lemma wf_create_path p k :
  forallb valid_name p = true -> wf_key k = true -> wf_key (create_path p k) = true.
Proof.
  revert k. induction p as [|n p IH]; intros k Hp Hwf; [done|].
  cbn [forallb] in Hp. apply andb_true_iff in Hp as [Hn Hp].
  cbn [create_path]. destruct k as [v cs]. cbn [subkeys].
  apply wf_key_unfold in Hwf as [Hnd Hall].
  destruct (find_child n cs) as [c|] eqn:Hc; unfold set_subkeys; cbn [default_value].
  - apply wf_key_fold; [by rewrite alter_child_names|].
    clear Hnd Hc. induction Hall as [|[m c'] cs [Hm Hc'] Hall IHall]; simpl; [done|].
    case_decide; constructor; simpl; auto.
  - apply wf_key_fold.
    + rewrite map_app. simpl. apply NoDup_app. split; [done|]. split.
      * intros x Hx ->%list_elem_of_singleton. by apply find_child_not_elem in Hc.
      * apply NoDup_singleton.
    + apply Forall_app. split; [done|]. constructor; [|done]. simpl. split; [done|].
      by apply IH.
Qed.

Lemma wf_set_default v c : wf_key c = true -> wf_key (set_default v c) = true.
Proof. by destruct c. Qed.

Lemma wf_write_default p v k :
  forallb valid_name p = true ->
  wf_key k = true -> wf_key (write_default p v k) = true.
Proof.
  intros Hp Hwf. unfold write_default.
  apply wf_alter_key; [apply wf_set_default|].
  apply wf_create_path; [done|]. by apply wf_create_path.
Qed.

Lemma wf_registered_hive exe_path icon k :
  wf_key k = true -> wf_key (registered_hive exe_path icon k) = true.
Proof.
  intros Hwf. unfold registered_hive. cbv zeta.
  do 3 (apply wf_write_default; [done|]).
  destruct icon; repeat (apply wf_write_default; [done|]); done.
Qed.

Lemma wf_delete_at p k : wf_key k = true -> wf_key (delete_at p k) = true.
Proof.
  intros Hwf. unfold delete_at. destruct (unsnoc p) as [[q n]|]; [|done].
  apply wf_alter_key; [|done]. intros k'. apply wf_drop_child.
Qed.

Lemma wf_remove_leaf p k : wf_key k = true -> wf_key (remove_leaf p k) = true.
Proof.
  intros Hwf. unfold remove_leaf. destruct (lookup_key k p) as [c|]; [|done].
  destruct (subkeys c); [by apply wf_delete_at|done].
Qed.

(** In a well-formed hive a removed key is gone, with what was below it. *)
Lemma lookup_delete_at_gone q n k rest :
  wf_key k = true -> lookup_key (delete_at (q ++ [n]) k) (q ++ n :: rest) = None.
Proof. intros Hwf. rewrite delete_at_snoc. by apply lookup_key_dropped. Qed.
End WellFormedWrites.

(** ** The remover, exactly *)

Lemma wp_returns_unit (m : M unit) w (P : World -> Prop) :
  wp m w (fun _ w' => P w') never -> exists w', m w = (Ok tt, w') /\ P w'.
Proof. intros H. apply wp_returns in H as ([] & w' & Hrun & HP). eauto. Qed.

Lemma remove_extension_key_exact key_path q n w :
  split_path key_path = q ++ [n] ->
  wp (remove_extension_key HKEY_CURRENT_USER key_path) w
     (fun _ w' =>
        hkcu (registry w') = remove_leaf (q ++ [n]) (hkcu (registry w))
        /\ fs w' = fs w
        /\ shortcut_calls w' = shortcut_calls w
        /\ stdout w'
           = stdout w ++ extension_report key_path (q ++ [n]) (hkcu (registry w)))
     never.
Proof.
  intros Hp. unfold remove_extension_key, remove_leaf, extension_report.
  rewrite wp_try, wp_bind, wp_reg_update. unfold DeleteKey.
  change (HKEY_CURRENT_USER ++ split_path key_path) with (split_path key_path).
  rewrite Hp. destruct (lookup_key (hkcu (registry w)) (q ++ [n])) as [c|].
  - destruct (subkeys c).
    + rewrite unsnoc_snoc, wp_print. by rewrite delete_at_snoc.
    + cbv beta. rewrite decide_False by done. by rewrite wp_print.
  - cbv beta. rewrite decide_True by done. rewrite wp_pure.
    by rewrite app_nil_r.
Qed.

(** On Windows, what the remover leaves of a well-formed hive and what it
    prints are functions of the hive. *)
Lemma unregister_exact env w :
  platform_system env = "Windows" ->
  wf_key (hkcu (registry w)) = true ->
  exists w',
    unregister_file_associations_windows env w = (Ok tt, w')
    /\ hkcu (registry w') = unregistered_hive (hkcu (registry w))
    /\ fs w' = fs w
    /\ shortcut_calls w' = shortcut_calls w
    /\ stdout w' = stdout w ++ unregister_lines (hkcu (registry w)).
Proof.
  intros Hsys Hwf. apply wp_returns_unit.
  unfold unregister_file_associations_windows. rewrite decide_False by (by intros []).
  rewrite wp_bind, wp_print. cbv beta. rewrite wp_try, wp_bind. cbn [for_each].
  rewrite wp_bind.
  eapply wp_mono;
    [apply (remove_extension_key_exact _ classes_path ".pmeprj"); reflexivity| |done].
  intros [] w1 (Hk1 & Hfs1 & Hc1 & Ho1). cbv beta. rewrite wp_bind.
  eapply wp_mono;
    [apply (remove_extension_key_exact _ classes_path ".pmeraw"); reflexivity| |done].
  intros [] w2 (Hk2 & Hfs2 & Hc2 & Ho2). cbv beta.
  change (mret tt) with (pure tt). rewrite wp_pure, wp_bind.
  cbn [add_lines registry stdout fs shortcut_calls] in *.
  rewrite Hk1 in Hk2, Ho2.
  assert (Hwf2 : wf_key (hkcu (registry w2)) = true).
  { rewrite Hk2. by do 2 apply wf_remove_leaf. }
  unfold unregistered_hive, unregister_lines, remove_tree, tree_report. cbv zeta.
  rewrite <- Hk2.
  destruct (lookup_key (hkcu (registry w2)) prog_id_path) as [sub|] eqn:Hsub.
  - eapply wp_run.
    { apply (delete_registry_tree_removes _ _ classes_path "MoleditPy.File" sub);
        [done|reflexivity|done]. }
    cbv iota beta. rewrite wp_bind, wp_print. cbv beta. rewrite wp_print.
    cbn [add_lines set_registry registry hkcu stdout fs shortcut_calls].
    split; [by rewrite <- delete_at_snoc|]. split; [congruence|].
    split; [congruence|]. rewrite Ho2, Ho1. by rewrite <- !app_assoc.
  - eapply wp_run.
    { by apply delete_registry_tree_absent. }
    cbv iota beta. rewrite wp_bind, wp_pure, wp_print.
    cbn [add_lines set_registry registry hkcu stdout fs shortcut_calls].
    split; [done|]. split; [congruence|].
    split; [congruence|]. rewrite Ho2, Ho1. by rewrite <- !app_assoc.
Qed.

(** ** The keys of the installer after the remover *)

Section OwnedKeys.
Implicit Types (k c : RegKey) (p q t : HKEY) (n m : string).

Lemma lookup_remove_leaf_apart p q k :
  apart p q -> lookup_key (remove_leaf p k) q = lookup_key k q.
Proof.
  intros H. unfold remove_leaf. destruct (lookup_key k p) as [c|]; [|done].
  destruct (subkeys c); [by apply lookup_delete_at_apart|done].
Qed.

Lemma lookup_remove_tree_apart p q k :
  apart p q -> lookup_key (remove_tree p k) q = lookup_key k q.
Proof.
  intros H. unfold remove_tree. destruct (lookup_key k p); [|done].
  by apply lookup_delete_at_apart.
Qed.

(** The remover leaves alone every key that is neither one of its three nor
    above or below one of them. *)
Lemma lookup_unregistered_hive_apart q k :
  (forall p, p ∈ owned_paths -> apart p q) ->
  lookup_key (unregistered_hive k) q = lookup_key k q.
Proof.
  intros H. unfold unregistered_hive.
  rewrite lookup_remove_tree_apart by (apply H; unfold owned_paths; set_solver).
  rewrite lookup_remove_leaf_apart by (apply H; unfold owned_paths; set_solver).
  by rewrite lookup_remove_leaf_apart by (apply H; unfold owned_paths; set_solver).
Qed.

(** A key is settled for the extension loop when the loop leaves it: it is
    absent or has subkeys. *)
Lemma remove_leaf_settled p k :
  lookup_key k p = None
  \/ (exists c, lookup_key k p = Some c /\ subkeys c ≠ []) ->
  remove_leaf p k = k.
Proof.
  unfold remove_leaf. intros [-> | (c & -> & Hc)]; [done|].
  by destruct (subkeys c).
Qed.

Lemma lookup_remove_leaf_self q n k :
  wf_key k = true ->
  lookup_key (remove_leaf (q ++ [n]) k) (q ++ [n]) = None
  \/ exists c, lookup_key (remove_leaf (q ++ [n]) k) (q ++ [n]) = Some c
               /\ lookup_key k (q ++ [n]) = Some c /\ subkeys c ≠ [].
Proof.
  intros Hwf. unfold remove_leaf.
  destruct (lookup_key k (q ++ [n])) as [c|] eqn:Hc; [|by left].
  destruct (subkeys c) eqn:Hs.
  - left. by apply lookup_delete_at_gone.
  - right. exists c. rewrite Hc, Hs. done.
Qed.

Lemma lookup_remove_tree_self q n k rest :
  wf_key k = true ->
  lookup_key (remove_tree (q ++ [n]) k) (q ++ n :: rest) = None.
Proof.
  intros Hwf. unfold remove_tree.
  destruct (lookup_key k (q ++ [n])) as [c|] eqn:Hc.
  - by apply lookup_delete_at_gone.
  - change (q ++ n :: rest) with (q ++ [n] ++ rest).
    by rewrite app_assoc, lookup_key_app, Hc.
Qed.

Lemma apart_sym p q : apart p q -> apart q p.
Proof. by intros [? ?]. Qed.

Lemma apart_pmeprj_pmeraw :
  apart (classes_path ++ [".pmeprj"]) (classes_path ++ [".pmeraw"]).
Proof. split; intros [l Hl]; discriminate Hl. Qed.

Lemma apart_pmeprj_prog_id : apart (classes_path ++ [".pmeprj"]) prog_id_path.
Proof. split; intros [l Hl]; discriminate Hl. Qed.

Lemma apart_pmeraw_prog_id : apart (classes_path ++ [".pmeraw"]) prog_id_path.
Proof. split; intros [l Hl]; discriminate Hl. Qed.

(** After the remover, each of the three keys is absent or, for an extension
    key, left because it has subkeys. *)
Lemma unregistered_hive_settled k :
  wf_key k = true ->
  let k' := unregistered_hive k in
  (forall p, p ∈ extension_paths ->
     lookup_key k' p = None
     \/ exists c, lookup_key k' p = Some c /\ lookup_key k p = Some c
                  /\ subkeys c ≠ [])
  /\ forall rest, lookup_key k' (prog_id_path ++ rest) = None.
Proof.
  intros Hwf k'. subst k'. unfold unregistered_hive.
  set (k1 := remove_leaf (classes_path ++ [".pmeprj"]) k).
  set (k2 := remove_leaf (classes_path ++ [".pmeraw"]) k1).
  assert (Hwf1 : wf_key k1 = true) by by apply wf_remove_leaf.
  assert (Hwf2 : wf_key k2 = true) by by apply wf_remove_leaf.
  split.
  - intros p Hp. unfold extension_paths in Hp.
    apply elem_of_cons in Hp as [-> | Hp].
    + rewrite lookup_remove_tree_apart by apply apart_sym, apart_pmeprj_prog_id.
      unfold k2.
      rewrite lookup_remove_leaf_apart by apply apart_sym, apart_pmeprj_pmeraw.
      by apply lookup_remove_leaf_self.
    + apply list_elem_of_singleton in Hp as ->.
      rewrite lookup_remove_tree_apart by apply apart_sym, apart_pmeraw_prog_id.
      destruct (lookup_remove_leaf_self classes_path ".pmeraw" k1 Hwf1)
        as [H | (c & H1 & H2 & H3)]; [by left|].
      right. exists c. split; [done|]. split; [|done].
      rewrite <- H2. unfold k1.
      by rewrite lookup_remove_leaf_apart by apply apart_pmeprj_pmeraw.
  - intros rest. unfold prog_id_path. rewrite <- app_assoc.
    by apply lookup_remove_tree_self.
Qed.

(** Running the remover on what it left changes nothing. *)
Lemma unregistered_hive_idempotent k :
  wf_key k = true ->
  unregistered_hive (unregistered_hive k) = unregistered_hive k.
Proof.
  intros Hwf. destruct (unregistered_hive_settled k Hwf) as [Hext Hprog].
  set (k' := unregistered_hive k) in *. unfold unregistered_hive at 1.
  assert (H1 : remove_leaf (classes_path ++ [".pmeprj"]) k' = k').
  { apply remove_leaf_settled.
    destruct (Hext (classes_path ++ [".pmeprj"])) as [H | (c & H & _ & Hc)];
      [unfold extension_paths; set_solver|by left|right; eauto]. }
  rewrite H1.
  assert (H2 : remove_leaf (classes_path ++ [".pmeraw"]) k' = k').
  { apply remove_leaf_settled.
    destruct (Hext (classes_path ++ [".pmeraw"])) as [H | (c & H & _ & Hc)];
      [unfold extension_paths; set_solver|by left|right; eauto]. }
  rewrite H2. unfold remove_tree.
  specialize (Hprog []). rewrite app_nil_r in Hprog. by rewrite Hprog.
Qed.
End OwnedKeys.

(** ** The hive after the writer *)

Section RegisteredHive.
Implicit Types (k c : RegKey) (p q t : HKEY) (n m : string).

Lemma default_at_is_Some k q :
  is_Some (lookup_key k q) <-> is_Some (default_at k q).
Proof. unfold default_at. by rewrite fmap_is_Some. Qed.

(** A write loses no key. *)
Lemma write_default_keeps p v k q :
  is_Some (lookup_key k q) -> is_Some (lookup_key (write_default p v k) q).
Proof.
  rewrite !default_at_is_Some. intros [u Hu].
  destruct (decide (q = p)) as [->|Hne].
  - by rewrite write_default_self.
  - by rewrite (write_default_other _ _ _ _ u).
Qed.

Lemma registered_hive_keeps exe_path icon k q :
  is_Some (lookup_key k q) ->
  is_Some (lookup_key (registered_hive exe_path icon k) q).
Proof.
  intros H. unfold registered_hive. cbv zeta.
  do 3 apply write_default_keeps.
  destruct icon; repeat apply write_default_keeps; done.
Qed.

(** Registration shows only at the keys it writes and above them. *)
Lemma lookup_registered_hive_other exe_path icon k q :
  (forall p, p ∈ written_paths icon -> ~ q `prefix_of` p) ->
  lookup_key (registered_hive exe_path icon k) q = lookup_key k q.
Proof.
  intros H. unfold registered_hive. cbv zeta.
  rewrite !lookup_write_default_other
    by (apply H; unfold written_paths; destruct icon; set_solver).
  destruct icon as [i|];
    by rewrite !lookup_write_default_other
      by (apply H; unfold written_paths; set_solver).
Qed.

Lemma registered_hive_prog_id exe_path icon k :
  default_at (registered_hive exe_path icon k) prog_id_path
  = Some (Some "MoleditPy File").
Proof.
  unfold registered_hive. cbv zeta.
  do 3 (apply write_default_other; [done|]).
  destruct icon; [apply write_default_other; [done|]|]; apply write_default_self.
Qed.

Lemma registered_hive_icon exe_path i k :
  default_at (registered_hive exe_path (Some i) k) (prog_id_path ++ ["DefaultIcon"])
  = Some (Some i).
Proof.
  unfold registered_hive. cbv zeta.
  do 3 (apply write_default_other; [done|]). apply write_default_self.
Qed.

Lemma registered_hive_pmeprj exe_path icon k :
  default_at (registered_hive exe_path icon k) (classes_path ++ [".pmeprj"])
  = Some (Some "MoleditPy.File").
Proof.
  unfold registered_hive. cbv zeta.
  apply write_default_other; [done|]. apply write_default_self.
Qed.

Lemma registered_hive_pmeraw exe_path icon k :
  default_at (registered_hive exe_path icon k) (classes_path ++ [".pmeraw"])
  = Some (Some "MoleditPy.File").
Proof. unfold registered_hive. cbv zeta. apply write_default_self. Qed.

(** Registering again, with the same executable and icon, changes nothing. *)
Lemma registered_hive_idempotent exe_path icon k :
  registered_hive exe_path icon (registered_hive exe_path icon k)
  = registered_hive exe_path icon k.
Proof.
  set (R := registered_hive exe_path icon k).
  unfold registered_hive at 1. cbv zeta.
  rewrite (write_default_fix prog_id_path R) by apply registered_hive_prog_id.
  assert (Hicon : match icon with
                  | Some i => write_default (prog_id_path ++ ["DefaultIcon"]) i R
                  | None => R
                  end = R).
  { subst R. destruct icon as [i|]; [|done].
    apply write_default_fix, registered_hive_icon. }
  rewrite Hicon.
  rewrite (write_default_fix command_path R) by apply registered_hive_command.
  rewrite (write_default_fix _ R) by apply registered_hive_pmeprj.
  apply write_default_fix, registered_hive_pmeraw.
Qed.

Lemma subkeys_set_default v c : subkeys (set_default v c) = subkeys c.
Proof. done. Qed.

End RegisteredHive.

Section RegisteredHive2.
Implicit Types (k c : RegKey) (p q t : HKEY) (n m : string).

Lemma extension_not_above p q :
  p ∈ extension_paths ->
  q ∈ [prog_id_path; prog_id_path ++ ["DefaultIcon"]; command_path] ->
  ~ p `prefix_of` q.
Proof.
  unfold extension_paths. rewrite !elem_of_cons, !elem_of_nil.
  intros [-> | [-> | []]] [-> | [-> | [-> | []]]] [l Hl]; discriminate Hl.
Qed.

Lemma pmeprj_not_above_pmeraw :
  ~ (classes_path ++ [".pmeprj"]) `prefix_of` (classes_path ++ [".pmeraw"]).
Proof. intros [l Hl]. discriminate Hl. Qed.

Lemma pmeraw_not_above_pmeprj :
  ~ (classes_path ++ [".pmeraw"]) `prefix_of` (classes_path ++ [".pmeprj"]).
Proof. intros [l Hl]. discriminate Hl. Qed.

(** The writes before the extension loop are not seen from an extension
    key. *)
Lemma lookup_before_extensions exe_path icon k p :
  p ∈ extension_paths ->
  lookup_key
    (write_default command_path (open_command exe_path)
       match icon with
       | Some i => write_default (prog_id_path ++ ["DefaultIcon"]) i
                     (write_default prog_id_path "MoleditPy File" k)
       | None => write_default prog_id_path "MoleditPy File" k
       end) p
  = lookup_key k p.
Proof.
  intros Hp.
  assert (Hq : forall q,
            q ∈ [prog_id_path; prog_id_path ++ ["DefaultIcon"]; command_path] ->
            ~ p `prefix_of` q) by (intros q; by apply extension_not_above).
  rewrite (lookup_write_default_other command_path p)
    by (apply Hq; rewrite !elem_of_cons; tauto).
  destruct icon as [i|].
  - rewrite (lookup_write_default_other (prog_id_path ++ ["DefaultIcon"]) p)
      by (apply Hq; rewrite !elem_of_cons; tauto).
    apply lookup_write_default_other, Hq. rewrite !elem_of_cons. tauto.
  - apply lookup_write_default_other, Hq. rewrite !elem_of_cons. tauto.
Qed.

(** An extension key comes out of registration with the subkeys it had. *)
Lemma lookup_registered_extension exe_path icon k p :
  p ∈ extension_paths ->
  exists c, lookup_key (registered_hive exe_path icon k) p = Some c
            /\ subkeys c = subkeys (default empty_key (lookup_key k p)).
Proof.
  intros Hp. unfold registered_hive. cbv zeta.
  pose proof (lookup_before_extensions exe_path icon k p Hp) as Hbefore.
  set (k3 := write_default command_path _ _) in *.
  unfold extension_paths in Hp. rewrite !elem_of_cons, elem_of_nil in Hp.
  destruct Hp as [-> | [-> | []]].
  - rewrite (lookup_write_default_other (classes_path ++ [".pmeraw"]))
      by apply pmeprj_not_above_pmeraw.
    rewrite lookup_write_default_self. eexists. split; [done|].
    by rewrite subkeys_set_default, Hbefore.
  - rewrite lookup_write_default_self. eexists. split; [done|].
    rewrite subkeys_set_default.
    rewrite (lookup_write_default_other (classes_path ++ [".pmeprj"]))
      by apply pmeraw_not_above_pmeprj.
    by rewrite Hbefore.
Qed.

(** Registration followed by removal leaves none of the three keys, when the
    extension keys had no subkeys to begin with. *)
Lemma unregistered_registered_hive exe_path icon k p :
  wf_key k = true ->
  (forall e c, e ∈ extension_paths -> lookup_key k e = Some c -> subkeys c = []) ->
  p ∈ owned_paths ->
  lookup_key (unregistered_hive (registered_hive exe_path icon k)) p = None.
Proof.
  intros Hwf Hleaf Hp.
  destruct (unregistered_hive_settled (registered_hive exe_path icon k))
    as [Hext Hprog]; [by apply wf_registered_hive|].
  assert (Hone : forall e, e ∈ extension_paths ->
            lookup_key (unregistered_hive (registered_hive exe_path icon k)) e = None).
  { intros e He. destruct (Hext e He) as [H | (c & _ & Hc & Hsub)]; [done|].
    destruct (lookup_registered_extension exe_path icon k e He) as (c' & Hc' & Hs).
    rewrite Hc in Hc'. injection Hc' as <-. destruct Hsub. rewrite Hs.
    destruct (lookup_key k e) as [c0|] eqn:Hc0; [by apply (Hleaf e)|done]. }
  unfold owned_paths in Hp. rewrite !elem_of_cons, elem_of_nil in Hp.
  destruct Hp as [-> | [-> | [-> | []]]].
  - apply Hone. unfold extension_paths. apply elem_of_cons. by left.
  - apply Hone. unfold extension_paths. rewrite !elem_of_cons. tauto.
  - specialize (Hprog []). by rewrite app_nil_r in Hprog.
Qed.
End RegisteredHive2.

(** ** The association writer *)

Lemma icon_written_fs icon_path w1 w :
  fs w1 = fs w -> icon_written icon_path w1 = icon_written icon_path w.
Proof. intros H. unfold icon_written, found_at. by rewrite H. Qed.

Lemma icon_written_Some icon_path w i :
  icon_path = Some i -> i ≠ EmptyString -> found_at w i = true ->
  icon_written icon_path w = Some i.
Proof.
  intros -> Hi Hfound. unfold icon_written.
  rewrite truthy_Some by done.
  change (default EmptyString (Some i)) with i. by rewrite Hfound.
Qed.

Lemma icon_written_None icon_path w :
  icon_path = None \/ icon_path = Some EmptyString
  \/ (exists i, icon_path = Some i /\ found_at w i = false) ->
  icon_written icon_path w = None.
Proof.
  unfold icon_written. intros [-> | [-> | (i & -> & Hi)]]; [done|done|].
  change (default EmptyString (Some i)) with i. by rewrite Hi, andb_false_r.
Qed.

(** X1.  On Windows the writer binds both extensions to the program
    identifier, whose default value is the display name; it deletes no key
    and touches neither the filesystem nor the shortcut calls. *)
Theorem writer_binds_extensions env exe_path icon_path w :
  platform_system env = "Windows" ->
  exists w',
    register_file_associations_windows env exe_path icon_path w = (Ok true, w')
    /\ default_at (hkcu (registry w')) prog_id_path = Some (Some "MoleditPy File")
    /\ (forall p, p ∈ extension_paths ->
          default_at (hkcu (registry w')) p = Some (Some "MoleditPy.File"))
    /\ deleted (registry w') = deleted (registry w)
    /\ fs w' = fs w
    /\ shortcut_calls w' = shortcut_calls w.
Proof.
  intros Hsys. rewrite register_file_associations_windows_spec by done.
  eexists. split; [done|].
  cbn [add_lines set_registry registry hkcu deleted fs shortcut_calls].
  split; [apply registered_hive_prog_id|]. split; [|done].
  intros p Hp. unfold extension_paths in Hp.
  rewrite !elem_of_cons, elem_of_nil in Hp. destruct Hp as [-> | [-> | []]].
  - apply registered_hive_pmeprj.
  - apply registered_hive_pmeraw.
Qed.

Lemma writer_binds_extensions_witness :
  exists w',
    register_file_associations_windows windows_conda
      "C:\envs\envA\Scripts\moleditpy.exe" None fresh_windows = (Ok true, w')
    /\ default_at (hkcu (registry w')) prog_id_path = Some (Some "MoleditPy File")
    /\ (forall p, p ∈ extension_paths ->
          default_at (hkcu (registry w')) p = Some (Some "MoleditPy.File"))
    /\ deleted (registry w') = deleted (registry fresh_windows)
    /\ fs w' = fs fresh_windows
    /\ shortcut_calls w' = shortcut_calls fresh_windows.
Proof.
  apply (writer_binds_extensions windows_conda
           "C:\envs\envA\Scripts\moleditpy.exe" None fresh_windows).
  reflexivity.
Defined.

(** X2.  The [DefaultIcon] key gets the icon path exactly when an icon is
    given, is not the empty string and is found on disk (line 132); in every
    other case the writer leaves that key as it was. *)
Theorem default_icon_written_when_found env exe_path icon_path w :
  platform_system env = "Windows" ->
  exists w',
    register_file_associations_windows env exe_path icon_path w = (Ok true, w')
    /\ (forall i,
          icon_path = Some i -> i ≠ EmptyString -> found_at w i = true ->
          default_at (hkcu (registry w')) (prog_id_path ++ ["DefaultIcon"])
          = Some (Some i))
    /\ (icon_path = None \/ icon_path = Some EmptyString
        \/ (exists i, icon_path = Some i /\ found_at w i = false) ->
        lookup_key (hkcu (registry w')) (prog_id_path ++ ["DefaultIcon"])
        = lookup_key (hkcu (registry w)) (prog_id_path ++ ["DefaultIcon"])).
Proof.
  intros Hsys. rewrite register_file_associations_windows_spec by done.
  eexists. split; [done|].
  cbn [add_lines set_registry registry hkcu deleted fs shortcut_calls]. split.
  - intros i Hicon Hi Hfound.
    rewrite (icon_written_Some icon_path w i) by done.
    apply registered_hive_icon.
  - intros Hnone. rewrite icon_written_None by done.
    apply lookup_registered_hive_other. intros p Hp [l Hl].
    unfold written_paths in Hp. rewrite !elem_of_app, !elem_of_cons, !elem_of_nil in Hp.
    destruct Hp as [[-> | []] | [[] | [-> | [-> | [-> | []]]]]]; discriminate Hl.
Qed.

Lemma default_icon_written_when_found_witness :
  exists w',
    register_file_associations_windows windows_conda
      "C:\envs\envA\Scripts\moleditpy.exe"
      (Some "C:\envs\envA\Lib\data\icon.ico") fresh_windows = (Ok true, w')
    /\ (forall i,
          Some "C:\envs\envA\Lib\data\icon.ico" = Some i -> i ≠ EmptyString ->
          found_at fresh_windows i = true ->
          default_at (hkcu (registry w')) (prog_id_path ++ ["DefaultIcon"])
          = Some (Some i))
    /\ (Some "C:\envs\envA\Lib\data\icon.ico" = None
        \/ Some "C:\envs\envA\Lib\data\icon.ico" = Some EmptyString
        \/ (exists i, Some "C:\envs\envA\Lib\data\icon.ico" = Some i
                      /\ found_at fresh_windows i = false) ->
        lookup_key (hkcu (registry w')) (prog_id_path ++ ["DefaultIcon"])
        = lookup_key (hkcu (registry fresh_windows))
            (prog_id_path ++ ["DefaultIcon"])).
Proof.
  apply (default_icon_written_when_found windows_conda
           "C:\envs\envA\Scripts\moleditpy.exe"
           (Some "C:\envs\envA\Lib\data\icon.ico") fresh_windows).
  reflexivity.
Defined.

(** The icon of the example machine is on disk, so the key is written. *)
Example default_icon_on_windows :
  default_at
    (hkcu (registry (snd (register_file_associations_windows windows_conda
                            "C:\envs\envA\Scripts\moleditpy.exe"
                            (Some "C:\envs\envA\Lib\data\icon.ico")
                            fresh_windows))))
    (prog_id_path ++ ["DefaultIcon"])
  = Some (Some "C:\envs\envA\Lib\data\icon.ico").
Proof. vm_compute. reflexivity. Qed.

(** X3.  Registering twice with the same executable and icon leaves the
    registry as registering once does. *)
Theorem writer_is_idempotent env exe_path icon_path w :
  platform_system env = "Windows" ->
  exists w1 w2,
    register_file_associations_windows env exe_path icon_path w = (Ok true, w1)
    /\ register_file_associations_windows env exe_path icon_path w1
       = (Ok true, w2)
    /\ registry w2 = registry w1.
Proof.
  intros Hsys. rewrite register_file_associations_windows_spec by done.
  eexists. eexists. split; [done|].
  rewrite register_file_associations_windows_spec by done.
  split; [done|].
  cbn [add_lines set_registry registry hkcu deleted fs shortcut_calls].
  rewrite (icon_written_fs icon_path _ w) by done.
  by rewrite registered_hive_idempotent.
Qed.

Lemma writer_is_idempotent_witness :
  exists w1 w2,
    register_file_associations_windows windows_conda
      "C:\envs\envA\Scripts\moleditpy.exe" None associated_windows = (Ok true, w1)
    /\ register_file_associations_windows windows_conda
         "C:\envs\envA\Scripts\moleditpy.exe" None w1 = (Ok true, w2)
    /\ registry w2 = registry w1.
Proof.
  apply (writer_is_idempotent windows_conda
           "C:\envs\envA\Scripts\moleditpy.exe" None associated_windows).
  reflexivity.
Defined.

(** X4.  The writer loses no key, and a key that is neither one of those it
    writes nor above one of them is what it was. *)
Theorem writer_keeps_other_keys env exe_path icon_path w q :
  platform_system env = "Windows" ->
  exists w',
    register_file_associations_windows env exe_path icon_path w = (Ok true, w')
    /\ (is_Some (lookup_key (hkcu (registry w)) q) ->
        is_Some (lookup_key (hkcu (registry w')) q))
    /\ ((forall p, p ∈ written_paths (icon_written icon_path w) ->
                   ~ q `prefix_of` p) ->
        lookup_key (hkcu (registry w')) q = lookup_key (hkcu (registry w)) q).
Proof.
  intros Hsys. rewrite register_file_associations_windows_spec by done.
  eexists. split; [done|].
  cbn [add_lines set_registry registry hkcu deleted fs shortcut_calls]. split.
  - apply registered_hive_keeps.
  - apply lookup_registered_hive_other.
Qed.

Lemma writer_keeps_other_keys_witness :
  exists w',
    register_file_associations_windows windows_conda
      "C:\envs\envA\Scripts\moleditpy.exe" None associated_windows = (Ok true, w')
    /\ (is_Some (lookup_key (hkcu (registry associated_windows))
                   (classes_path ++ [".txt"])) ->
        is_Some (lookup_key (hkcu (registry w')) (classes_path ++ [".txt"])))
    /\ ((forall p, p ∈ written_paths (icon_written None associated_windows) ->
                   ~ (classes_path ++ [".txt"]) `prefix_of` p) ->
        lookup_key (hkcu (registry w')) (classes_path ++ [".txt"])
        = lookup_key (hkcu (registry associated_windows))
            (classes_path ++ [".txt"])).
Proof.
  apply (writer_keeps_other_keys windows_conda
           "C:\envs\envA\Scripts\moleditpy.exe" None associated_windows
           (classes_path ++ [".txt"])).
  reflexivity.
Defined.

(** ** The association remover *)

(** X5.  On Windows the remover leaves alone every key that is neither one
    of its three nor above or below one of them, and touches neither the
    filesystem nor the shortcut calls. *)
Theorem remover_leaves_other_keys env w q :
  platform_system env = "Windows" ->
  wf_key (hkcu (registry w)) = true ->
  (forall p, p ∈ owned_paths -> apart p q) ->
  exists w',
    unregister_file_associations_windows env w = (Ok tt, w')
    /\ lookup_key (hkcu (registry w')) q = lookup_key (hkcu (registry w)) q
    /\ fs w' = fs w
    /\ shortcut_calls w' = shortcut_calls w.
Proof.
  intros Hsys Hwf Hq.
  destruct (unregister_exact env w Hsys Hwf) as (w' & Hrun & Hk & Hfs & Hc & _).
  exists w'. split; [done|]. split; [|done].
  rewrite Hk. by apply lookup_unregistered_hive_apart.
Qed.

Lemma remover_leaves_other_keys_witness :
  exists w',
    unregister_file_associations_windows windows_conda associated_windows
    = (Ok tt, w')
    /\ lookup_key (hkcu (registry w')) (classes_path ++ [".txt"])
       = lookup_key (hkcu (registry associated_windows)) (classes_path ++ [".txt"])
    /\ fs w' = fs associated_windows
    /\ shortcut_calls w' = shortcut_calls associated_windows.
Proof.
  apply (remover_leaves_other_keys windows_conda associated_windows
           (classes_path ++ [".txt"])).
  - reflexivity.
  - vm_compute. reflexivity.
  - intros p Hp. unfold owned_paths in Hp.
    rewrite !elem_of_cons, elem_of_nil in Hp.
    destruct Hp as [-> | [-> | [-> | []]]];
      split; intros [l Hl]; discriminate Hl.
Defined.

(** X6.  Running the remover a second time changes nothing in the hive. *)
Theorem remover_is_idempotent env w :
  platform_system env = "Windows" ->
  wf_key (hkcu (registry w)) = true ->
  exists w1 w2,
    unregister_file_associations_windows env w = (Ok tt, w1)
    /\ unregister_file_associations_windows env w1 = (Ok tt, w2)
    /\ hkcu (registry w2) = hkcu (registry w1).
Proof.
  intros Hsys Hwf.
  destruct (unregister_exact env w Hsys Hwf) as (w1 & Hrun1 & Hk1 & _).
  assert (Hwf1 : wf_key (hkcu (registry w1)) = true).
  { rewrite Hk1. unfold unregistered_hive, remove_tree.
    destruct (lookup_key _ prog_id_path);
      [apply wf_delete_at|]; by do 2 apply wf_remove_leaf. }
  destruct (unregister_exact env w1 Hsys Hwf1) as (w2 & Hrun2 & Hk2 & _).
  exists w1, w2. split; [done|]. split; [done|].
  rewrite Hk2, Hk1. by apply unregistered_hive_idempotent.
Qed.

Lemma remover_is_idempotent_witness :
  exists w1 w2,
    unregister_file_associations_windows windows_conda associated_windows
    = (Ok tt, w1)
    /\ unregister_file_associations_windows windows_conda w1 = (Ok tt, w2)
    /\ hkcu (registry w2) = hkcu (registry w1).
Proof.
  apply (remover_is_idempotent windows_conda associated_windows).
  - reflexivity.
  - vm_compute. reflexivity.
Defined.

Lemma extension_path_cases p :
  p ∈ extension_paths ->
  p = classes_path ++ [".pmeprj"] \/ p = classes_path ++ [".pmeraw"].
Proof.
  unfold extension_paths. rewrite !elem_of_cons, elem_of_nil. tauto.
Qed.

(** X7.  An extension key that has subkeys is not deleted (lines 199-204):
    the remover leaves it as it is, reports the failure and goes on. *)
Theorem extension_key_with_subkeys_survives env w p c :
  platform_system env = "Windows" ->
  wf_key (hkcu (registry w)) = true ->
  p ∈ extension_paths ->
  lookup_key (hkcu (registry w)) p = Some c ->
  subkeys c ≠ [] ->
  exists w' key_path,
    unregister_file_associations_windows env w = (Ok tt, w')
    /\ lookup_key (hkcu (registry w')) p = Some c
    /\ split_path key_path = p
    /\ "  Failed to remove " +:+ key_path +:+ ": [WinError 5] Access is denied"
       ∈ stdout w'
    /\ last (stdout w') = Some "File associations unregistered.".
Proof.
  intros Hsys Hwf Hp Hc Hsub.
  destruct (unregister_exact env w Hsys Hwf) as (w' & Hrun & Hk & _ & _ & Hout).
  assert (Hlast : last (stdout w') = Some "File associations unregistered.").
  { rewrite Hout. unfold unregister_lines. cbv zeta.
    rewrite !app_assoc. apply last_snoc. }
  assert (Hsettled : remove_leaf p (hkcu (registry w)) = hkcu (registry w)).
  { apply remove_leaf_settled. right. by exists c. }
  apply extension_path_cases in Hp as [-> | ->].
  - exists w', "Software\Classes\.pmeprj". split; [done|]. split; [|split; [done|]].
    + rewrite Hk. unfold unregistered_hive. rewrite Hsettled.
      rewrite lookup_remove_tree_apart by apply apart_sym, apart_pmeprj_prog_id.
      rewrite lookup_remove_leaf_apart by apply apart_sym, apart_pmeprj_pmeraw.
      done.
    + split; [|done]. rewrite Hout. unfold unregister_lines. cbv zeta.
      unfold extension_report at 1. rewrite Hc.
      destruct (subkeys c); [done|].
      rewrite !elem_of_app, !elem_of_cons. tauto.
  - exists w', "Software\Classes\.pmeraw". split; [done|]. split; [|split; [done|]].
    + rewrite Hk. unfold unregistered_hive.
      rewrite lookup_remove_tree_apart by apply apart_sym, apart_pmeraw_prog_id.
      unfold remove_leaf at 1.
      rewrite lookup_remove_leaf_apart by apply apart_pmeprj_pmeraw.
      rewrite Hc. destruct (subkeys c); [done|].
      rewrite lookup_remove_leaf_apart by apply apart_pmeprj_pmeraw.
      done.
    + split; [|done]. rewrite Hout. unfold unregister_lines. cbv zeta.
      unfold extension_report at 2.
      rewrite lookup_remove_leaf_apart by apply apart_pmeprj_pmeraw.
      rewrite Hc. destruct (subkeys c); [done|].
      rewrite !elem_of_app, !elem_of_cons. tauto.
Qed.

Lemma extension_key_with_subkeys_survives_witness :
  exists w' key_path,
    unregister_file_associations_windows windows_conda shared_extension_windows
    = (Ok tt, w')
    /\ lookup_key (hkcu (registry w')) (classes_path ++ [".pmeprj"])
       = Some (MkKey (Some "MoleditPy.File") [("OpenWithProgids", MkKey None [])])
    /\ split_path key_path = classes_path ++ [".pmeprj"]
    /\ "  Failed to remove " +:+ key_path +:+ ": [WinError 5] Access is denied"
       ∈ stdout w'
    /\ last (stdout w') = Some "File associations unregistered.".
Proof.
  apply (extension_key_with_subkeys_survives windows_conda
           shared_extension_windows (classes_path ++ [".pmeprj"])
           (MkKey (Some "MoleditPy.File") [("OpenWithProgids", MkKey None [])])).
  - reflexivity.
  - vm_compute. reflexivity.
  - unfold extension_paths. apply elem_of_cons. by left.
  - vm_compute. reflexivity.
  - discriminate.
Defined.

(** On that machine, line by line. *)
Example unregister_shared_extension :
  stdout (snd (unregister_file_associations_windows windows_conda
                 shared_extension_windows))
  = ["Unregistering file associations...";
     "  Failed to remove Software\Classes\.pmeprj: [WinError 5] Access is denied";
     "  Removed registry key: Software\Classes\.pmeraw";
     "  Removed registry tree: Software\Classes\MoleditPy.File";
     "File associations unregistered."].
Proof. vm_compute. reflexivity. Qed.

(** X8.  Registration followed by removal leaves none of the three keys of
    the installer, when the extension keys had no subkeys to begin with. *)
Theorem register_then_unregister env exe_path icon_path w :
  platform_system env = "Windows" ->
  wf_key (hkcu (registry w)) = true ->
  (forall p c, p ∈ extension_paths ->
               lookup_key (hkcu (registry w)) p = Some c -> subkeys c = []) ->
  exists w1 w2,
    register_file_associations_windows env exe_path icon_path w = (Ok true, w1)
    /\ unregister_file_associations_windows env w1 = (Ok tt, w2)
    /\ forall p, p ∈ owned_paths -> lookup_key (hkcu (registry w2)) p = None.
Proof.
  intros Hsys Hwf Hleaf.
  rewrite register_file_associations_windows_spec by done.
  eexists. 
  match goal with
  | |- exists w2, (_, ?w1) = _ /\ _ =>
      destruct (unregister_exact env w1 Hsys) as (w2 & Hrun & Hk & _)
  end.
  { cbn [add_lines set_registry registry hkcu]. by apply wf_registered_hive. }
  exists w2. split; [done|]. split; [done|].
  intros p Hp. rewrite Hk.
  cbn [add_lines set_registry registry hkcu].
  by apply unregistered_registered_hive.
Qed.

Lemma register_then_unregister_witness :
  exists w1 w2,
    register_file_associations_windows windows_conda
      "C:\envs\envA\Scripts\moleditpy.exe"
      (Some "C:\envs\envA\Lib\data\icon.ico") fresh_windows = (Ok true, w1)
    /\ unregister_file_associations_windows windows_conda w1 = (Ok tt, w2)
    /\ forall p, p ∈ owned_paths -> lookup_key (hkcu (registry w2)) p = None.
Proof.
  apply (register_then_unregister windows_conda
           "C:\envs\envA\Scripts\moleditpy.exe"
           (Some "C:\envs\envA\Lib\data\icon.ico") fresh_windows).
  - reflexivity.
  - reflexivity.
  - intros p c Hp Hc. apply extension_path_cases in Hp as [-> | ->];
      vm_compute in Hc; discriminate Hc.
Defined.

(** X9.  On a well-formed hive [delete_registry_tree] does not raise: it
    returns [True] exactly when the key exists, leaves nothing at the key or
    below it, and leaves a hive without the key as it is. *)
Theorem delete_registry_tree_reports key sub_key q n w :
  wf_key (hkcu (registry w)) = true ->
  key ++ split_path sub_key = q ++ [n] ->
  exists w',
    delete_registry_tree key sub_key w
    = (Ok (bool_decide (is_Some (lookup_key (hkcu (registry w)) (q ++ [n])))), w')
    /\ (forall rest, lookup_key (hkcu (registry w')) (q ++ n :: rest) = None)
    /\ (lookup_key (hkcu (registry w)) (q ++ [n]) = None -> w' = w).
Proof.
  intros Hwf Hp.
  destruct (lookup_key (hkcu (registry w)) (q ++ [n])) as [k|] eqn:Hk.
  - rewrite (delete_registry_tree_removes key sub_key q n k) by done.
    eexists. split; [done|]. split; [|done].
    intros rest. cbn [set_registry registry hkcu].
    by apply lookup_key_dropped.
  - rewrite delete_registry_tree_absent by (by rewrite Hp).
    exists w. split; [done|]. split; [|done].
    intros rest. change (q ++ n :: rest) with (q ++ [n] ++ rest).
    by rewrite app_assoc, lookup_key_app, Hk.
Qed.

Lemma delete_registry_tree_reports_witness :
  exists w',
    delete_registry_tree HKEY_CURRENT_USER "Software\Classes\MoleditPy.File"
      associated_windows
    = (Ok (bool_decide (is_Some (lookup_key (hkcu (registry associated_windows))
                                   (classes_path ++ ["MoleditPy.File"])))), w')
    /\ (forall rest,
          lookup_key (hkcu (registry w'))
            (classes_path ++ "MoleditPy.File" :: rest) = None)
    /\ (lookup_key (hkcu (registry associated_windows))
          (classes_path ++ ["MoleditPy.File"]) = None ->
        w' = associated_windows).
Proof.
  apply (delete_registry_tree_reports HKEY_CURRENT_USER
           "Software\Classes\MoleditPy.File" classes_path "MoleditPy.File"
           associated_windows).
  - vm_compute. reflexivity.
  - reflexivity.
Defined.

(** ** The locator and the icon resolver *)

(** The icon resolver, case by case. *)
Lemma get_icon_path_eq env w :
  get_icon_path env w
  = match icon_name (platform_system env) with
    | None =>
        (Ok None,
         add_lines w ["Warning: Unsupported operating system for icon selection: "
                      +:+ platform_system env])
    | Some name =>
        match icon_resource env name with
        | Raise e =>
            (Ok None,
             add_lines w ["Error finding icon file " +:+ name +:+ ": "
                          +:+ exn_msg e])
        | Ok path =>
            match fs w !! path with
            | None =>
                (Ok None,
                 add_lines w ["Error: Icon file not found in package resources: "
                              +:+ path])
            | Some (Unreadable e) =>
                (Ok None,
                 add_lines w ["Error finding icon file " +:+ name +:+ ": "
                              +:+ exn_msg e])
            | Some _ => (Ok (Some path), w)
            end
        end
    end.
Proof.
  assert (Hres : forall name,
    try_except
      (path ← lift_result (icon_resource env name);
       found ← path_exists path;
       if (found : bool) then pure (Some path)
       else
         print ("Error: Icon file not found in package resources: " +:+ path);;
         pure None)
      (fun e =>
         print ("Error finding icon file " +:+ name +:+ ": " +:+ exn_msg e);;
         pure None) w
    = match icon_resource env name with
      | Raise e =>
          (Ok None,
           add_lines w ["Error finding icon file " +:+ name +:+ ": "
                        +:+ exn_msg e])
      | Ok path =>
          match fs w !! path with
          | None =>
              (Ok None,
               add_lines w ["Error: Icon file not found in package resources: "
                            +:+ path])
          | Some (Unreadable e) =>
              (Ok None,
               add_lines w ["Error finding icon file " +:+ name +:+ ": "
                            +:+ exn_msg e])
          | Some _ => (Ok (Some path), w)
          end
      end).
  { intros name. unfold try_except, mbind, M_bind, lift_result.
    destruct (icon_resource env name) as [path|e]; [|done].
    unfold path_exists. by destruct (fs w !! path) as [[x| |e]|]. }
  unfold get_icon_path, icon_name. cbv zeta.
  repeat case_decide; try apply Hres. done.
Qed.

(** X10.  The icon resolver never raises and changes nothing but the
    output: it returns a path only when that path is the package resource of
    the platform and is found on disk, and then prints nothing; in every
    other case it returns [None] after one line that says why. *)
Theorem icon_path_is_found_or_none env w :
  exists icon lines,
    get_icon_path env w = (Ok icon, add_lines w lines)
    /\ match icon with
       | Some path =>
           lines = []
           /\ found_at w path = true
           /\ exists name, icon_name (platform_system env) = Some name
                           /\ icon_resource env name = Ok path
       | None => List.length lines = 1
       end.
Proof.
  rewrite get_icon_path_eq. unfold found_at.
  destruct (icon_name (platform_system env)) as [name|]; [|by eexists None, [_]].
  destruct (icon_resource env name) as [path|e] eqn:Hres; [|by eexists None, [_]].
  destruct (fs w !! path) as [[x| |e]|] eqn:Hpath;
    try (by eexists None, [_]).
  - exists (Some path), []. rewrite add_lines_nil, Hpath.
    repeat split. by exists name.
  - exists (Some path), []. rewrite add_lines_nil, Hpath.
    repeat split. by exists name.
Qed.

(** X11.  The locator changes nothing but the output, and prints one line
    exactly when it returns a path. *)
Theorem locator_only_prints env name w :
  exists lines,
    find_executable env name w
    = (fst (find_executable env name w), add_lines w lines)
    /\ List.length lines
       = match fst (find_executable env name w) with
         | Ok (Some _) => 1
         | _ => 0
         end.
Proof.
  rewrite find_executable_eq.
  destruct (fs w !! local_candidate env name) as [[[]| |e]|];
    try (destruct (path_result env name));
    first [by eexists [_] | exists []; by rewrite add_lines_nil].
Qed.

(** X12.  When the local candidate is not an executable file, the system
    search path decides: no answer or an empty one gives [None] and prints
    nothing; off Windows an answer is returned as it is; on Windows an
    answer that ends in [.EXE] is returned with [.exe] in its place. *)
Theorem search_path_decides_otherwise env name w :
  fs w !! local_candidate env name ≠ Some (RegularFile true) ->
  (forall e, fs w !! local_candidate env name ≠ Some (Unreadable e)) ->
  (which env name = None \/ which env name = Some EmptyString ->
   find_executable env name w = (Ok None, w))
  /\ (forall p,
        which env name = Some p -> p ≠ EmptyString ->
        platform_system env ≠ "Windows" \/ endswith p ".EXE" = false ->
        fst (find_executable env name w) = Ok (Some p))
  /\ (forall p,
        which env name = Some p -> p ≠ EmptyString ->
        platform_system env = "Windows" -> endswith p ".EXE" = true ->
        fst (find_executable env name w)
        = Ok (Some (drop_last 4 p +:+ ".exe"))).
Proof.
  intros Hlocal Hprobe.
  assert (Hrun : find_executable env name w
    = match path_result env name with
      | Some p =>
          (Ok (Some p),
           add_lines w ["Found executable in system PATH: " +:+ p])
      | None => (Ok None, w)
      end).
  { rewrite find_executable_eq.
    destruct (fs w !! local_candidate env name) as [[[]| |e]|]; try done.
    by destruct (Hprobe e). }
  rewrite Hrun. unfold path_result. split; [|split].
  - by intros [-> | ->].
  - intros p -> Hp Hplain. rewrite truthy_Some by done.
    destruct Hplain as [Hsys | Hend].
    + by rewrite bool_decide_eq_false_2.
    + by rewrite Hend, andb_false_r.
  - intros p -> Hp Hsys Hend. rewrite truthy_Some by done.
    by rewrite bool_decide_eq_true_2, Hend.
Qed.

Lemma search_path_decides_otherwise_witness :
  (which linux_plain "moleditpy" = None
   \/ which linux_plain "moleditpy" = Some EmptyString ->
   find_executable linux_plain "moleditpy" bare_linux = (Ok None, bare_linux))
  /\ (forall p,
        which linux_plain "moleditpy" = Some p -> p ≠ EmptyString ->
        platform_system linux_plain ≠ "Windows" \/ endswith p ".EXE" = false ->
        fst (find_executable linux_plain "moleditpy" bare_linux) = Ok (Some p))
  /\ (forall p,
        which linux_plain "moleditpy" = Some p -> p ≠ EmptyString ->
        platform_system linux_plain = "Windows" -> endswith p ".EXE" = true ->
        fst (find_executable linux_plain "moleditpy" bare_linux)
        = Ok (Some (drop_last 4 p +:+ ".exe"))).
Proof.
  apply (search_path_decides_otherwise linux_plain "moleditpy" bare_linux).
  - vm_compute. discriminate.
  - intros e. vm_compute. discriminate.
Defined.

(** ** [remove_shortcut] and [main] *)







(** X15.  On Windows without [APPDATA], or with an empty one, there is no
    expected path (line 229): the association remover runs all the same, no
    file is looked for or removed, and the line that follows says that the
    shortcut was not found at [None]. *)
Theorem missing_appdata_reports_none env w :
  platform_system env = "Windows" ->
  environ env !! "APPDATA" = None \/ environ env !! "APPDATA" = Some EmptyString ->
  exists w1,
    unregister_file_associations_windows env w = (Ok tt, w1)
    /\ remove_shortcut env w
       = (Ok tt,
          add_lines w1 ["Shortcut not found at expected location: None"]).
Proof.
  intros Hsys Happdata.
  assert (Hpath : expected_shortcut_path env = Ok None).
  { unfold expected_shortcut_path. cbv zeta. rewrite decide_True by done.
    by destruct Happdata as [-> | ->]. }
  destruct (unregister_logs env w) as (w1 & lines & Hrun & _).
  exists w1. split; [done|].
  rewrite (remove_shortcut_supported env w None w1);
    [done|by left|done|done|done].
Qed.

Lemma missing_appdata_reports_none_witness :
  exists w1,
    unregister_file_associations_windows (windows_machine ∅ None) fresh_windows
    = (Ok tt, w1)
    /\ remove_shortcut (windows_machine ∅ None) fresh_windows
       = (Ok tt,
          add_lines w1 ["Shortcut not found at expected location: None"]).
Proof.
  apply (missing_appdata_reports_none (windows_machine ∅ None) fresh_windows).
  - reflexivity.
  - left. reflexivity.
Defined.

(** X16.  What a probe raises outside every [try] leaves [main], and the
    process ends with status 1: [Path.home()] and [shortcut_path.exists()] in
    remove mode, [candidate_path.is_file()] in install mode. *)
Theorem probe_exceptions_propagate env (remove : bool) w e :
  (if remove then
     expected_shortcut_path env = Raise e
     \/ exists p, expected_shortcut_path env = Ok (Some p)
                  /\ fs w !! p = Some (Unreadable e)
   else fs w !! local_candidate env "moleditpy" = Some (Unreadable e)) ->
  fst (main env remove w) = Raise e
  /\ exit_status (fst (main env remove w)) = 1%Z.
Proof.
  unfold main, mbind, M_bind. destruct remove.
  - intros [Hhome | (p & Hpath & Hp)].
    + by rewrite (remove_shortcut_raises env w e).
    + cut (wp (remove_shortcut env) w (fun _ _ => False)
              (fun e' _ => e' = e)).
      { intros H. apply wp_raises in H as (e' & w' & -> & ->). done. }
      revert Hpath. unfold remove_shortcut, expected_shortcut_path. cbv zeta.
      assert (Hstage : forall w1, fs w1 = fs w ->
        wp (present ← path_exists p;
            if (present : bool) then
              let p0 := default EmptyString (Some p) in
              try_except
                (is_dir ← path_is_dir p0;
                 (if (is_dir : bool) then shutil_rmtree env p0
                  else os_remove env p0);;
                 print ("Removed shortcut: " +:+ p0))
                (fun e0 =>
                   print ("Failed to remove shortcut " +:+ p0 +:+ ": "
                          +:+ exn_msg e0))
            else
              print ("Shortcut not found at expected location: "
                     +:+ fmt_opt (Some p))) w1
           (fun _ _ => False) (fun e' _ => e' = e)).
      { intros w1 Hw1. rewrite wp_bind, wp_path_exists. by rewrite Hw1, Hp. }
      rewrite wp_bind. repeat case_decide.
      * destruct (truthy (environ env !! "APPDATA")); [|done].
        intros [= <-]. rewrite wp_bind.
        destruct (unregister_logs env w) as (w1 & lines & Hrun & Hfs & _).
        eapply wp_run; [exact Hrun|]. rewrite wp_pure. by apply Hstage.
      * rewrite wp_bind, wp_lift_result.
        destruct (home_dir env); [|done]. intros [= <-].
        rewrite wp_pure. by apply Hstage.
      * rewrite wp_bind, wp_lift_result.
        destruct (home_dir env); [|done]. intros [= <-].
        rewrite wp_pure. by apply Hstage.
      * done.
  - intros H. destruct (install_raises env w e H) as [lines ->]. done.
Qed.

Lemma probe_exceptions_propagate_witness :
  fst (main linux_plain false locked_linux)
  = Raise (permission_denied "/x/moleditpy")
  /\ exit_status (fst (main linux_plain false locked_linux)) = 1%Z.
Proof.
  apply (probe_exceptions_propagate linux_plain false locked_linux
           (permission_denied "/x/moleditpy")).
  vm_compute. reflexivity.
Defined.

(** ** [install] *)

Lemma get_icon_path_fs env w1 w2 :
  fs w1 = fs w2 -> fst (get_icon_path env w1) = fst (get_icon_path env w2).
Proof.
  intros Hfs. rewrite !get_icon_path_eq, Hfs.
  destruct (icon_name (platform_system env)) as [name|]; [|done].
  destruct (icon_resource env name) as [path|e]; [|done].
  by destruct (fs w2 !! path) as [[x| |e]|].
Qed.

(** [install] up to the shortcut step, with the icon that the resolver
    returned and the warning that follows a missing one. *)
Lemma install_found_icon env w exe :
  fst (find_executable env "moleditpy" w) = Ok (Some exe) ->
  exe ≠ EmptyString ->
  exists icon lines,
    fst (get_icon_path env w) = Ok icon
    /\ install env w = install_located env icon (Some exe) (add_lines w lines)
    /\ (truthy icon = false ->
        "Warning: Could not find a suitable icon file. A default icon will be used."
        ∈ lines).
Proof.
  intros Hfind Hexe.
  destruct (get_icon_path_prints env w) as (icon & lines & Hicon).
  exists icon.
  cut (wp (install env) w
          (fun a w' => exists lines,
             (Ok a, w') = install_located env icon (Some exe) (add_lines w lines)
             /\ (truthy icon = false ->
                 "Warning: Could not find a suitable icon file. A default icon will be used."
                 ∈ lines))
          never).
  { intros H. apply wp_returns in H as (a & w' & -> & lines' & -> & Hwarn).
    exists lines'. by rewrite Hicon. }
  unfold install. cbv zeta. rewrite wp_bind.
  eapply wp_run; [exact Hicon|]. rewrite wp_bind.
  assert (Htail : forall lines0,
    (truthy icon = false ->
     "Warning: Could not find a suitable icon file. A default icon will be used."
     ∈ lines0) ->
    wp (print ("Searching for the executable '" +:+ "moleditpy" +:+ "'...");;
        original_exe_path ← find_executable env "moleditpy";
        if negb (truthy original_exe_path) then
          print ("Error: Command '" +:+ "moleditpy" +:+ "' not found.");;
          print "Please ensure 'moleditpy' (or 'moleditpy-linux') is installed correctly";;
          print "and that its location is available."
        else install_located env icon original_exe_path)
       (add_lines w lines0)
       (fun a w' => exists lines,
          (Ok a, w') = install_located env icon (Some exe) (add_lines w lines)
          /\ (truthy icon = false ->
              "Warning: Could not find a suitable icon file. A default icon will be used."
              ∈ lines))
       never).
  { intros lines0 Hwarn.
    rewrite wp_bind, wp_print, add_lines_app, wp_bind.
    destruct (find_executable_after_lines env "moleditpy" w
                (lines0 ++ ["Searching for the executable 'moleditpy'..."])
                _ Hfind) as [lines' Hrun].
    eapply wp_run; [exact Hrun|]. cbv beta. rewrite truthy_Some by done.
    cbn [negb].
    destruct (install_located_returns env icon exe (add_lines w
                ((lines0 ++ ["Searching for the executable 'moleditpy'..."])
                 ++ lines')) Hexe) as [w' Hw'].
    unfold wp. rewrite Hw'. eexists. rewrite Hw'. split; [done|].
    intros Hicon'. rewrite !elem_of_app. left. left. by apply Hwarn. }
  destruct (truthy icon) eqn:Htruthy; cbn [negb].
  - rewrite wp_pure. by apply Htail.
  - rewrite wp_print, add_lines_app. apply Htail. intros _.
    rewrite elem_of_app, elem_of_cons. tauto.
Qed.

(** The call that [install_located] makes on a platform with shortcuts. *)
Lemma install_located_call env icon exe w :
  supported (platform_system env) ->
  exe ≠ EmptyString ->
  exists w',
    install_located env icon (Some exe) w = (Ok tt, w')
    /\ shortcut_calls w'
       = shortcut_calls w
         ++ [if decide (platform_system env = "Darwin")
             then desktop_shortcut (shortcut_command env exe) icon
             else menu_shortcut (shortcut_command env exe) icon]
    /\ (exists lines, stdout w' = stdout w ++ lines)
    /\ fs w' = fs w.
Proof.
  intros [Hsys|[Hsys|Hsys]] Hexe.
  - rewrite install_located_windows by done. eexists. split; [done|].
    cbn [shortcut_calls stdout fs]. rewrite Hsys. eauto.
  - rewrite install_located_menu by done. eexists. split; [done|].
    cbn [shortcut_calls stdout fs]. rewrite Hsys. eauto.
  - rewrite install_located_desktop by done. eexists. split; [done|].
    cbn [shortcut_calls stdout fs]. rewrite Hsys. eauto.
Qed.

(** X17.  One call of [make_shortcut] per install, named [MoleditPy], with
    the icon that the resolver returned and [noexe=True]: in the start menu
    and not on the desktop on Windows and Linux, on the desktop and with a
    terminal on macOS. *)
Theorem shortcut_placement env w exe :
  supported (platform_system env) ->
  fst (find_executable env "moleditpy" w) = Ok (Some exe) ->
  exe ≠ EmptyString ->
  exists w' c icon,
    install env w = (Ok tt, w')
    /\ shortcut_calls w' = shortcut_calls w ++ [c]
    /\ fst (get_icon_path env w) = Ok icon
    /\ sc_name c = "MoleditPy"
    /\ sc_icon c = icon
    /\ sc_noexe c = Some true
    /\ (sc_desktop c, sc_startmenu c, sc_terminal c)
       = if decide (platform_system env = "Darwin")
         then (Some true, None, Some true)
         else (Some false, Some true, None).
Proof.
  intros Hsys Hfind Hexe.
  destruct (install_found_icon env w exe Hfind Hexe)
    as (icon & lines & Hicon & -> & _).
  destruct (install_located_call env icon exe (add_lines w lines) Hsys Hexe)
    as (w' & Hrun & Hcalls & _).
  exists w'. eexists. exists icon. split; [done|]. split; [exact Hcalls|].
  split; [done|]. by case_decide.
Qed.

Lemma shortcut_placement_witness :
  exists w' c icon,
    install linux_plain fresh_linux = (Ok tt, w')
    /\ shortcut_calls w' = shortcut_calls fresh_linux ++ [c]
    /\ fst (get_icon_path linux_plain fresh_linux) = Ok icon
    /\ sc_name c = "MoleditPy"
    /\ sc_icon c = icon
    /\ sc_noexe c = Some true
    /\ (sc_desktop c, sc_startmenu c, sc_terminal c)
       = if decide (platform_system linux_plain = "Darwin")
         then (Some true, None, Some true)
         else (Some false, Some true, None).
Proof.
  apply (shortcut_placement linux_plain fresh_linux "/x/moleditpy").
  - right. left. reflexivity.
  - vm_compute. reflexivity.
  - discriminate.
Defined.

(** X18.  When the icon resolver returns [None], [install] warns and goes
    on: the shortcut is made without an icon. *)
Theorem missing_icon_is_not_fatal env w exe :
  supported (platform_system env) ->
  fst (find_executable env "moleditpy" w) = Ok (Some exe) ->
  exe ≠ EmptyString ->
  fst (get_icon_path env w) = Ok None ->
  exists w' c,
    install env w = (Ok tt, w')
    /\ shortcut_calls w' = shortcut_calls w ++ [c]
    /\ sc_icon c = None
    /\ sc_script c = shortcut_command env exe
    /\ "Warning: Could not find a suitable icon file. A default icon will be used."
       ∈ stdout w'.
Proof.
  intros Hsys Hfind Hexe Hnone.
  destruct (install_found_icon env w exe Hfind Hexe)
    as (icon & lines & Hicon & -> & Hwarn).
  rewrite Hnone in Hicon. injection Hicon as <-.
  destruct (install_located_call env None exe (add_lines w lines) Hsys Hexe)
    as (w' & Hrun & Hcalls & (tail & Hout) & _).
  exists w'. eexists. split; [done|]. split; [exact Hcalls|].
  split; [by case_decide|]. split; [by case_decide|].
  rewrite Hout. cbn [stdout add_lines]. rewrite !elem_of_app.
  left. right. by apply Hwarn.
Qed.

Lemma missing_icon_is_not_fatal_witness :
  exists w' c,
    install linux_plain iconless_linux = (Ok tt, w')
    /\ shortcut_calls w' = shortcut_calls iconless_linux ++ [c]
    /\ sc_icon c = None
    /\ sc_script c = shortcut_command linux_plain "/x/moleditpy"
    /\ "Warning: Could not find a suitable icon file. A default icon will be used."
       ∈ stdout w'.
Proof.
  apply (missing_icon_is_not_fatal linux_plain iconless_linux "/x/moleditpy").
  - right. left. reflexivity.
  - vm_compute. reflexivity.
  - discriminate.
  - vm_compute. reflexivity.
Defined.

(** X19.  On a platform without shortcuts, [install] stops at the end of
    the shortcut step (line 349): no call of [make_shortcut], no change to
    the registry or the filesystem, and the last line names the platform. *)
Theorem install_on_unsupported_platform env w exe :
  ~ supported (platform_system env) ->
  fst (find_executable env "moleditpy" w) = Ok (Some exe) ->
  exe ≠ EmptyString ->
  exists w',
    install env w = (Ok tt, w')
    /\ shortcut_calls w' = shortcut_calls w
    /\ registry w' = registry w
    /\ fs w' = fs w
    /\ last (stdout w')
       = Some ("Shortcut creation is not supported on this OS: "
               +:+ platform_system env).
Proof.
  intros Hsys Hfind Hexe.
  destruct (install_found env w exe Hfind Hexe) as (icon & lines & ->).
  rewrite install_located_unsupported by done.
  eexists. split; [done|]. cbn [add_lines shortcut_calls registry fs stdout].
  repeat (split; [done|]).
  by rewrite !last_app.
Qed.

Lemma install_on_unsupported_platform_witness :
  exists w',
    install freebsd_machine fresh_linux = (Ok tt, w')
    /\ shortcut_calls w' = shortcut_calls fresh_linux
    /\ registry w' = registry fresh_linux
    /\ fs w' = fs fresh_linux
    /\ last (stdout w')
       = Some ("Shortcut creation is not supported on this OS: "
               +:+ platform_system freebsd_machine).
Proof.
  apply (install_on_unsupported_platform freebsd_machine fresh_linux
           "/x/moleditpy").
  - intros [H|[H|H]]; discriminate H.
  - vm_compute. reflexivity.
  - discriminate.
Defined.

(** ** Install and remove, one after the other *)

(** X20.  Running [install] twice on Windows leaves the registry as running
    it once does, and hands [make_shortcut] the same descriptor both
    times. *)
Theorem install_twice_same_registry env w exe :
  platform_system env = "Windows" ->
  fst (find_executable env "moleditpy" w) = Ok (Some exe) ->
  exe ≠ EmptyString ->
  exists w1 w2 c,
    install env w = (Ok tt, w1)
    /\ install env w1 = (Ok tt, w2)
    /\ registry w2 = registry w1
    /\ shortcut_calls w2 = shortcut_calls w ++ [c; c].
Proof.
  intros Hsys Hfind Hexe.
  destruct (install_found_icon env w exe Hfind Hexe)
    as (icon & lines & Hicon & -> & _).
  rewrite install_located_windows by done.
  eexists. 
  match goal with
  | |- exists w2 c, (_, ?w1) = _ /\ _ => set (w1' := w1)
  end.
  assert (Hfs : fs w1' = fs w) by done.
  assert (Hfind1 : fst (find_executable env "moleditpy" w1') = Ok (Some exe)).
  { rewrite <- Hfind. by apply find_executable_fs. }
  destruct (install_found_icon env w1' exe Hfind1 Hexe)
    as (icon1 & lines1 & Hicon1 & Hrun1 & _).
  rewrite (get_icon_path_fs env w1' w Hfs), Hicon in Hicon1.
  injection Hicon1 as <-.
  rewrite Hrun1, install_located_windows by done.
  eexists _, _. split; [done|]. split; [done|].
  cbn [registry shortcut_calls add_lines hkcu deleted]. subst w1'.
  cbn [registry shortcut_calls add_lines hkcu deleted fs]. split.
  - rewrite (icon_written_fs icon _ w) by done.
    rewrite (icon_written_fs icon (add_lines w lines) w) by done.
    by rewrite registered_hive_idempotent.
  - by rewrite <- app_assoc.
Qed.

Lemma install_twice_same_registry_witness :
  exists w1 w2 c,
    install windows_conda fresh_windows = (Ok tt, w1)
    /\ install windows_conda w1 = (Ok tt, w2)
    /\ registry w2 = registry w1
    /\ shortcut_calls w2 = shortcut_calls fresh_windows ++ [c; c].
Proof.
  apply (install_twice_same_registry windows_conda fresh_windows
           "C:\envs\envA\Scripts\moleditpy.exe").
  - reflexivity.
  - vm_compute. reflexivity.
  - discriminate.
Defined.

Lemma expected_shortcut_path_windows env :
  platform_system env = "Windows" ->
  exists shortcut_path, expected_shortcut_path env = Ok shortcut_path.
Proof.
  intros Hsys. unfold expected_shortcut_path. cbv zeta.
  rewrite decide_True by done.
  destruct (truthy (environ env !! "APPDATA")); by eexists.
Qed.

(** X21.  On Windows, [install] followed by [remove_shortcut] leaves none of
    the three registry keys of the installer, when the extension keys had no
    subkeys to begin with and the probe of the shortcut path returns. *)
Theorem install_then_remove env w exe :
  platform_system env = "Windows" ->
  wf_key (hkcu (registry w)) = true ->
  (forall p c, p ∈ extension_paths ->
               lookup_key (hkcu (registry w)) p = Some c -> subkeys c = []) ->
  fst (find_executable env "moleditpy" w) = Ok (Some exe) ->
  exe ≠ EmptyString ->
  (forall p e, expected_shortcut_path env = Ok (Some p) ->
               fs w !! p ≠ Some (Unreadable e)) ->
  exists w1 w2,
    install env w = (Ok tt, w1)
    /\ remove_shortcut env w1 = (Ok tt, w2)
    /\ forall p, p ∈ owned_paths -> lookup_key (hkcu (registry w2)) p = None.
Proof.
  intros Hsys Hwf Hleaf Hfind Hexe Hprobe.
  destruct (install_found env w exe Hfind Hexe) as (icon & lines & ->).
  rewrite install_located_windows by done.
  eexists.
  match goal with
  | |- exists w2, (_, ?w1) = _ /\ _ => set (w1' := w1)
  end.
  destruct (unregister_exact env w1' Hsys) as (w1'' & Hrun & Hk & Hfs & _).
  { subst w1'. cbn [registry hkcu]. by apply wf_registered_hive. }
  destruct (expected_shortcut_path_windows env Hsys) as [shortcut_path Hpath].
  rewrite (remove_shortcut_supported env w1' shortcut_path w1'');
    [|by left|done|done|].
  - eexists. split; [done|]. split; [done|].
    intros p Hp. cbn [registry]. rewrite Hk. subst w1'. cbn [registry hkcu].
    by apply unregistered_registered_hive.
  - intros p e ->. rewrite Hfs. subst w1'. cbn [fs add_lines].
    by apply Hprobe.
Qed.

Lemma install_then_remove_witness :
  exists w1 w2,
    install windows_conda fresh_windows = (Ok tt, w1)
    /\ remove_shortcut windows_conda w1 = (Ok tt, w2)
    /\ forall p, p ∈ owned_paths -> lookup_key (hkcu (registry w2)) p = None.
Proof.
  apply (install_then_remove windows_conda fresh_windows
           "C:\envs\envA\Scripts\moleditpy.exe").
  - reflexivity.
  - reflexivity.
  - intros p c Hp Hc. apply extension_path_cases in Hp as [-> | ->];
      vm_compute in Hc; discriminate Hc.
  - vm_compute. reflexivity.
  - discriminate.
  - intros p e Hp. vm_compute in Hp. injection Hp as <-.
    vm_compute. discriminate.
Defined.

Lemma wp_snd {A} (m : M A) w (P : World -> Prop) :
  wp m w (fun _ w' => P w') (fun _ w' => P w') -> P (snd (m w)).
Proof. unfold wp. by destruct (m w) as [[a|e] w']. Qed.

(** X22.  Off Windows the registry is never touched, in either mode and
    whether [main] returns or an exception leaves it. *)
Theorem registry_untouched_off_windows env (remove : bool) w :
  platform_system env ≠ "Windows" ->
  registry (snd (main env remove w)) = registry w.
Proof.
  intros Hsys.
  cut (registry (snd ((if remove then remove_shortcut env else install env) w))
       = registry w).
  { unfold main, mbind, M_bind.
    by destruct ((if remove then remove_shortcut env else install env) w)
      as [[[]|e] w']. }
  destruct remove.
  - apply (wp_snd (remove_shortcut env) w (fun w' => registry w' = registry w)).
    assert (Hstage : forall shortcut_path,
      wp (present ←
            match shortcut_path with
            | Some p => path_exists p
            | None => pure false
            end;
          if (present : bool) then
            let p := default EmptyString shortcut_path in
            try_except
              (is_dir ← path_is_dir p;
               (if (is_dir : bool) then shutil_rmtree env p else os_remove env p);;
               print ("Removed shortcut: " +:+ p))
              (fun e =>
                 print ("Failed to remove shortcut " +:+ p +:+ ": " +:+ exn_msg e))
          else
            print ("Shortcut not found at expected location: "
                   +:+ fmt_opt shortcut_path)) w
         (fun _ w' => registry w' = registry w)
         (fun _ w' => registry w' = registry w)).
    { intros shortcut_path. eapply wp_mono; [apply wp_delete_shortcut| |].
      - by intros [] w' ->.
      - by intros e w' [-> _]. }
    unfold remove_shortcut. cbv zeta. rewrite wp_bind.
    rewrite decide_False by done. repeat case_decide.
    + rewrite wp_bind, wp_lift_result. destruct (home_dir env); [|done].
      rewrite wp_pure. apply Hstage.
    + rewrite wp_bind, wp_lift_result. destruct (home_dir env); [|done].
      rewrite wp_pure. apply Hstage.
    + by rewrite wp_bind, wp_print, !wp_pure.
  - apply (wp_snd (install env) w (fun w' => registry w' = registry w)).
    unfold install. cbv zeta. apply wp_icon_stage. intros icon lines.
    rewrite wp_bind, wp_print, add_lines_app, wp_bind.
    destruct (find_executable_prints env "moleditpy"
                (add_lines w (lines
                   ++ ["Searching for the executable '" +:+ "moleditpy" +:+ "'..."])))
      as [lines' Hrun].
    unfold wp at 1. rewrite Hrun.
    destruct (fst (find_executable env "moleditpy" _)) as [res|e]; [|done].
    destruct (truthy res) eqn:Htruthy; cbn [negb].
    + apply truthy_inv in Htruthy as (exe & -> & Hexe).
      destruct (supported_dec (platform_system env)) as [[H|[H|H]]|H].
      * done.
      * eapply wp_run; [by apply install_located_menu|]. done.
      * eapply wp_run; [by apply install_located_desktop|]. done.
      * eapply wp_run; [by apply install_located_unsupported|]. done.
    + by rewrite wp_bind, wp_print, wp_bind, !wp_print.
Qed.

Lemma registry_untouched_off_windows_witness :
  registry (snd (main linux_plain false fresh_linux)) = registry fresh_linux.
Proof.
  apply (registry_untouched_off_windows linux_plain false fresh_linux).
  discriminate.
Defined.
